(** * Task service: authorization-scoped queries and mutations

    A shallow embedding of [backend/src/services/task.service.ts], of the
    validation schemas it calls ([validation/task.validation.ts]), of
    [utils/database-errors.ts] and of the task controllers, together with
    the properties of the query and mutation engine.

    Conventions of the embedding:
    - a JavaScript string is a [string]: a sequence of code units, here the
      ones below 256; [length] is the JavaScript [.length];
    - a [Date] is its epoch time in milliseconds, a [Z]; a JavaScript number
      that the schemas accept is an integer, a [Z], and its arithmetic is
      exact (true of doubles as long as the values stay below 2^53);
    - the Prisma client is modelled by an in-memory store: the two tables are
      lists of rows in physical order, the calls of [Call.t] are recorded in
      a log, and a call fails only the way Prisma documents it for a
      reachable database (P2025 when the row to update, delete or connect is
      missing, P2002 and P2003 when a created row breaks the primary key or
      a foreign key);
    - a string filter [{ contains, mode }] is what the PostgreSQL connector
      makes of it: [LIKE '%q%'] or [ILIKE '%q%'] with the query spliced in
      unescaped, so that [%], [_] and backslash in the query are pattern
      characters ([Db.like]); ILIKE folds the letters below 256;
    - [updatedAt] is [@updatedAt]: an update stamps it when it writes a
      scalar column, and leaves it when it writes none (the empty update,
      connecting or disconnecting the assignee alone);
    - an [async] function is a computation in the monad [Prisma]: it threads
      the store and either returns a value or throws a JavaScript error. *)

From Stdlib Require Import String Ascii List ZArith Lia Bool Sorted Btauto.
Import ListNotations.
Open Scope string_scope.
Open Scope Z_scope.

(** ** JavaScript strings *)

Module Js.

(** WhiteSpace and LineTerminator code units below 256 (ECMAScript
    [String.prototype.trim]): TAB, LF, VT, FF, CR, SP and NBSP. *)
Definition isWhiteSpace (c : ascii) : bool :=
  let n := nat_of_ascii c in
  (Nat.eqb n 9 || Nat.eqb n 10 || Nat.eqb n 11 || Nat.eqb n 12
   || Nat.eqb n 13 || Nat.eqb n 32 || Nat.eqb n 160)%bool.

Fixpoint trimStart (s : string) : string :=
  match s with
  | EmptyString => EmptyString
  | String c s' => if isWhiteSpace c then trimStart s' else s
  end.

Fixpoint trimEnd (s : string) : string :=
  match s with
  | EmptyString => EmptyString
  | String c s' =>
      match trimEnd s' with
      | EmptyString => if isWhiteSpace c then EmptyString else String c EmptyString
      | r => String c r
      end
  end.

(** [s.trim()] *)
Definition trim (s : string) : string := trimEnd (trimStart s).

(** Truthiness of a string: only the empty string is falsy. *)
Definition truthy (s : string) : bool :=
  match s with EmptyString => false | _ => true end.

(** [s.includes(sub)] *)
Fixpoint includes (s sub : string) : bool :=
  (String.prefix sub s
   || match s with
      | EmptyString => false
      | String _ s' => includes s' sub
      end)%bool.

(** Case folding of the letters A-Z, the part of the insensitive
    comparison that does not depend on the database collation. *)
Definition lowerChar (c : ascii) : ascii :=
  let n := nat_of_ascii c in
  if (Nat.leb 65 n && Nat.leb n 90)%bool then ascii_of_nat (n + 32) else c.

Fixpoint toLowerCase (s : string) : string :=
  match s with
  | EmptyString => EmptyString
  | String c s' => String (lowerChar c) (toLowerCase s')
  end.

(** [s.length], as a number. *)
Definition length (s : string) : Z := Z.of_nat (String.length s).

(** Every code unit of the string is white space. *)
Fixpoint allWhiteSpace (s : string) : bool :=
  match s with
  | EmptyString => true
  | String c s' => (isWhiteSpace c && allWhiteSpace s')%bool
  end.

(** The double quote, which Joi puts around a field label. *)
Definition dq : string := String (ascii_of_nat 34) EmptyString.

End Js.

(** A property of a JavaScript object that may be missing or [null]:
    [undefined], [null] or a value. *)
Inductive Field (A : Type) : Type :=
| Undefined : Field A
| Null : Field A
| Value : A -> Field A.
Arguments Undefined {A}.
Arguments Null {A}.
Arguments Value {A} _.

(** ** Data model (the [tasks] and [users] tables) *)

Inductive TaskStatus : Type := PENDING | IN_PROGRESS | COMPLETED.
Inductive TaskPriority : Type := LOW | MEDIUM | HIGH.
Inductive SortOrder : Type := asc | desc.

Definition TaskStatus_eqb (a b : TaskStatus) : bool :=
  match a, b with
  | PENDING, PENDING | IN_PROGRESS, IN_PROGRESS | COMPLETED, COMPLETED => true
  | _, _ => false
  end.

Definition TaskPriority_eqb (a b : TaskPriority) : bool :=
  match a, b with
  | LOW, LOW | MEDIUM, MEDIUM | HIGH, HIGH => true
  | _, _ => false
  end.

(** Position of a label in its enum type, the order the database sorts by. *)
Definition TaskStatus_rank (s : TaskStatus) : Z :=
  match s with PENDING => 0 | IN_PROGRESS => 1 | COMPLETED => 2 end.

Definition TaskPriority_rank (p : TaskPriority) : Z :=
  match p with LOW => 0 | MEDIUM => 1 | HIGH => 2 end.

Module User.
Record t : Type := mk {
  id : string;
  email : string;
  name : string;
  passwordHash : string;
  createdAt : Z;
  updatedAt : Z
}.
End User.

Module Task.
Record t : Type := mk {
  id : string;
  title : string;
  description : option string;
  status : TaskStatus;
  priority : TaskPriority;
  dueDate : option Z;
  createdAt : Z;
  updatedAt : Z;
  creatorId : string;
  assigneeId : option string
}.
End Task.

(** The [select: { id, name, email }] projection of a related user. *)
Record UserSummary : Type := mkUserSummary {
  us_id : string;
  us_name : string;
  us_email : string
}.

(** [TaskWithRelations]: a task row joined with its creator and assignee. *)
Record TaskWithRelations : Type := mkTaskWithRelations {
  task : Task.t;
  creator : option UserSummary;
  assignee : option UserSummary
}.

(** The row-level visibility predicate: the actor created the task or is
    its assignee. *)
Definition visibleTo (userId : string) (t : Task.t) : bool :=
  (String.eqb (Task.creatorId t) userId
   || match Task.assigneeId t with
      | Some a => String.eqb a userId
      | None => false
      end)%bool.

(** ** The Prisma client: query arguments *)

Inductive QueryMode : Type := sensitive | insensitive.

(** [{ contains: s, mode }] *)
Record StringFilter : Type := mkStringFilter {
  contains : string;
  mode : QueryMode
}.

(** [{ gte?, lte? }] *)
Record DateTimeFilter : Type := mkDateTimeFilter {
  gte : option Z;
  lte : option Z
}.

(** [Prisma.TaskWhereInput], with the keys the service uses. A key that is
    [None] is absent from the object. *)
Module Where.
#[local] Set Warnings "-register-all".
Inductive t : Type := mk {
  AND : option (list t);
  OR : option (list t);
  id : option string;
  status : option TaskStatus;
  priority : option TaskPriority;
  assigneeId : option string;
  creatorId : option string;
  dueDate : option DateTimeFilter;
  title : option StringFilter;
  description : option StringFilter
}.

(** The object literal [{}]. *)
Definition empty : t :=
  mk None None None None None None None None None None.

(** Assignments [w.key = v] and [delete w.OR] on a where object. *)
Definition set_AND (v : list t) (w : t) : t :=
  mk (Some v) (OR w) (id w) (status w) (priority w) (assigneeId w)
     (creatorId w) (dueDate w) (title w) (description w).
Definition set_OR (v : list t) (w : t) : t :=
  mk (AND w) (Some v) (id w) (status w) (priority w) (assigneeId w)
     (creatorId w) (dueDate w) (title w) (description w).
Definition delete_OR (w : t) : t :=
  mk (AND w) None (id w) (status w) (priority w) (assigneeId w)
     (creatorId w) (dueDate w) (title w) (description w).
Definition set_id (v : string) (w : t) : t :=
  mk (AND w) (OR w) (Some v) (status w) (priority w) (assigneeId w)
     (creatorId w) (dueDate w) (title w) (description w).
Definition set_status (v : TaskStatus) (w : t) : t :=
  mk (AND w) (OR w) (id w) (Some v) (priority w) (assigneeId w)
     (creatorId w) (dueDate w) (title w) (description w).
Definition set_priority (v : TaskPriority) (w : t) : t :=
  mk (AND w) (OR w) (id w) (status w) (Some v) (assigneeId w)
     (creatorId w) (dueDate w) (title w) (description w).
Definition set_assigneeId (v : string) (w : t) : t :=
  mk (AND w) (OR w) (id w) (status w) (priority w) (Some v)
     (creatorId w) (dueDate w) (title w) (description w).
Definition set_creatorId (v : string) (w : t) : t :=
  mk (AND w) (OR w) (id w) (status w) (priority w) (assigneeId w)
     (Some v) (dueDate w) (title w) (description w).
Definition set_dueDate (v : DateTimeFilter) (w : t) : t :=
  mk (AND w) (OR w) (id w) (status w) (priority w) (assigneeId w)
     (creatorId w) (Some v) (title w) (description w).
Definition set_title (v : StringFilter) (w : t) : t :=
  mk (AND w) (OR w) (id w) (status w) (priority w) (assigneeId w)
     (creatorId w) (dueDate w) (Some v) (description w).
Definition set_description (v : StringFilter) (w : t) : t :=
  mk (AND w) (OR w) (id w) (status w) (priority w) (assigneeId w)
     (creatorId w) (dueDate w) (title w) (Some v).
End Where.

(** ** The database's pattern matching: [LIKE] and [ILIKE] *)

Module Db.

(** [lower()] on code units below 256, for a UTF-8 database with a
    non-C locale: the letters A-Z and the Latin-1 capitals. *)
Definition lowerChar (c : ascii) : ascii :=
  let n := nat_of_ascii c in
  if ((Nat.leb 65 n && Nat.leb n 90)
      || (Nat.leb 192 n && Nat.leb n 214)
      || (Nat.leb 216 n && Nat.leb n 222))%bool
  then ascii_of_nat (n + 32) else c.

Fixpoint lower (s : string) : string :=
  match s with
  | EmptyString => EmptyString
  | String c s' => String (lowerChar c) (lower s')
  end.

Definition percent : ascii := ascii_of_nat 37.
Definition underscore : ascii := ascii_of_nat 95.
Definition backslash : ascii := ascii_of_nat 92.

(** [s LIKE p]: in the pattern [%] stands for any sequence of characters,
    [_] for any one character, and a backslash makes the next character
    stand for itself. *)
Fixpoint like (p : string) : string -> bool :=
  match p with
  | EmptyString => fun s => match s with EmptyString => true | _ => false end
  | String c p' =>
      if Ascii.eqb c percent then
        fix anySuffix (s : string) : bool :=
          (like p' s
           || match s with
              | EmptyString => false
              | String _ s' => anySuffix s'
              end)%bool
      else if Ascii.eqb c underscore then
        fun s => match s with
                 | EmptyString => false
                 | String _ s' => like p' s'
                 end
      else if Ascii.eqb c backslash then
        match p' with
        | EmptyString => fun _ => false
        | String d p'' =>
            fun s => match s with
                     | EmptyString => false
                     | String x s' => (Ascii.eqb x d && like p'' s')%bool
                     end
        end
      else
        fun s => match s with
                 | EmptyString => false
                 | String x s' => (Ascii.eqb x c && like p' s')%bool
                 end
  end.

(** What the client sends for [contains: q]: the pattern [%q%], with [q]
    put in as it is, so that [%], [_] and the backslash of [q] keep their
    meaning in the pattern. *)
Definition pattern (q : string) : string :=
  String percent (q ++ String percent EmptyString).

(** [s LIKE '%q%'] *)
Definition likeContains (q s : string) : bool := like (pattern q) s.

(** [s ILIKE '%q%']: both sides lower-cased, then [LIKE]. *)
Definition ilikeContains (q s : string) : bool := like (lower (pattern q)) (lower s).

(** The query has none of the three characters with a meaning in a
    pattern. *)
Fixpoint plain (q : string) : bool :=
  match q with
  | EmptyString => true
  | String c q' =>
      (negb (Ascii.eqb c percent) && negb (Ascii.eqb c underscore)
       && negb (Ascii.eqb c backslash) && plain q')%bool
  end.

End Db.

(** A condition on a key that may be absent: absent keys do not constrain. *)
Definition whenSet {A : Type} (k : option A) (test : A -> bool) : bool :=
  match k with
  | None => true
  | Some v => test v
  end.

Definition matchesString (f : StringFilter) (s : string) : bool :=
  match mode f with
  | sensitive => Db.likeContains (contains f) s
  | insensitive => Db.ilikeContains (contains f) s
  end.

(** A comparison with a NULL column is not true. *)
Definition matchesDate (f : DateTimeFilter) (d : option Z) : bool :=
  match gte f, lte f with
  | None, None => true
  | lo, hi =>
      match d with
      | None => false
      | Some v => (whenSet lo (fun b => b <=? v) && whenSet hi (fun b => v <=? b))%bool
      end
  end.

(** The rows a where object selects: its keys are conjoined, [AND] is the
    conjunction and [OR] the disjunction of its members. *)
Fixpoint matches (w : Where.t) (t : Task.t) {struct w} : bool :=
  match w with
  | Where.mk a o i st pr asg cr dd ti de =>
      (match a with
       | None => true
       | Some l => forallb (fun w' => matches w' t) l
       end
       && match o with
          | None => true
          | Some l => existsb (fun w' => matches w' t) l
          end
       && whenSet i (String.eqb (Task.id t))
       && whenSet st (TaskStatus_eqb (Task.status t))
       && whenSet pr (TaskPriority_eqb (Task.priority t))
       && whenSet asg (fun v => match Task.assigneeId t with
                                | Some a' => String.eqb a' v
                                | None => false
                                end)
       && whenSet cr (String.eqb (Task.creatorId t))
       && whenSet dd (fun f => matchesDate f (Task.dueDate t))
       && whenSet ti (fun f => matchesString f (Task.title t))
       && whenSet de (fun f => match Task.description t with
                               | Some d => matchesString f d
                               | None => false
                               end))%bool
  end.

(** [Prisma.TaskOrderByWithRelationInput]: at most one key is set. *)
Module OrderBy.
Record t : Type := mk {
  createdAt : option SortOrder;
  updatedAt : option SortOrder;
  dueDate : option SortOrder;
  title : option SortOrder;
  priority : option SortOrder;
  status : option SortOrder
}.
Definition empty : t := mk None None None None None None.
End OrderBy.

Inductive SortField : Type :=
| ByCreatedAt | ByUpdatedAt | ByDueDate | ByTitle | ByPriority | ByStatus.

Definition orderKey (o : OrderBy.t) : option (SortField * SortOrder) :=
  match OrderBy.createdAt o, OrderBy.updatedAt o, OrderBy.dueDate o,
        OrderBy.title o, OrderBy.priority o, OrderBy.status o with
  | Some d, _, _, _, _, _ => Some (ByCreatedAt, d)
  | _, Some d, _, _, _, _ => Some (ByUpdatedAt, d)
  | _, _, Some d, _, _, _ => Some (ByDueDate, d)
  | _, _, _, Some d, _, _ => Some (ByTitle, d)
  | _, _, _, _, Some d, _ => Some (ByPriority, d)
  | _, _, _, _, _, Some d => Some (ByStatus, d)
  | _, _, _, _, _, _ => None
  end.

(** Ascending order of a column; NULL sorts after every value. *)
Definition fieldLeb (f : SortField) (a b : Task.t) : bool :=
  match f with
  | ByCreatedAt => Task.createdAt a <=? Task.createdAt b
  | ByUpdatedAt => Task.updatedAt a <=? Task.updatedAt b
  | ByDueDate =>
      match Task.dueDate a, Task.dueDate b with
      | Some x, Some y => x <=? y
      | _, None => true
      | None, Some _ => false
      end
  | ByTitle => String.leb (Task.title a) (Task.title b)
  | ByPriority => TaskPriority_rank (Task.priority a) <=? TaskPriority_rank (Task.priority b)
  | ByStatus => TaskStatus_rank (Task.status a) <=? TaskStatus_rank (Task.status b)
  end.

Definition orderLeb (k : SortField * SortOrder) (a b : Task.t) : bool :=
  match snd k with
  | asc => fieldLeb (fst k) a b
  | desc => fieldLeb (fst k) b a
  end.

Section Sorting.
Context {A : Type} (leb : A -> A -> bool).

Fixpoint insertSorted (x : A) (l : list A) : list A :=
  match l with
  | [] => [x]
  | y :: l' => if leb x y then x :: l else y :: insertSorted x l'
  end.

(** A stable sort: rows that compare equal keep their physical order. *)
Fixpoint sortRows (l : list A) : list A :=
  match l with
  | [] => []
  | x :: l' => insertSorted x (sortRows l')
  end.
End Sorting.

Definition applyOrder (o : OrderBy.t) (rows : list Task.t) : list Task.t :=
  match orderKey o with
  | Some k => sortRows (orderLeb k) rows
  | None => rows
  end.

(** [skip] and [take], when given. *)
Definition page {A : Type} (skip take : option Z) (rows : list A) : list A :=
  let rest := match skip with
              | Some n => skipn (Z.to_nat n) rows
              | None => rows
              end in
  match take with
  | Some n => firstn (Z.to_nat n) rest
  | None => rest
  end.

Inductive AssigneeUpdate : Type :=
| disconnect : AssigneeUpdate
| connect : string -> AssigneeUpdate.

(** [Prisma.TaskUpdateInput]: the keys the service sets. *)
Module UpdateInput.
Record t : Type := mk {
  title : option string;
  description : option string;
  status : option TaskStatus;
  priority : option TaskPriority;
  dueDate : option (option Z);
  assignee : option AssigneeUpdate
}.
Definition empty : t := mk None None None None None None.
End UpdateInput.

(** The calls the client receives, with their arguments. *)
Module Call.
Inductive t : Type :=
| task_findFirst (where_ : Where.t)
| task_findMany (where_ : Where.t) (orderBy : OrderBy.t) (skip take : option Z)
| task_count (where_ : Where.t)
| task_update (id : string) (data : UpdateInput.t)
| task_delete (id : string)
| user_findUnique (id : string).
End Call.

(** ** JavaScript errors *)

(** The classes of error the code tells apart with [instanceof]. *)
Inductive ErrorClass : Type :=
| PlainError
| PrismaClientKnownRequestError (code : string) (target : option (list string))
| PrismaClientUnknownRequestError
| PrismaClientRustPanicError
| PrismaClientInitializationError
| PrismaClientValidationError.

(** Every class extends [Error] and carries a [message]. *)
Record JsError : Type := mkJsError {
  class : ErrorClass;
  message : string
}.

(** [new Error(msg)] *)
Definition Error (msg : string) : JsError := mkJsError PlainError msg.

(** ** The store and the monad of asynchronous calls *)

Record World : Type := mkWorld {
  tasks : list Task.t;
  users : list User.t;
  now : Z;
  log : list Call.t
}.

Inductive Outcome (A : Type) : Type :=
| Returned : A -> Outcome A
| Thrown : JsError -> Outcome A.
Arguments Returned {A} _.
Arguments Thrown {A} _.

Definition Prisma (A : Type) : Type := World -> Outcome A * World.

Definition ret {A : Type} (a : A) : Prisma A := fun w => (Returned a, w).

Definition throw {A : Type} (e : JsError) : Prisma A := fun w => (Thrown e, w).

Definition bind {A B : Type} (m : Prisma A) (k : A -> Prisma B) : Prisma B :=
  fun w =>
    match m w with
    | (Returned a, w') => k a w'
    | (Thrown e, w') => (Thrown e, w')
    end.

(** [try { m } catch (error) { handler error }] *)
Definition tryCatch {A : Type} (m : Prisma A) (handler : JsError -> Prisma A) : Prisma A :=
  fun w =>
    match m w with
    | (Returned a, w') => (Returned a, w')
    | (Thrown e, w') => handler e w'
    end.

Notation "x <- m ;; k" := (bind m (fun x => k))
  (at level 61, m at next level, right associativity).
Notation "m ;;; k" := (bind m (fun _ => k))
  (at level 61, right associativity).

Definition record (c : Call.t) : Prisma unit :=
  fun w => (Returned tt, mkWorld (tasks w) (users w) (now w) (log w ++ [c])).

Definition getWorld : Prisma World := fun w => (Returned w, w).

Definition setTasks (ts : list Task.t) : Prisma unit :=
  fun w => (Returned tt, mkWorld ts (users w) (now w) (log w)).

Definition summary (u : User.t) : UserSummary :=
  mkUserSummary (User.id u) (User.name u) (User.email u).

Definition findUser (us : list User.t) (id : string) : option User.t :=
  find (fun u => String.eqb (User.id u) id) us.

(** The [include: { creator, assignee }] join. *)
Definition withRelations (us : list User.t) (t : Task.t) : TaskWithRelations :=
  mkTaskWithRelations t
    (option_map summary (findUser us (Task.creatorId t)))
    (match Task.assigneeId t with
     | Some a => option_map summary (findUser us a)
     | None => None
     end).

(** The P2025 error of the client: a record the operation depends on was
    not found. *)
Definition recordNotFound : JsError :=
  mkJsError (PrismaClientKnownRequestError "P2025" None)
    "An operation failed because it depends on one or more records that were required but not found.".

(** The update writes a scalar column of the row. *)
Definition writesScalar (data : UpdateInput.t) : bool :=
  match UpdateInput.title data, UpdateInput.description data, UpdateInput.status data,
        UpdateInput.priority data, UpdateInput.dueDate data with
  | None, None, None, None, None => false
  | _, _, _, _, _ => true
  end.

(** The row after [data] is applied. The client stamps [updatedAt] (the
    column is NOT NULL and has no database default) when the update
    writes a scalar column; an update with no data, or with the relation
    alone, leaves it as it was. *)
Definition applyUpdate (time : Z) (data : UpdateInput.t) (t : Task.t) : Task.t :=
  Task.mk (Task.id t)
    (match UpdateInput.title data with Some v => v | None => Task.title t end)
    (match UpdateInput.description data with Some v => Some v | None => Task.description t end)
    (match UpdateInput.status data with Some v => v | None => Task.status t end)
    (match UpdateInput.priority data with Some v => v | None => Task.priority t end)
    (match UpdateInput.dueDate data with Some v => v | None => Task.dueDate t end)
    (Task.createdAt t)
    (if writesScalar data then time else Task.updatedAt t)
    (Task.creatorId t)
    (match UpdateInput.assignee data with
     | Some disconnect => None
     | Some (connect u) => Some u
     | None => Task.assigneeId t
     end).

Definition hasId (id : string) (t : Task.t) : bool := String.eqb (Task.id t) id.

(** [Prisma.TaskUncheckedCreateInput]: the keys [createTask] sets. *)
Module CreateInput.
Record t : Type := mk {
  title : string;
  description : option string;
  status : TaskStatus;
  priority : TaskPriority;
  dueDate : option Z;
  creatorId : string;
  assigneeId : option string
}.
End CreateInput.

(** The P2002 error of the client on the primary key of [tasks]. *)
Definition uniqueViolationOnId : JsError :=
  mkJsError (PrismaClientKnownRequestError "P2002" (Some ["id"]))
    "Unique constraint failed on the fields: (`id`)".

(** The P2003 error of the client. *)
Definition foreignKeyViolation : JsError :=
  mkJsError (PrismaClientKnownRequestError "P2003" None)
    "Foreign key constraint failed".

(** ON DELETE SET NULL on [assignee_id]. *)
Definition clearAssignee (userId : string) (t : Task.t) : Task.t :=
  match Task.assigneeId t with
  | Some a =>
      if String.eqb a userId then
        Task.mk (Task.id t) (Task.title t) (Task.description t) (Task.status t)
          (Task.priority t) (Task.dueDate t) (Task.createdAt t) (Task.updatedAt t)
          (Task.creatorId t) None
      else t
  | None => t
  end.

Module prisma.

(** [prisma.task.findFirst({ where })] *)
Definition task_findFirst (where_ : Where.t) : Prisma (option Task.t) :=
  record (Call.task_findFirst where_) ;;;
  w <- getWorld ;;
  ret (find (matches where_) (tasks w)).

(** [prisma.task.findMany({ where, include, orderBy, skip, take })] *)
Definition task_findMany (where_ : Where.t) (orderBy : OrderBy.t)
    (skip take : option Z) : Prisma (list TaskWithRelations) :=
  record (Call.task_findMany where_ orderBy skip take) ;;;
  w <- getWorld ;;
  ret (map (withRelations (users w))
         (page skip take (applyOrder orderBy (filter (matches where_) (tasks w))))).

(** [prisma.task.count({ where })] *)
Definition task_count (where_ : Where.t) : Prisma Z :=
  record (Call.task_count where_) ;;;
  w <- getWorld ;;
  ret (Z.of_nat (List.length (filter (matches where_) (tasks w)))).

(** [prisma.user.findUnique({ where: { id } })] *)
Definition user_findUnique (id : string) : Prisma (option User.t) :=
  record (Call.user_findUnique id) ;;;
  w <- getWorld ;;
  ret (findUser (users w) id).

(** [prisma.task.update({ where: { id }, data, include })] *)
Definition task_update (id : string) (data : UpdateInput.t) : Prisma TaskWithRelations :=
  record (Call.task_update id data) ;;;
  w <- getWorld ;;
  match find (hasId id) (tasks w) with
  | None => throw recordNotFound
  | Some t =>
      let connected :=
        match UpdateInput.assignee data with
        | Some (connect u) =>
            match findUser (users w) u with Some _ => true | None => false end
        | _ => true
        end in
      if connected then
        let t' := applyUpdate (now w) data t in
        setTasks (map (fun r => if hasId id r then t' else r) (tasks w)) ;;;
        ret (withRelations (users w) t')
      else throw recordNotFound
  end.

(** [prisma.task.delete({ where: { id } })] *)
Definition task_delete (id : string) : Prisma Task.t :=
  record (Call.task_delete id) ;;;
  w <- getWorld ;;
  match find (hasId id) (tasks w) with
  | None => throw recordNotFound
  | Some t =>
      setTasks (filter (fun r => negb (hasId id r)) (tasks w)) ;;;
      ret t
  end.

(** The operations below change or read the tables only: the call log
    keeps to the calls listed in [Call.t]. *)

(** [prisma.task.create({ data, include })]. The id is the one the column
    default generates, here the argument [newId]; [createdAt] and
    [updatedAt] are set to the current time. The primary key and the two
    foreign keys of the table are checked. *)
Definition task_create (newId : string) (data : CreateInput.t) : Prisma TaskWithRelations :=
  w <- getWorld ;;
  match find (hasId newId) (tasks w) with
  | Some _ => throw uniqueViolationOnId
  | None =>
      let referenced :=
        (match findUser (users w) (CreateInput.creatorId data) with
         | Some _ => true
         | None => false
         end
         && match CreateInput.assigneeId data with
            | Some a => match findUser (users w) a with Some _ => true | None => false end
            | None => true
            end)%bool in
      if referenced then
        let t := Task.mk newId (CreateInput.title data) (CreateInput.description data)
                   (CreateInput.status data) (CreateInput.priority data)
                   (CreateInput.dueDate data) (now w) (now w)
                   (CreateInput.creatorId data) (CreateInput.assigneeId data) in
        setTasks (tasks w ++ [t]) ;;;
        ret (withRelations (users w) t)
      else throw foreignKeyViolation
  end.

(** [prisma.user.delete({ where: { id } })]. The foreign keys of [tasks]
    act on the deletion: [creator_id] is ON DELETE CASCADE, [assignee_id]
    is ON DELETE SET NULL. *)
Definition user_delete (id : string) : Prisma User.t :=
  w <- getWorld ;;
  match findUser (users w) id with
  | None => throw recordNotFound
  | Some u =>
      (fun w0 =>
         (Returned u,
          mkWorld
            (map (clearAssignee id)
               (filter (fun t => negb (String.eqb (Task.creatorId t) id)) (tasks w0)))
            (filter (fun x => negb (String.eqb (User.id x) id)) (users w0))
            (now w0) (log w0)))
  end.

End prisma.

(** ** [utils/database-errors.ts] *)

Record DatabaseError : Type := mkDatabaseError {
  db_code : string;
  db_message : string;
  db_field : option string
}.

Definition handleDatabaseError (error : JsError) : DatabaseError :=
  match class error with
  | PrismaClientKnownRequestError code target =>
      if String.eqb code "P2002" then
        let field0 := match target with
                      | Some fs => hd_error fs
                      | None => None
                      end in
        let shown := match field0 with
                     | Some f => if Js.truthy f then f else "value"
                     | None => "value"
                     end in
        mkDatabaseError "UNIQUE_CONSTRAINT_VIOLATION"
          ("A record with this " ++ shown ++ " already exists") field0
      else if String.eqb code "P2025" then
        mkDatabaseError "RECORD_NOT_FOUND" "The requested record was not found" None
      else if String.eqb code "P2003" then
        mkDatabaseError "FOREIGN_KEY_CONSTRAINT_VIOLATION"
          "Referenced record does not exist" None
      else if String.eqb code "P2014" then
        mkDatabaseError "REQUIRED_RELATION_VIOLATION"
          "The change would violate a required relation" None
      else
        mkDatabaseError "DATABASE_ERROR" "A database error occurred" None
  | PrismaClientUnknownRequestError =>
      mkDatabaseError "UNKNOWN_DATABASE_ERROR" "An unknown database error occurred" None
  | PrismaClientRustPanicError =>
      mkDatabaseError "DATABASE_PANIC" "Database engine encountered an error" None
  | PrismaClientInitializationError =>
      mkDatabaseError "DATABASE_INITIALIZATION_ERROR"
        "Failed to initialize database connection" None
  | PrismaClientValidationError =>
      mkDatabaseError "VALIDATION_ERROR" "Invalid data provided to database" None
  | PlainError =>
      mkDatabaseError "INTERNAL_ERROR" "An internal error occurred" None
  end.

(** ** [validation/task.validation.ts] *)

Module TaskUpdateData.
Record t : Type := mk {
  title : Field string;
  description : Field string;
  status : Field TaskStatus;
  priority : Field TaskPriority;
  dueDate : Field Z;
  assigneeId : Field string
}.
(** The patch [{}]. *)
Definition empty : t := mk Undefined Undefined Undefined Undefined Undefined Undefined.
End TaskUpdateData.

Module TaskFilterData.
Record t : Type := mk {
  status : option TaskStatus;
  priority : option TaskPriority;
  assigneeId : option string;
  creatorId : option string;
  dueDateFrom : option Z;
  dueDateTo : option Z;
  search : option string;
  page : option Z;
  limit : option Z;
  sortBy : option string;
  sortOrder : option SortOrder
}.
(** The default argument [{}]. *)
Definition empty : t :=
  mk None None None None None None None None None None None.
End TaskFilterData.

(** What [taskFilterSchema.validate] returns as [value]: defaults applied. *)
Module TaskFilterValue.
Record t : Type := mk {
  status : option TaskStatus;
  priority : option TaskPriority;
  assigneeId : option string;
  creatorId : option string;
  dueDateFrom : option Z;
  dueDateTo : option Z;
  search : option string;
  page : Z;
  limit : Z;
  sortBy : string;
  sortOrder : SortOrder
}.
End TaskFilterValue.

Module Joi.

(** [{ error, value }]: the message of the first error, or the value. *)
Definition Result (A : Type) : Type := (string + A)%type.

Definition andThen {A B : Type} (r : Result A) (k : A -> Result B) : Result B :=
  match r with
  | inl msg => inl msg
  | inr a => k a
  end.

Definition label (key : string) : string := Js.dq ++ key ++ Js.dq.

(** [Joi.string()] with no other rule: the empty string is refused. *)
Definition nonEmpty (key : string) (s : string) : Result string :=
  if Js.truthy s then inr s else inl (label key ++ " is not allowed to be empty").

Definition maxSafe : Z := 9007199254740991.

(** [Joi.number().integer().min(lo)] with an optional [max(hi)] and a
    default; the bounds come with their decimal spelling for the message. *)
Definition integer (key : string) (lo : Z * string) (hi : option (Z * string))
    (default : Z) (n : option Z) : Result Z :=
  match n with
  | None => inr default
  | Some v =>
      if ((v <? - maxSafe) || (maxSafe <? v))%bool then
        inl (label key ++ " must be a safe number")
      else if v <? fst lo then
        inl (label key ++ " must be greater than or equal to " ++ snd lo)
      else
        match hi with
        | Some h =>
            if fst h <? v then
              inl (label key ++ " must be less than or equal to " ++ snd h)
            else inr v
        | None => inr v
        end
  end.

Definition sortFields : list string :=
  ["createdAt"; "updatedAt"; "dueDate"; "title"; "priority"; "status"].

End Joi.

(** [taskUpdateSchema.validate(updateData)] *)
Definition taskUpdateSchema (d : TaskUpdateData.t) : Joi.Result TaskUpdateData.t :=
  Joi.andThen
    (match TaskUpdateData.title d with
     | Undefined => inr Undefined
     | Null => inl (Joi.label "title" ++ " must be a string")
     | Value s =>
         let s' := Js.trim s in
         if negb (Js.truthy s') then inl "Task title cannot be empty"
         else if Js.length s' <? 1 then inl "Task title cannot be empty"
         else if 255 <? Js.length s' then inl "Task title must be less than 255 characters"
         else inr (Value s')
     end)
    (fun title =>
  Joi.andThen
    (match TaskUpdateData.description d with
     | Undefined => inr Undefined
     | Null => inl (Joi.label "description" ++ " must be a string")
     | Value s =>
         let s' := Js.trim s in
         if negb (Js.truthy s') then inr (Value s')
         else if 2000 <? Js.length s' then
           inl "Task description must be less than 2000 characters"
         else inr (Value s')
     end)
    (fun description =>
  Joi.andThen
    (match TaskUpdateData.status d with
     | Null => inl "Status must be one of: PENDING, IN_PROGRESS, COMPLETED"
     | f => inr f
     end)
    (fun status =>
  Joi.andThen
    (match TaskUpdateData.priority d with
     | Null => inl "Priority must be one of: LOW, MEDIUM, HIGH"
     | f => inr f
     end)
    (fun priority =>
  Joi.andThen
    (match TaskUpdateData.assigneeId d with
     | Value s =>
         if Js.truthy s then inr (Value s)
         else inl (Joi.label "assigneeId" ++ " is not allowed to be empty")
     | f => inr f
     end)
    (fun assigneeId =>
  inr (TaskUpdateData.mk title description status priority
         (TaskUpdateData.dueDate d) assigneeId)))))).

(** [taskFilterSchema.validate(filters)] *)
Definition taskFilterSchema (f : TaskFilterData.t) : Joi.Result TaskFilterValue.t :=
  Joi.andThen
    (match TaskFilterData.assigneeId f with
     | Some s => Joi.andThen (Joi.nonEmpty "assigneeId" s) (fun v => inr (Some v))
     | None => inr None
     end)
    (fun assigneeId =>
  Joi.andThen
    (match TaskFilterData.creatorId f with
     | Some s => Joi.andThen (Joi.nonEmpty "creatorId" s) (fun v => inr (Some v))
     | None => inr None
     end)
    (fun creatorId =>
  Joi.andThen
    (match TaskFilterData.search f with
     | None => inr None
     | Some s =>
         let s' := Js.trim s in
         if negb (Js.truthy s') then
           inl (Joi.label "search" ++ " is not allowed to be empty")
         else if Js.length s' <? 2 then
           inl "Search query must be at least 2 characters long"
         else if 255 <? Js.length s' then
           inl "Search query must be less than 255 characters"
         else inr (Some s')
     end)
    (fun search =>
  Joi.andThen (Joi.integer "page" (1, "1") None 1 (TaskFilterData.page f))
    (fun page =>
  Joi.andThen (Joi.integer "limit" (1, "1") (Some (100, "100")) 20 (TaskFilterData.limit f))
    (fun limit =>
  Joi.andThen
    (match TaskFilterData.sortBy f with
     | None => inr "createdAt"
     | Some s =>
         if existsb (String.eqb s) Joi.sortFields then inr s
         else
           inl (Joi.label "sortBy"
                ++ " must be one of [createdAt, updatedAt, dueDate, title, priority, status]")
     end)
    (fun sortBy =>
  inr (TaskFilterValue.mk (TaskFilterData.status f) (TaskFilterData.priority f)
         assigneeId creatorId
         (TaskFilterData.dueDateFrom f) (TaskFilterData.dueDateTo f)
         search page limit sortBy
         (match TaskFilterData.sortOrder f with
          | Some o => o
          | None => desc
          end)))))))).

Module TaskCreationData.
Record t : Type := mk {
  title : option string;
  description : option string;
  status : option TaskStatus;
  priority : option TaskPriority;
  dueDate : option Z;
  assigneeId : option string
}.
End TaskCreationData.

(** What [taskCreationSchema.validate] returns as [value]: title trimmed,
    defaults applied. *)
Module TaskCreationValue.
Record t : Type := mk {
  title : string;
  description : option string;
  status : TaskStatus;
  priority : TaskPriority;
  dueDate : option Z;
  assigneeId : option string
}.
End TaskCreationValue.

(** [taskCreationSchema.validate(taskData)], at the time [time] that
    [min('now')] reads. *)
Definition taskCreationSchema (time : Z) (d : TaskCreationData.t)
    : Joi.Result TaskCreationValue.t :=
  Joi.andThen
    (match TaskCreationData.title d with
     | None => inl (Joi.label "title" ++ " is required")
     | Some s =>
         let s' := Js.trim s in
         if negb (Js.truthy s') then inl "Task title is required"
         else if Js.length s' <? 1 then inl "Task title cannot be empty"
         else if 255 <? Js.length s' then inl "Task title must be less than 255 characters"
         else inr s'
     end)
    (fun title =>
  Joi.andThen
    (match TaskCreationData.description d with
     | None => inr None
     | Some s =>
         let s' := Js.trim s in
         if negb (Js.truthy s') then inr (Some s')
         else if 2000 <? Js.length s' then
           inl "Task description must be less than 2000 characters"
         else inr (Some s')
     end)
    (fun description =>
  Joi.andThen
    (match TaskCreationData.dueDate d with
     | None => inr None
     | Some t => if t <? time then inl "Due date cannot be in the past" else inr (Some t)
     end)
    (fun dueDate =>
  Joi.andThen
    (match TaskCreationData.assigneeId d with
     | Some s => Joi.andThen (Joi.nonEmpty "assigneeId" s) (fun v => inr (Some v))
     | None => inr None
     end)
    (fun assigneeId =>
  inr (TaskCreationValue.mk title description
         (match TaskCreationData.status d with Some s => s | None => PENDING end)
         (match TaskCreationData.priority d with Some p => p | None => MEDIUM end)
         dueDate assigneeId))))).

(** ** [services/task.service.ts] *)

Record TaskListResult : Type := mkTaskListResult {
  tl_tasks : list TaskWithRelations;
  tl_total : Z;
  tl_page : Z;
  tl_limit : Z;
  tl_totalPages : Z
}.

(** [Math.ceil(a / b)] for a divisor [b > 0]. *)
Definition ceilDiv (a b : Z) : Z := - ((- a) / b).

Definition NotFoundOrDenied : string := "Task not found or access denied".
Definition AssigneeMissing : string := "Assigned user does not exist".

Module TaskService.

(** [{ OR: [{ creatorId: userId }, { assigneeId: userId }] }] *)
Definition creatorOrAssignee (userId : string) : list Where.t :=
  [Where.set_creatorId userId Where.empty; Where.set_assigneeId userId Where.empty].

(** The generic handler
    [const dbError = handleDatabaseError(error); throw new Error(dbError.message)]. *)
Definition rethrowAsDatabaseError {A : Type} (error : JsError) : Prisma A :=
  let dbError := handleDatabaseError error in
  throw (Error (db_message dbError)).

Definition getTaskById (taskId userId : string) : Prisma (option TaskWithRelations) :=
  tryCatch
    (task <- prisma.task_findFirst
               (Where.set_OR (creatorOrAssignee userId) (Where.set_id taskId Where.empty)) ;;
     w <- getWorld ;;
     ret (option_map (withRelations (users w)) task))
    rethrowAsDatabaseError.

(** The where clause [getUserTasks] builds: the visibility [OR], one key
    per filter that is set and, with a search, the [AND] that takes over
    the visibility clause before [OR] is deleted. *)
Definition getUserTasks_where (userId : string) (value : TaskFilterValue.t) : Where.t :=
  let whereClause := Where.set_OR (creatorOrAssignee userId) Where.empty in
  let whereClause :=
    match TaskFilterValue.status value with
    | Some s => Where.set_status s whereClause
    | None => whereClause
    end in
  let whereClause :=
    match TaskFilterValue.priority value with
    | Some p => Where.set_priority p whereClause
    | None => whereClause
    end in
  let whereClause :=
    match TaskFilterValue.assigneeId value with
    | Some a => if Js.truthy a then Where.set_assigneeId a whereClause else whereClause
    | None => whereClause
    end in
  let whereClause :=
    match TaskFilterValue.creatorId value with
    | Some c => if Js.truthy c then Where.set_creatorId c whereClause else whereClause
    | None => whereClause
    end in
  let whereClause :=
    match TaskFilterValue.dueDateFrom value, TaskFilterValue.dueDateTo value with
    | None, None => whereClause
    | from, to => Where.set_dueDate (mkDateTimeFilter from to) whereClause
    end in
  match TaskFilterValue.search value with
  | Some q =>
      if Js.truthy q then
        Where.delete_OR
          (Where.set_AND
             [Where.set_OR (creatorOrAssignee userId) Where.empty;
              Where.set_OR
                [Where.set_title (mkStringFilter q insensitive) Where.empty;
                 Where.set_description (mkStringFilter q insensitive) Where.empty]
                Where.empty]
             whereClause)
      else whereClause
  | None => whereClause
  end.

Definition getUserTasks_orderBy (value : TaskFilterValue.t) : OrderBy.t :=
  let sortBy := TaskFilterValue.sortBy value in
  let sortOrder := Some (TaskFilterValue.sortOrder value) in
  if String.eqb sortBy "createdAt" then
    OrderBy.mk sortOrder None None None None None
  else if String.eqb sortBy "updatedAt" then
    OrderBy.mk None sortOrder None None None None
  else if String.eqb sortBy "dueDate" then
    OrderBy.mk None None sortOrder None None None
  else if String.eqb sortBy "title" then
    OrderBy.mk None None None sortOrder None None
  else if String.eqb sortBy "priority" then
    OrderBy.mk None None None None sortOrder None
  else if String.eqb sortBy "status" then
    OrderBy.mk None None None None None sortOrder
  else OrderBy.empty.

Definition getUserTasks (userId : string) (filters : TaskFilterData.t)
    : Prisma TaskListResult :=
  match taskFilterSchema filters with
  | inl msg => throw (Error ("Validation error: " ++ msg))
  | inr value =>
      tryCatch
        (let whereClause := getUserTasks_where userId value in
         let skip := (TaskFilterValue.page value - 1) * TaskFilterValue.limit value in
         let orderBy := getUserTasks_orderBy value in
         tasks <- prisma.task_findMany whereClause orderBy
                    (Some skip) (Some (TaskFilterValue.limit value)) ;;
         total <- prisma.task_count whereClause ;;
         let totalPages := ceilDiv total (TaskFilterValue.limit value) in
         ret (mkTaskListResult tasks total (TaskFilterValue.page value)
                (TaskFilterValue.limit value) totalPages))
        rethrowAsDatabaseError
  end.

(** The payload [updateTask] builds from the validated patch: one key per
    field that is not [undefined] (the schema has refused [null] for the
    first four fields). *)
Definition updateTask_payload (value : TaskUpdateData.t) : UpdateInput.t :=
  UpdateInput.mk
    (match TaskUpdateData.title value with
     | Value s => Some s
     | _ => None
     end)
    (match TaskUpdateData.description value with
     | Value s => Some s
     | _ => None
     end)
    (match TaskUpdateData.status value with
     | Value s => Some s
     | _ => None
     end)
    (match TaskUpdateData.priority value with
     | Value p => Some p
     | _ => None
     end)
    (match TaskUpdateData.dueDate value with
     | Undefined => None
     | Null => Some None
     | Value d => Some (Some d)
     end)
    (match TaskUpdateData.assigneeId value with
     | Undefined => None
     | Null => Some disconnect
     | Value a => Some (connect a)
     end).

Definition updateTask (taskId userId : string) (updateData : TaskUpdateData.t)
    : Prisma TaskWithRelations :=
  match taskUpdateSchema updateData with
  | inl msg => throw (Error ("Validation error: " ++ msg))
  | inr value =>
      tryCatch
        (existingTask <- prisma.task_findFirst
                           (Where.set_OR (creatorOrAssignee userId)
                              (Where.set_id taskId Where.empty)) ;;
         match existingTask with
         | None => throw (Error NotFoundOrDenied)
         | Some _ =>
             (match TaskUpdateData.assigneeId value with
              | Value a =>
                  if Js.truthy a then
                    assignee <- prisma.user_findUnique a ;;
                    match assignee with
                    | None => throw (Error AssigneeMissing)
                    | Some _ => ret tt
                    end
                  else ret tt
              | _ => ret tt
              end) ;;;
             prisma.task_update taskId (updateTask_payload value)
         end)
        (fun error =>
           if (String.eqb (message error) NotFoundOrDenied
               || String.eqb (message error) AssigneeMissing)%bool
           then throw error
           else rethrowAsDatabaseError error)
  end.

Definition deleteTask (taskId userId : string) : Prisma unit :=
  tryCatch
    (existingTask <- prisma.task_findFirst
                       (Where.set_creatorId userId (Where.set_id taskId Where.empty)) ;;
     match existingTask with
     | None => throw (Error NotFoundOrDenied)
     | Some _ => prisma.task_delete taskId ;;; ret tt
     end)
    (fun error =>
       if String.eqb (message error) NotFoundOrDenied then throw error
       else rethrowAsDatabaseError error).

Definition updateTaskStatus (taskId userId : string) (status : TaskStatus)
    : Prisma TaskWithRelations :=
  tryCatch
    (existingTask <- prisma.task_findFirst
                       (Where.set_OR (creatorOrAssignee userId)
                          (Where.set_id taskId Where.empty)) ;;
     match existingTask with
     | None => throw (Error NotFoundOrDenied)
     | Some _ =>
         prisma.task_update taskId
           (UpdateInput.mk None None (Some status) None None None)
     end)
    rethrowAsDatabaseError.

(** The where clause of the dedicated search. *)
Definition searchTasks_where (userId searchQuery : string) : Where.t :=
  Where.set_AND
    [Where.set_OR (creatorOrAssignee userId) Where.empty;
     Where.set_OR
       [Where.set_title (mkStringFilter searchQuery insensitive) Where.empty;
        Where.set_description (mkStringFilter searchQuery insensitive) Where.empty]
       Where.empty]
    Where.empty.

Definition searchTasks (userId searchQuery : string) : Prisma (list TaskWithRelations) :=
  if negb (Js.truthy (Js.trim searchQuery)) then ret []
  else
    tryCatch
      (prisma.task_findMany (searchTasks_where userId searchQuery)
         (OrderBy.mk None (Some desc) None None None None) None (Some 50))
      rethrowAsDatabaseError.

Definition createTask (newId : string) (creatorId : string)
    (taskData : TaskCreationData.t) : Prisma TaskWithRelations :=
  w <- getWorld ;;
  match taskCreationSchema (now w) taskData with
  | inl msg => throw (Error ("Validation error: " ++ msg))
  | inr value =>
      tryCatch
        ((match TaskCreationValue.assigneeId value with
          | Some a =>
              if Js.truthy a then
                assignee <- prisma.user_findUnique a ;;
                match assignee with
                | None => throw (Error AssigneeMissing)
                | Some _ => ret tt
                end
              else ret tt
          | None => ret tt
          end) ;;;
         prisma.task_create newId
           (CreateInput.mk
              (TaskCreationValue.title value)
              (match TaskCreationValue.description value with
               | Some s => if Js.truthy s then Some s else None
               | None => None
               end)
              (TaskCreationValue.status value)
              (TaskCreationValue.priority value)
              (TaskCreationValue.dueDate value)
              creatorId
              (match TaskCreationValue.assigneeId value with
               | Some a => if Js.truthy a then Some a else None
               | None => None
               end)))
        (fun error =>
           if String.eqb (message error) AssigneeMissing then throw error
           else rethrowAsDatabaseError error)
  end.

End TaskService.

(** ** The task controllers (the HTTP boundary) *)

Inductive Payload : Type :=
| TaskPayload (t : TaskWithRelations)
| SearchPayload (tasks_ : list TaskWithRelations) (query : string) (count : Z).

(** [{ success: true, data }], [{ success: false, error: { code, message } }]
    or no body. *)
Inductive Body : Type :=
| Success (data : Payload)
| Failure (code message_ : string)
| Empty.

Record Response : Type := mkResponse {
  statusCode : Z;
  body : Body
}.

(** A query-string parameter: missing, a string, or an array or object. *)
Inductive QueryParam : Type :=
| QMissing
| QString (s : string)
| QOther.

Module TaskController.

Definition unauthorized : Response :=
  mkResponse 401 (Failure "UNAUTHORIZED" "User not authenticated").

(** [Object.values(TaskStatus).includes(status)], with the value found. *)
Definition parseStatus (s : string) : option TaskStatus :=
  if String.eqb s "PENDING" then Some PENDING
  else if String.eqb s "IN_PROGRESS" then Some IN_PROGRESS
  else if String.eqb s "COMPLETED" then Some COMPLETED
  else None.

Definition updateTask (user : option string) (id : string) (reqBody : TaskUpdateData.t)
    : Prisma Response :=
  match user with
  | None => ret unauthorized
  | Some userId =>
      tryCatch
        (task <- TaskService.updateTask id userId reqBody ;;
         ret (mkResponse 200 (Success (TaskPayload task))))
        (fun error =>
           if (Js.includes (message error) "Validation error"
               || String.eqb (message error) AssigneeMissing)%bool then
             ret (mkResponse 400 (Failure "VALIDATION_ERROR" (message error)))
           else if String.eqb (message error) NotFoundOrDenied then
             ret (mkResponse 404 (Failure "NOT_FOUND" (message error)))
           else
             ret (mkResponse 500 (Failure "INTERNAL_ERROR" "Failed to update task")))
  end.

Definition deleteTask (user : option string) (id : string) : Prisma Response :=
  match user with
  | None => ret unauthorized
  | Some userId =>
      tryCatch
        (TaskService.deleteTask id userId ;;;
         ret (mkResponse 204 Empty))
        (fun error =>
           if String.eqb (message error) NotFoundOrDenied then
             ret (mkResponse 404 (Failure "NOT_FOUND" (message error)))
           else
             ret (mkResponse 500 (Failure "INTERNAL_ERROR" "Failed to delete task")))
  end.

Definition updateTaskStatus (user : option string) (id : string)
    (status : option string) : Prisma Response :=
  match user with
  | None => ret unauthorized
  | Some userId =>
      match match status with
            | Some s => parseStatus s
            | None => None
            end with
      | None => ret (mkResponse 400 (Failure "VALIDATION_ERROR" "Valid status is required"))
      | Some st =>
          tryCatch
            (task <- TaskService.updateTaskStatus id userId st ;;
             ret (mkResponse 200 (Success (TaskPayload task))))
            (fun error =>
               if String.eqb (message error) NotFoundOrDenied then
                 ret (mkResponse 404 (Failure "NOT_FOUND" (message error)))
               else
                 ret (mkResponse 500
                        (Failure "INTERNAL_ERROR" "Failed to update task status")))
      end
  end.

Definition searchTasks (user : option string) (q : QueryParam) : Prisma Response :=
  match user with
  | None => ret unauthorized
  | Some userId =>
      match q with
      | QString s =>
          if negb (Js.truthy s) then
            ret (mkResponse 400 (Failure "VALIDATION_ERROR" "Search query is required"))
          else
            let searchQuery := Js.trim s in
            if Js.length searchQuery <? 2 then
              ret (mkResponse 400
                     (Failure "VALIDATION_ERROR"
                        "Search query must be at least 2 characters long"))
            else
              tryCatch
                (tasks_ <- TaskService.searchTasks userId searchQuery ;;
                 ret (mkResponse 200
                        (Success (SearchPayload tasks_ searchQuery
                                    (Z.of_nat (List.length tasks_))))))
                (fun _ =>
                   ret (mkResponse 500
                          (Failure "INTERNAL_ERROR" "Failed to search tasks")))
      | _ => ret (mkResponse 400 (Failure "VALIDATION_ERROR" "Search query is required"))
      end
  end.

Definition createTask (newId : string) (user : option string)
    (reqBody : TaskCreationData.t) : Prisma Response :=
  match user with
  | None => ret unauthorized
  | Some userId =>
      tryCatch
        (task <- TaskService.createTask newId userId reqBody ;;
         ret (mkResponse 201 (Success (TaskPayload task))))
        (fun error =>
           if (Js.includes (message error) "Validation error"
               || String.eqb (message error) AssigneeMissing)%bool then
             ret (mkResponse 400 (Failure "VALIDATION_ERROR" (message error)))
           else
             ret (mkResponse 500 (Failure "INTERNAL_ERROR" "Failed to create task")))
  end.

Definition getTaskById (user : option string) (id : string) : Prisma Response :=
  match user with
  | None => ret unauthorized
  | Some userId =>
      tryCatch
        (task <- TaskService.getTaskById id userId ;;
         match task with
         | None => ret (mkResponse 404 (Failure "NOT_FOUND" NotFoundOrDenied))
         | Some t => ret (mkResponse 200 (Success (TaskPayload t)))
         end)
        (fun _ =>
           ret (mkResponse 500 (Failure "INTERNAL_ERROR" "Failed to fetch task")))
  end.

End TaskController.

(** ** [services/user.service.ts]: [deleteUser] *)

Module UserService.

Definition deleteUser (id : string) : Prisma unit :=
  tryCatch
    (prisma.user_delete id ;;; ret tt)
    TaskService.rethrowAsDatabaseError.

End UserService.

(** ** Sample data *)

Module Sample.

Definition user (id : string) : User.t :=
  User.mk id (id ++ "@example.com") id "hash" 0 0.

Definition mkTask (id title : string) (creatorId : string)
    (assigneeId : option string) (updatedAt : Z) : Task.t :=
  Task.mk id title None PENDING MEDIUM None 0 updatedAt creatorId assigneeId.

Definition alice : string := "alice".
Definition bob : string := "bob".
Definition mallory : string := "mallory".

(** One task created by alice and assigned to bob, one that is alice's
    alone, one that is mallory's alone. *)
Definition world : World :=
  mkWorld
    [mkTask "t1" "Implement Search" alice (Some bob) 10;
     mkTask "t2" "Write report" alice None 30;
     mkTask "t3" "Search the logs" mallory None 20]
    [user alice; user bob; user mallory]
    100
    [].

(** Task number [n], created by alice, titled to match a search for
    "search", last updated at time [n]. *)
Definition numbered (n : nat) : Task.t :=
  mkTask ("task-" ++ String (ascii_of_nat (65 + n)) EmptyString)
    "Search task" alice None (Z.of_nat n).

(** A store with [n] tasks of alice. *)
Definition worldOf (n : nat) : World :=
  mkWorld (map numbered (seq 0 n)) [user alice; user bob; user mallory] 100 [].

(** The filters [{ search }], [{ creatorId }] and [{ page, limit }]. *)
Definition searchFilter (q : string) : TaskFilterData.t :=
  TaskFilterData.mk None None None None None None (Some q) None None None None.
Definition creatorFilter (c : string) : TaskFilterData.t :=
  TaskFilterData.mk None None None (Some c) None None None None None None None.
Definition pageFilter (p l : Z) : TaskFilterData.t :=
  TaskFilterData.mk None None None None None None None (Some p) (Some l) None None.
Definition pageValue (p l : Z) : TaskFilterValue.t :=
  TaskFilterValue.mk None None None None None None None p l "createdAt" desc.

(** The filters [{ sortBy, sortOrder }]. *)
Definition sortFilter (column : string) (direction : SortOrder) : TaskFilterData.t :=
  TaskFilterData.mk None None None None None None None None None
    (Some column) (Some direction).

(** The patches [{ title }], [{ assigneeId: null }], [{ assigneeId }]. *)
Definition titlePatch (s : string) : TaskUpdateData.t :=
  TaskUpdateData.mk (Value s) Undefined Undefined Undefined Undefined Undefined.
Definition unassignPatch : TaskUpdateData.t :=
  TaskUpdateData.mk Undefined Undefined Undefined Undefined Undefined Null.
Definition assignPatch (u : string) : TaskUpdateData.t :=
  TaskUpdateData.mk Undefined Undefined Undefined Undefined Undefined (Value u).

(** The creation data [{ title }] and [{ title, assigneeId }]. *)
Definition newTask (title : string) (assigneeId : option string) : TaskCreationData.t :=
  TaskCreationData.mk (Some title) None None None None assigneeId.

End Sample.

(** ** Vocabulary of the statements *)

(** The primary key of the [tasks] table: no two rows share an id. *)
Definition wellFormed (w : World) : Prop := NoDup (map Task.id (tasks w)).

(** The task mentions the query: its title or its description is
    [ILIKE '%q%']. *)
Definition mentions (q : string) (t : Task.t) : bool :=
  (Db.ilikeContains q (Task.title t)
   || match Task.description t with
      | Some d => Db.ilikeContains q d
      | None => false
      end)%bool.

(** The text contains the query as it is written, letter case aside. *)
Definition containsLiterally (q s : string) : bool :=
  Js.includes (Db.lower s) (Db.lower q).

(** Most recently updated first. *)
Definition newestFirst (a b : Task.t) : bool := Task.updatedAt b <=? Task.updatedAt a.

(** What the dedicated search selects: the visible tasks that mention the
    query, most recently updated first, cut at 50. *)
Definition searchResult (userId q : string) (w : World) : list TaskWithRelations :=
  map (withRelations (users w))
    (firstn 50 (sortRows newestFirst
                  (filter (fun t => (visibleTo userId t && mentions q t)%bool) (tasks w)))).

(** The row [createTask] stores for a validated value: an empty description
    becomes NULL, both timestamps are the current time. *)
Definition createdRow (newId creatorId : string) (time : Z)
    (value : TaskCreationValue.t) : Task.t :=
  Task.mk newId (TaskCreationValue.title value)
    (match TaskCreationValue.description value with
     | Some s => if Js.truthy s then Some s else None
     | None => None
     end)
    (TaskCreationValue.status value) (TaskCreationValue.priority value)
    (TaskCreationValue.dueDate value) time time creatorId
    (TaskCreationValue.assigneeId value).

(** The rows [getUserTasks] selects before ordering and paging. *)
Definition listed (userId : string) (value : TaskFilterValue.t) (w : World) : list Task.t :=
  filter (matches (TaskService.getUserTasks_where userId value)) (tasks w).

(** The task passes every filter that is set: status, priority, assignee,
    creator, due-date range and search. *)
Definition satisfies (value : TaskFilterValue.t) (t : Task.t) : bool :=
  (whenSet (TaskFilterValue.status value) (TaskStatus_eqb (Task.status t))
   && whenSet (TaskFilterValue.priority value) (TaskPriority_eqb (Task.priority t))
   && whenSet (TaskFilterValue.assigneeId value)
        (fun a => match Task.assigneeId t with
                  | Some a' => String.eqb a' a
                  | None => false
                  end)
   && whenSet (TaskFilterValue.creatorId value) (String.eqb (Task.creatorId t))
   && matchesDate (mkDateTimeFilter (TaskFilterValue.dueDateFrom value)
                     (TaskFilterValue.dueDateTo value)) (Task.dueDate t)
   && whenSet (TaskFilterValue.search value) (fun q => mentions q t))%bool.

(** The task passes every filter the caller set: status, priority,
    assignee, creator, due-date range, and the search once trimmed. *)
Definition passes (filters : TaskFilterData.t) (t : Task.t) : bool :=
  (whenSet (TaskFilterData.status filters) (TaskStatus_eqb (Task.status t))
   && whenSet (TaskFilterData.priority filters) (TaskPriority_eqb (Task.priority t))
   && whenSet (TaskFilterData.assigneeId filters)
        (fun a => match Task.assigneeId t with
                  | Some a' => String.eqb a' a
                  | None => false
                  end)
   && whenSet (TaskFilterData.creatorId filters) (String.eqb (Task.creatorId t))
   && whenSet (TaskFilterData.dueDateFrom filters)
        (fun from => match Task.dueDate t with
                     | Some d => from <=? d
                     | None => false
                     end)
   && whenSet (TaskFilterData.dueDateTo filters)
        (fun to => match Task.dueDate t with
                   | Some d => d <=? to
                   | None => false
                   end)
   && whenSet (TaskFilterData.search filters) (fun s => mentions (Js.trim s) t))%bool.

(** Ascending order of the column called [column] in a [sortBy]: the two
    timestamps by time, the due date by time with NULL last, priority and
    status by the position of the label in the enum type. *)
Definition columnLe (column : string) (a b : Task.t) : Prop :=
  if String.eqb column "createdAt" then Task.createdAt a <= Task.createdAt b
  else if String.eqb column "updatedAt" then Task.updatedAt a <= Task.updatedAt b
  else if String.eqb column "dueDate" then
    match Task.dueDate a, Task.dueDate b with
    | Some x, Some y => x <= y
    | _, None => True
    | None, Some _ => False
    end
  else if String.eqb column "priority" then
    TaskPriority_rank (Task.priority a) <= TaskPriority_rank (Task.priority b)
  else if String.eqb column "status" then
    TaskStatus_rank (Task.status a) <= TaskStatus_rank (Task.status b)
  else True.

Definition inOrder (column : string) (direction : SortOrder) (a b : Task.t) : Prop :=
  match direction with
  | asc => columnLe column a b
  | desc => columnLe column b a
  end.

(** * Properties *)

(** ** Strings *)

Lemma allWhiteSpace_trimStart (s : string) :
  Js.allWhiteSpace (Js.trimStart s) = Js.allWhiteSpace s.
Proof.
  induction s as [|c s IH]; simpl; [reflexivity|].
  destruct (Js.isWhiteSpace c) eqn:Hc; simpl; [exact IH|].
  rewrite Hc. reflexivity.
Qed.

Lemma trimEnd_empty_iff (s : string) :
  Js.trimEnd s = EmptyString <-> Js.allWhiteSpace s = true.
Proof.
  induction s as [|c s IH]; simpl; [tauto|].
  destruct (Js.trimEnd s) eqn:Ht.
  - destruct (Js.isWhiteSpace c); simpl.
    + tauto.
    + split; discriminate.
  - split; [discriminate|].
    intros H. apply andb_true_iff in H. destruct H as [_ H].
    apply IH in H. discriminate.
Qed.

(** A string trims to the empty string exactly when all of it is white
    space. *)
Lemma trim_empty_iff (s : string) :
  Js.trim s = EmptyString <-> Js.allWhiteSpace s = true.
Proof.
  unfold Js.trim. rewrite trimEnd_empty_iff, allWhiteSpace_trimStart. tauto.
Qed.

Lemma truthy_trim (s : string) :
  Js.truthy (Js.trim s) = negb (Js.allWhiteSpace s).
Proof.
  destruct (Js.allWhiteSpace s) eqn:Hs; simpl.
  - apply trim_empty_iff in Hs. rewrite Hs. reflexivity.
  - destruct (Js.trim s) eqn:Ht; [|reflexivity].
    apply trim_empty_iff in Ht. congruence.
Qed.

(** ** Patterns *)

Lemma like_percent (p s : string) :
  Db.like (String Db.percent p) s
  = (Db.like p s
     || match s with
        | EmptyString => false
        | String _ s' => Db.like (String Db.percent p) s'
        end)%bool.
Proof. destruct s; reflexivity. Qed.

Lemma like_literal (c : ascii) (p s : string) :
  Ascii.eqb c Db.percent = false -> Ascii.eqb c Db.underscore = false ->
  Ascii.eqb c Db.backslash = false ->
  Db.like (String c p) s
  = match s with
    | EmptyString => false
    | String x s' => (Ascii.eqb x c && Db.like p s')%bool
    end.
Proof.
  intros H1 H2 H3. cbn [Db.like]. rewrite H1, H2, H3. reflexivity.
Qed.

Lemma like_any (s : string) : Db.like (String Db.percent EmptyString) s = true.
Proof.
  induction s as [|x s IH]; [reflexivity|].
  rewrite like_percent, IH. apply orb_true_r.
Qed.

(** With no pattern character in [q], [q%] matches the strings that start
    with [q]. *)
Lemma like_prefix (q s : string) :
  Db.plain q = true ->
  Db.like (q ++ String Db.percent EmptyString) s = String.prefix q s.
Proof.
  revert s. induction q as [|c q IH]; intros s Hq.
  - cbn [append]. rewrite like_any. destruct s; reflexivity.
  - cbn [Db.plain] in Hq.
    apply andb_true_iff in Hq. destruct Hq as [Hq Hrest].
    apply andb_true_iff in Hq. destruct Hq as [Hq H3].
    apply andb_true_iff in Hq. destruct Hq as [H1 H2].
    apply negb_true_iff in H1, H2, H3.
    cbn [append]. rewrite (like_literal c _ s H1 H2 H3).
    destruct s as [|x s]; [reflexivity|]. cbn [String.prefix].
    rewrite (IH s Hrest).
    destruct (Ascii.eqb_spec x c) as [->|Hne].
    + destruct (ascii_dec c c); [reflexivity|contradiction].
    + destruct (ascii_dec c x) as [E|_]; [congruence|reflexivity].
Qed.

(** With no pattern character in [q], [LIKE '%q%'] is the substring
    test. *)
Lemma likeContains_plain (q s : string) :
  Db.plain q = true -> Db.likeContains q s = Js.includes s q.
Proof.
  intros Hq. unfold Db.likeContains, Db.pattern.
  induction s as [|x s IH].
  - rewrite like_percent, (like_prefix q EmptyString Hq). reflexivity.
  - rewrite like_percent, (like_prefix q (String x s) Hq), IH. reflexivity.
Qed.

Lemma plain_lower (q : string) : Db.plain (Db.lower q) = Db.plain q.
Proof.
  induction q as [|c q IH]; [reflexivity|].
  cbn [Db.lower Db.plain]. rewrite IH. f_equal.
  destruct c as [[] [] [] [] [] [] [] []]; reflexivity.
Qed.

Lemma lower_append (a b : string) : Db.lower (a ++ b) = Db.lower a ++ Db.lower b.
Proof.
  induction a as [|c a IH]; simpl; [reflexivity|]. rewrite IH. reflexivity.
Qed.

(** With no pattern character in [q], [ILIKE '%q%'] is the substring test
    on the lower-cased strings. *)
Lemma ilikeContains_plain (q s : string) :
  Db.plain q = true -> Db.ilikeContains q s = containsLiterally q s.
Proof.
  intros Hq. unfold Db.ilikeContains, containsLiterally.
  assert (E : Db.lower (Db.pattern q) = Db.pattern (Db.lower q)).
  { unfold Db.pattern. cbn [Db.lower]. rewrite lower_append. reflexivity. }
  rewrite E. apply likeContains_plain. rewrite plain_lower. exact Hq.
Qed.

Lemma mentions_plain (q : string) (t : Task.t) :
  Db.plain q = true ->
  mentions q t
  = (containsLiterally q (Task.title t)
     || match Task.description t with
        | Some d => containsLiterally q d
        | None => false
        end)%bool.
Proof.
  intros Hq. unfold mentions. rewrite (ilikeContains_plain q _ Hq).
  destruct (Task.description t) as [d|]; [|reflexivity].
  rewrite (ilikeContains_plain q d Hq). reflexivity.
Qed.

(** ** Where clauses *)

Lemma matches_creatorOrAssignee (userId : string) (t : Task.t) :
  existsb (fun w' => matches w' t) (TaskService.creatorOrAssignee userId)
  = visibleTo userId t.
Proof.
  unfold visibleTo. simpl.
  destruct (Task.creatorId t =? userId)%string; simpl; [reflexivity|].
  destruct (Task.assigneeId t) as [a|]; simpl; [|reflexivity].
  destruct (a =? userId)%string; reflexivity.
Qed.

(** A row selected by a where object satisfies its [OR] key, if set. *)
Lemma matches_OR (w : Where.t) (t : Task.t) (l : list Where.t) :
  matches w t = true -> Where.OR w = Some l ->
  existsb (fun w' => matches w' t) l = true.
Proof.
  destruct w as [a o i st pr asg cr dd ti de]. simpl. intros H Ho. subst o.
  repeat (apply andb_true_iff in H; destruct H as [H ?]). assumption.
Qed.

(** A row selected by a where object satisfies every member of its [AND]
    key, if set. *)
Lemma matches_AND (w : Where.t) (t : Task.t) (l : list Where.t) :
  matches w t = true -> Where.AND w = Some l ->
  forallb (fun w' => matches w' t) l = true.
Proof.
  destruct w as [a o i st pr asg cr dd ti de]. simpl. intros H Ha. subst a.
  repeat (apply andb_true_iff in H; destruct H as [H ?]). assumption.
Qed.

Lemma visibleTo_spec (userId : string) (t : Task.t) :
  visibleTo userId t = true <->
  Task.creatorId t = userId \/ Task.assigneeId t = Some userId.
Proof.
  unfold visibleTo. rewrite orb_true_iff, String.eqb_eq.
  destruct (Task.assigneeId t) as [a|].
  - rewrite String.eqb_eq. split; intros [H|H]; auto; [right; congruence|].
    right. congruence.
  - split; intros [H|H]; auto; discriminate.
Qed.

(** The clause of [getUserTasks] keeps the visibility condition under every
    combination of filters: in [OR] without a search, inside [AND] with one. *)
Lemma getUserTasks_where_visible (userId : string) (value : TaskFilterValue.t) :
  Where.OR (TaskService.getUserTasks_where userId value)
    = Some (TaskService.creatorOrAssignee userId)
  \/ exists rest,
       Where.AND (TaskService.getUserTasks_where userId value)
       = Some (Where.set_OR (TaskService.creatorOrAssignee userId) Where.empty :: rest).
Proof.
  unfold TaskService.getUserTasks_where.
  destruct (TaskFilterValue.search value) as [q|];
    [destruct (Js.truthy q); [right; eexists; reflexivity|]|];
    left;
    destruct (TaskFilterValue.status value), (TaskFilterValue.priority value);
    destruct (TaskFilterValue.assigneeId value) as [a|];
    try destruct (Js.truthy a);
    destruct (TaskFilterValue.creatorId value) as [c|];
    try destruct (Js.truthy c);
    destruct (TaskFilterValue.dueDateFrom value), (TaskFilterValue.dueDateTo value);
    reflexivity.
Qed.

Lemma getUserTasks_where_sound (userId : string) (value : TaskFilterValue.t) (t : Task.t) :
  matches (TaskService.getUserTasks_where userId value) t = true ->
  visibleTo userId t = true.
Proof.
  intros H.
  destruct (getUserTasks_where_visible userId value) as [Ho|[rest Ha]].
  - rewrite <- matches_creatorOrAssignee. exact (matches_OR _ _ _ H Ho).
  - pose proof (matches_AND _ _ _ H Ha) as Hall.
    cbn [forallb] in Hall. apply andb_true_iff in Hall. destruct Hall as [Hv _].
    rewrite <- matches_creatorOrAssignee.
    exact (matches_OR _ _ _ Hv eq_refl).
Qed.

(** ** Sorting and paging *)

Section SortingFacts.
Context {A : Type} (leb : A -> A -> bool).

Lemma insertSorted_In (x y : A) (l : list A) :
  In y (insertSorted leb x l) <-> y = x \/ In y l.
Proof.
  induction l as [|z l IH]; simpl.
  - intuition congruence.
  - destruct (leb x z); simpl; [intuition congruence|].
    rewrite IH. intuition congruence.
Qed.

Lemma sortRows_In (y : A) (l : list A) :
  In y (sortRows leb l) <-> In y l.
Proof.
  induction l as [|x l IH]; simpl; [tauto|].
  rewrite insertSorted_In, IH. intuition congruence.
Qed.

Lemma insertSorted_length (x : A) (l : list A) :
  List.length (insertSorted leb x l) = S (List.length l).
Proof.
  induction l as [|z l IH]; simpl; [reflexivity|].
  destruct (leb x z); simpl; [reflexivity|]. now rewrite IH.
Qed.

Lemma sortRows_length (l : list A) :
  List.length (sortRows leb l) = List.length l.
Proof.
  induction l as [|x l IH]; simpl; [reflexivity|].
  now rewrite insertSorted_length, IH.
Qed.

Hypothesis leb_total : forall a b, leb a b = true \/ leb b a = true.
Hypothesis leb_trans : forall a b c, leb a b = true -> leb b c = true -> leb a c = true.

Lemma insertSorted_sorted (x : A) (l : list A) :
  StronglySorted (fun a b => leb a b = true) l ->
  StronglySorted (fun a b => leb a b = true) (insertSorted leb x l).
Proof.
  induction 1 as [|z l Hs IH Hz]; simpl.
  - constructor; constructor.
  - destruct (leb x z) eqn:Hxz.
    + constructor; [constructor; assumption|].
      constructor; [assumption|].
      rewrite Forall_forall in *. intros y Hy. eauto.
    + constructor; [assumption|].
      rewrite Forall_forall in *. intros y Hy.
      apply insertSorted_In in Hy. destruct Hy as [->|Hy]; [|auto].
      destruct (leb_total x z) as [H|H]; congruence.
Qed.

Lemma sortRows_sorted (l : list A) :
  StronglySorted (fun a b => leb a b = true) (sortRows leb l).
Proof.
  induction l as [|x l IH]; simpl; [constructor|].
  apply insertSorted_sorted. assumption.
Qed.
End SortingFacts.

Lemma firstn_incl {A : Type} (n : nat) (l : list A) (x : A) :
  In x (firstn n l) -> In x l.
Proof.
  revert n. induction l as [|y l IH]; intros [|n]; simpl; try tauto.
  intros [H|H]; [left; exact H|right; eauto].
Qed.

Lemma skipn_incl {A : Type} (n : nat) (l : list A) (x : A) :
  In x (skipn n l) -> In x l.
Proof.
  revert n. induction l as [|y l IH]; intros [|n]; simpl; try tauto.
  intros H. right. eauto.
Qed.


Lemma StronglySorted_firstn {A : Type} (R : A -> A -> Prop) (n : nat) (l : list A) :
  StronglySorted R l -> StronglySorted R (firstn n l).
Proof.
  intros H. revert n. induction H as [|x l Hs IH Hx]; intros [|n]; simpl;
    try constructor; auto.
  rewrite Forall_forall in *. intros y Hy. apply Hx.
  eapply firstn_incl; eauto.
Qed.

Lemma StronglySorted_map {A B : Type} (f : A -> B) (R : B -> B -> Prop) (l : list A) :
  StronglySorted (fun a b => R (f a) (f b)) l -> StronglySorted R (map f l).
Proof.
  induction 1 as [|x l Hs IH Hx]; simpl; constructor; auto.
  rewrite Forall_forall in *. intros y Hy.
  apply in_map_iff in Hy. destruct Hy as [z [<- Hz]]. auto.
Qed.

Lemma applyOrder_In (o : OrderBy.t) (l : list Task.t) (t : Task.t) :
  In t (applyOrder o l) <-> In t l.
Proof.
  unfold applyOrder. destruct (orderKey o); [apply sortRows_In|tauto].
Qed.

Lemma applyOrder_length (o : OrderBy.t) (l : list Task.t) :
  List.length (applyOrder o l) = List.length l.
Proof.
  unfold applyOrder. destruct (orderKey o); [apply sortRows_length|reflexivity].
Qed.

(** ** The store *)

Lemma find_none_iff {A : Type} (p : A -> bool) (l : list A) :
  find p l = None <-> forall x, In x l -> p x = false.
Proof.
  split; [apply find_none|].
  induction l as [|y l IH]; simpl; [reflexivity|].
  intros H. rewrite (H y (or_introl eq_refl)). apply IH. auto.
Qed.

(** Under the primary key, looking a stored row up by its id and a further
    condition finds that row or nothing. *)
Lemma find_by_id (ts : list Task.t) (t : Task.t) (p : Task.t -> bool) :
  NoDup (map Task.id ts) -> In t ts ->
  find (fun r => (hasId (Task.id t) r && p r)%bool) ts
  = if p t then Some t else None.
Proof.
  induction ts as [|r ts IH]; simpl; [tauto|].
  intros Hnd [->|Hin].
  - unfold hasId at 1. rewrite String.eqb_refl. simpl.
    destruct (p t) eqn:Hp; [reflexivity|].
    inversion Hnd as [|? ? Hnotin Hnd']; subst.
    apply find_none_iff. intros r Hr.
    unfold hasId.
    destruct (String.eqb_spec (Task.id r) (Task.id t)) as [E|E]; [|reflexivity].
    exfalso. apply Hnotin. rewrite <- E. apply in_map. assumption.
  - inversion Hnd as [|? ? Hnotin Hnd']; subst.
    unfold hasId at 1.
    destruct (String.eqb_spec (Task.id r) (Task.id t)) as [E|E].
    + exfalso. apply Hnotin. rewrite E. apply in_map. assumption.
    + simpl. auto.
Qed.


(** ** Listing: [getUserTasks] *)

Lemma andThen_inr {A B : Type} (r : Joi.Result A) (k : A -> Joi.Result B) (b : B) :
  Joi.andThen r k = inr b -> exists a, r = inr a /\ k a = inr b.
Proof. destruct r as [msg|a]; simpl; [discriminate|eauto]. Qed.

Lemma integer_inr (key : string) (lo : Z * string) (hi : option (Z * string))
    (default : Z) (n : option Z) (v : Z) :
  Joi.integer key lo hi default n = inr v ->
  (n = None /\ v = default)
  \/ (n = Some v /\ fst lo <= v
      /\ match hi with Some h => v <= fst h | None => True end).
Proof.
  unfold Joi.integer. destruct n as [x|]; [|intros H; inversion H; auto].
  destruct ((x <? - Joi.maxSafe) || (Joi.maxSafe <? x))%bool; [discriminate|].
  destruct (Z.ltb_spec x (fst lo)) as [Hlo|Hlo]; [discriminate|].
  destruct hi as [h|].
  - destruct (Z.ltb_spec (fst h) x) as [Hhi|Hhi]; [discriminate|].
    intros E; inversion E; subst. right. auto.
  - intros E; inversion E; subst. right. auto.
Qed.

Ltac joi_invert H :=
  repeat (let a := fresh "a" in
          let E := fresh "E" in
          let H' := fresh "H" in
          destruct (andThen_inr _ _ _ H) as [a [E H']]; clear H; rename H' into H).

(** What the filter schema lets through: a page from 1 and a limit between
    1 and 100. *)
Lemma taskFilterSchema_bounds (filters : TaskFilterData.t) (value : TaskFilterValue.t) :
  taskFilterSchema filters = inr value ->
  1 <= TaskFilterValue.page value /\ 1 <= TaskFilterValue.limit value <= 100.
Proof.
  unfold taskFilterSchema. intros H. joi_invert H.
  inversion H; subst; simpl.
  match goal with
  | Hp : Joi.integer "page" _ _ _ _ = _, Hl : Joi.integer "limit" _ _ _ _ = _ |- _ =>
      apply integer_inr in Hp; apply integer_inr in Hl; simpl in Hp, Hl
  end.
  intuition lia.
Qed.

Lemma ceilDiv_bounds (a b : Z) :
  0 < b -> b * (ceilDiv a b - 1) < a <= b * ceilDiv a b.
Proof.
  intros Hb. unfold ceilDiv.
  pose proof (Z.div_mod (- a) b ltac:(lia)).
  pose proof (Z.mod_pos_bound (- a) b Hb).
  nia.
Qed.

Lemma ceilDiv_zero (b : Z) : 0 < b -> ceilDiv 0 b = 0.
Proof. intros Hb. unfold ceilDiv. rewrite Z.opp_0, Z.div_0_l by lia. reflexivity. Qed.

(** With filters the schema accepts, [getUserTasks] returns: it issues the
    page fetch and the count, in this order, and builds the result from
    them. *)
Lemma getUserTasks_run (userId : string) (filters : TaskFilterData.t)
    (value : TaskFilterValue.t) (w : World) :
  taskFilterSchema filters = inr value ->
  TaskService.getUserTasks userId filters w
  = (Returned
       (mkTaskListResult
          (map (withRelations (users w))
             (page (Some ((TaskFilterValue.page value - 1) * TaskFilterValue.limit value))
                (Some (TaskFilterValue.limit value))
                (applyOrder (TaskService.getUserTasks_orderBy value)
                   (listed userId value w))))
          (Z.of_nat (List.length (listed userId value w)))
          (TaskFilterValue.page value)
          (TaskFilterValue.limit value)
          (ceilDiv (Z.of_nat (List.length (listed userId value w)))
             (TaskFilterValue.limit value))),
     mkWorld (tasks w) (users w) (now w)
       (log w ++
        [Call.task_findMany (TaskService.getUserTasks_where userId value)
           (TaskService.getUserTasks_orderBy value)
           (Some ((TaskFilterValue.page value - 1) * TaskFilterValue.limit value))
           (Some (TaskFilterValue.limit value));
         Call.task_count (TaskService.getUserTasks_where userId value)])).
Proof.
  intros H. unfold TaskService.getUserTasks. rewrite H.
  unfold tryCatch, prisma.task_findMany, prisma.task_count, bind, record,
    getWorld, ret, listed. simpl.
  rewrite <- app_assoc. reflexivity.
Qed.

(** Filters the schema refuses are reported before the store is read. *)
Lemma getUserTasks_invalid (userId : string) (filters : TaskFilterData.t)
    (msg : string) (w : World) :
  taskFilterSchema filters = inl msg ->
  TaskService.getUserTasks userId filters w
  = (Thrown (Error ("Validation error: " ++ msg)), w).
Proof.
  intros H. unfold TaskService.getUserTasks. rewrite H. reflexivity.
Qed.

(** C1. Under every combination of filters, [getUserTasks] for an actor
    returns only stored tasks that the actor created or is assigned to:
    neither a search nor a [creatorId] filter naming another user brings in a
    task the actor cannot see. *)
Theorem getUserTasks_only_visible (A : string) (filters : TaskFilterData.t)
    (w w' : World) (r : TaskListResult) :
  TaskService.getUserTasks A filters w = (Returned r, w') ->
  Forall (fun t => In (task t) (tasks w)
                   /\ (Task.creatorId (task t) = A
                       \/ Task.assigneeId (task t) = Some A))
         (tl_tasks r).
Proof.
  intros H.
  destruct (taskFilterSchema filters) as [msg|value] eqn:Hv.
  - rewrite (getUserTasks_invalid _ _ _ _ Hv) in H. discriminate.
  - rewrite (getUserTasks_run _ _ _ _ Hv) in H. inversion H; subst; clear H.
    cbn [tl_tasks]. apply Forall_forall. intros t Ht.
    apply in_map_iff in Ht. destruct Ht as [row [<- Hrow]]. cbn [task withRelations].
    apply firstn_incl, skipn_incl, applyOrder_In in Hrow.
    unfold listed in Hrow. apply filter_In in Hrow. destruct Hrow as [Hin Hm].
    split; [assumption|].
    apply visibleTo_spec. eapply getUserTasks_where_sound. eassumption.
Qed.

Lemma getUserTasks_only_visible_witness :
  exists r w',
    TaskService.getUserTasks Sample.alice (Sample.searchFilter "search") Sample.world
    = (Returned r, w')
    /\ Forall (fun t => In (task t) (tasks Sample.world)
                        /\ (Task.creatorId (task t) = Sample.alice
                            \/ Task.assigneeId (task t) = Some Sample.alice))
         (tl_tasks r).
Proof.
  eexists. eexists. split.
  - vm_compute. reflexivity.
  - eapply (getUserTasks_only_visible Sample.alice (Sample.searchFilter "search")
              Sample.world).
    vm_compute. reflexivity.
Defined.

(** A search that also matches mallory's task returns alice only her own. *)
Example getUserTasks_search_keeps_visibility :
  match fst (TaskService.getUserTasks Sample.alice (Sample.searchFilter "search")
               Sample.world) with
  | Returned r => map (fun t => Task.id (task t)) (tl_tasks r) = ["t1"]
  | Thrown _ => False
  end.
Proof. vm_compute. reflexivity. Qed.

(** A [creatorId] filter naming mallory returns bob nothing of hers. *)
Example getUserTasks_creator_filter_keeps_visibility :
  match fst (TaskService.getUserTasks Sample.bob (Sample.creatorFilter Sample.mallory)
               Sample.world) with
  | Returned r => tl_tasks r = [] /\ tl_total r = 0
  | Thrown _ => False
  end.
Proof. vm_compute. split; reflexivity. Qed.



(** With no task in the store the first page is empty and there are zero
    pages. *)
Example getUserTasks_empty_store :
  match fst (TaskService.getUserTasks Sample.alice TaskFilterData.empty
               (Sample.worldOf 0)) with
  | Returned r => tl_tasks r = [] /\ tl_total r = 0 /\ tl_totalPages r = 0
  | Thrown _ => False
  end.
Proof. vm_compute. repeat split. Qed.

(** ** Reading a task for a mutation *)

(** [{ id: taskId, OR: [{ creatorId: userId }, { assigneeId: userId }] }]
    selects the row with this id that the actor created or is assigned to. *)
Lemma matches_participant (taskId userId : string) (t : Task.t) :
  matches (Where.set_OR (TaskService.creatorOrAssignee userId)
             (Where.set_id taskId Where.empty)) t
  = (hasId taskId t && visibleTo userId t)%bool.
Proof.
  rewrite <- matches_creatorOrAssignee.
  cbn [matches Where.set_OR Where.set_id Where.empty whenSet
       Where.AND Where.OR Where.id Where.status Where.priority Where.assigneeId
       Where.creatorId Where.dueDate Where.title Where.description].
  unfold hasId.
  rewrite !andb_true_r, andb_true_l. apply andb_comm.
Qed.

(** [{ id: taskId, creatorId: userId }] selects the row with this id that
    the actor created. *)
Lemma matches_creator (taskId userId : string) (t : Task.t) :
  matches (Where.set_creatorId userId (Where.set_id taskId Where.empty)) t
  = (hasId taskId t && String.eqb (Task.creatorId t) userId)%bool.
Proof.
  cbn [matches Where.set_creatorId Where.set_id Where.empty whenSet
       Where.AND Where.OR Where.id Where.status Where.priority Where.assigneeId
       Where.creatorId Where.dueDate Where.title Where.description].
  unfold hasId.
  rewrite !andb_true_r, !andb_true_l. reflexivity.
Qed.

Lemma find_ext {A : Type} (p q : A -> bool) (l : list A) :
  (forall x, p x = q x) -> find p l = find q l.
Proof.
  intros H. induction l as [|x l IH]; simpl; [reflexivity|].
  rewrite H, IH. reflexivity.
Qed.

(** The participant lookup finds nothing when no stored row with this id is
    visible to the actor. *)
Lemma find_participant_none (taskId userId : string) (ts : list Task.t) :
  (forall t, In t ts -> Task.id t = taskId -> visibleTo userId t = false) ->
  find (matches (Where.set_OR (TaskService.creatorOrAssignee userId)
                   (Where.set_id taskId Where.empty))) ts = None.
Proof.
  intros H. apply find_none_iff. intros t Ht.
  rewrite matches_participant. unfold hasId.
  destruct (String.eqb_spec (Task.id t) taskId) as [E|E]; [|reflexivity].
  simpl. auto.
Qed.

Lemma find_participant_some (userId : string) (ts : list Task.t) (t : Task.t) :
  NoDup (map Task.id ts) -> In t ts -> visibleTo userId t = true ->
  find (matches (Where.set_OR (TaskService.creatorOrAssignee userId)
                   (Where.set_id (Task.id t) Where.empty))) ts = Some t.
Proof.
  intros Hnd Hin Hv.
  rewrite (find_ext _ (fun r => (hasId (Task.id t) r && visibleTo userId r)%bool));
    [|intros; apply matches_participant].
  rewrite (find_by_id ts t (visibleTo userId) Hnd Hin), Hv. reflexivity.
Qed.

Lemma find_hasId (ts : list Task.t) (t : Task.t) :
  NoDup (map Task.id ts) -> In t ts -> find (hasId (Task.id t)) ts = Some t.
Proof.
  intros Hnd Hin.
  rewrite (find_ext _ (fun r => (hasId (Task.id t) r && true)%bool));
    [|intros; symmetry; apply andb_true_r].
  apply (find_by_id ts t (fun _ => true) Hnd Hin).
Qed.

(** After the row with an id is replaced, looking the id up finds the new
    row. *)
Lemma find_replaced (id : string) (t' : Task.t) (ts : list Task.t) :
  hasId id t' = true -> (exists r, In r ts /\ hasId id r = true) ->
  find (hasId id) (map (fun r => if hasId id r then t' else r) ts) = Some t'.
Proof.
  intros Hid [r [Hin Hr]].
  induction ts as [|x ts IH]; simpl; [contradiction|].
  destruct (hasId id x) eqn:Hx.
  - rewrite Hid. reflexivity.
  - rewrite Hx. destruct Hin as [->|Hin]; [congruence|auto].
Qed.

(** ** The update schema *)

(** The schema passes [assigneeId] through: absent stays absent, [null]
    stays [null], a value is kept and is not the empty string. *)
Lemma taskUpdateSchema_assigneeId (patch value : TaskUpdateData.t) :
  taskUpdateSchema patch = inr value ->
  TaskUpdateData.assigneeId value = TaskUpdateData.assigneeId patch
  /\ (forall a, TaskUpdateData.assigneeId value = Value a -> Js.truthy a = true).
Proof.
  unfold taskUpdateSchema. intros H. joi_invert H.
  inversion H; subst; clear H. cbn [TaskUpdateData.assigneeId].
  destruct (TaskUpdateData.assigneeId patch) as [| |s] eqn:Ha;
    match goal with E : _ = inr ?x |- ?x = _ /\ _ => rename E into Eas end.
  - inversion Eas; subst. split; [reflexivity|discriminate].
  - inversion Eas; subst. split; [reflexivity|discriminate].
  - destruct (Js.truthy s) eqn:Hs; [|discriminate].
    inversion Eas; subst. split; [reflexivity|intros a' Ea; congruence].
Qed.

(** ** Updating: [updateTask] *)

(** A patch the schema refuses is reported before the store is read. *)
Lemma updateTask_invalid (taskId userId : string) (patch : TaskUpdateData.t)
    (msg : string) (w : World) :
  taskUpdateSchema patch = inl msg ->
  TaskService.updateTask taskId userId patch w
  = (Thrown (Error ("Validation error: " ++ msg)), w).
Proof.
  intros H. unfold TaskService.updateTask. rewrite H. reflexivity.
Qed.

(** With a valid patch, when the participant lookup finds nothing the only
    store call is that lookup and the error is the merged one, unchanged. *)
Lemma updateTask_denied (taskId userId : string) (patch value : TaskUpdateData.t)
    (w : World) :
  taskUpdateSchema patch = inr value ->
  find (matches (Where.set_OR (TaskService.creatorOrAssignee userId)
                   (Where.set_id taskId Where.empty))) (tasks w) = None ->
  TaskService.updateTask taskId userId patch w
  = (Thrown (Error NotFoundOrDenied),
     mkWorld (tasks w) (users w) (now w)
       (log w ++ [Call.task_findFirst
                    (Where.set_OR (TaskService.creatorOrAssignee userId)
                       (Where.set_id taskId Where.empty))])).
Proof.
  intros Hv Hf. unfold TaskService.updateTask. rewrite Hv.
  unfold tryCatch, prisma.task_findFirst, bind, record, getWorld, ret.
  cbn [tasks]. rewrite Hf. reflexivity.
Qed.

(** With a valid patch that names no new assignee, on a task the actor
    participates in, the update is applied to the stored row. *)
Lemma updateTask_applied (userId : string) (patch value : TaskUpdateData.t)
    (w : World) (t : Task.t) :
  wellFormed w -> In t (tasks w) -> visibleTo userId t = true ->
  taskUpdateSchema patch = inr value ->
  (forall a, TaskUpdateData.assigneeId value <> Value a) ->
  TaskService.updateTask (Task.id t) userId patch w
  = (Returned (withRelations (users w)
                 (applyUpdate (now w) (TaskService.updateTask_payload value) t)),
     mkWorld
       (map (fun r => if hasId (Task.id t) r
                      then applyUpdate (now w) (TaskService.updateTask_payload value) t
                      else r) (tasks w))
       (users w) (now w)
       (log w ++ [Call.task_findFirst
                    (Where.set_OR (TaskService.creatorOrAssignee userId)
                       (Where.set_id (Task.id t) Where.empty));
                  Call.task_update (Task.id t) (TaskService.updateTask_payload value)])).
Proof.
  intros Hwf Hin Hvis Hv Hna. unfold TaskService.updateTask. rewrite Hv.
  unfold tryCatch, prisma.task_findFirst, prisma.task_update, bind, record,
    getWorld, setTasks, ret.
  cbn [tasks users now log].
  rewrite (find_participant_some userId (tasks w) t Hwf Hin Hvis).
  assert (Hpay : UpdateInput.assignee (TaskService.updateTask_payload value) = None
                 \/ UpdateInput.assignee (TaskService.updateTask_payload value)
                    = Some disconnect).
  { unfold TaskService.updateTask_payload. cbn [UpdateInput.assignee].
    destruct (TaskUpdateData.assigneeId value) as [| |a] eqn:Ha; auto.
    exfalso. exact (Hna a eq_refl). }
  destruct (TaskUpdateData.assigneeId value) as [| |a] eqn:Ha;
    [| |exfalso; exact (Hna a eq_refl)];
    cbn [tasks users now log];
    rewrite (find_hasId (tasks w) t Hwf Hin);
    destruct Hpay as [Hpay|Hpay]; rewrite Hpay;
    cbn [tasks users now log]; rewrite <- app_assoc; reflexivity.
Qed.

Lemma same_id_same_row (ts : list Task.t) (t t' : Task.t) :
  NoDup (map Task.id ts) -> In t ts -> In t' ts -> Task.id t = Task.id t' -> t = t'.
Proof.
  induction ts as [|x ts IH]; simpl; [tauto|].
  intros Hnd Ht Ht' E. inversion Hnd as [|? ? Hnotin Hnd']; subst.
  destruct Ht as [->|Ht], Ht' as [->|Ht']; auto.
  - exfalso. apply Hnotin. rewrite E. apply in_map. assumption.
  - exfalso. apply Hnotin. rewrite <- E. apply in_map. assumption.
Qed.

Lemma visibleTo_false (userId : string) (t : Task.t) :
  Task.creatorId t <> userId -> Task.assigneeId t <> Some userId ->
  visibleTo userId t = false.
Proof.
  intros Hc Ha. destruct (visibleTo userId t) eqn:Hv; [|reflexivity].
  apply visibleTo_spec in Hv. tauto.
Qed.

(** What the update controller answers to the merged error. *)
Lemma controller_updateTask_denied (userId id : string) (patch : TaskUpdateData.t)
    (w w' : World) :
  TaskService.updateTask id userId patch w = (Thrown (Error NotFoundOrDenied), w') ->
  TaskController.updateTask (Some userId) id patch w
  = (Returned (mkResponse 404 (Failure "NOT_FOUND" NotFoundOrDenied)), w').
Proof.
  intros H. unfold TaskController.updateTask, tryCatch, bind. rewrite H.
  reflexivity.
Qed.

(** C3. For a valid patch, updating an id that no stored task has and
    updating the id of a stored task that the actor neither created nor is
    assigned to fail the same way: the same error with the same message from
    the service, the same 404 response from the controller, and the store's
    tasks untouched. *)
Theorem updateTask_no_existence_leak (w : World) (actor : string)
    (patch value : TaskUpdateData.t) (missingId : string) (hidden : Task.t) :
  wellFormed w ->
  taskUpdateSchema patch = inr value ->
  (forall t, In t (tasks w) -> Task.id t <> missingId) ->
  In hidden (tasks w) ->
  Task.creatorId hidden <> actor ->
  Task.assigneeId hidden <> Some actor ->
  fst (TaskService.updateTask missingId actor patch w) = Thrown (Error NotFoundOrDenied)
  /\ fst (TaskService.updateTask (Task.id hidden) actor patch w)
     = fst (TaskService.updateTask missingId actor patch w)
  /\ tasks (snd (TaskService.updateTask missingId actor patch w)) = tasks w
  /\ tasks (snd (TaskService.updateTask (Task.id hidden) actor patch w)) = tasks w
  /\ fst (TaskController.updateTask (Some actor) missingId patch w)
     = Returned (mkResponse 404 (Failure "NOT_FOUND" NotFoundOrDenied))
  /\ fst (TaskController.updateTask (Some actor) (Task.id hidden) patch w)
     = fst (TaskController.updateTask (Some actor) missingId patch w).
Proof.
  intros Hwf Hv Hmissing Hin Hc Ha.
  assert (H1 : find (matches (Where.set_OR (TaskService.creatorOrAssignee actor)
                                (Where.set_id missingId Where.empty))) (tasks w) = None).
  { apply find_participant_none. intros t Ht E. exfalso. exact (Hmissing t Ht E). }
  assert (H2 : find (matches (Where.set_OR (TaskService.creatorOrAssignee actor)
                                (Where.set_id (Task.id hidden) Where.empty))) (tasks w)
               = None).
  { apply find_participant_none. intros t Ht E.
    rewrite (same_id_same_row (tasks w) t hidden Hwf Ht Hin E).
    apply visibleTo_false; assumption. }
  pose proof (updateTask_denied missingId actor patch value w Hv H1) as R1.
  pose proof (updateTask_denied (Task.id hidden) actor patch value w Hv H2) as R2.
  rewrite (controller_updateTask_denied _ _ _ _ _ R1).
  rewrite (controller_updateTask_denied _ _ _ _ _ R2).
  rewrite R1, R2. cbn [fst snd tasks]. repeat split.
Qed.

Lemma updateTask_no_existence_leak_witness :
  fst (TaskService.updateTask "nope" Sample.bob (Sample.assignPatch "ghost") Sample.world)
  = Thrown (Error NotFoundOrDenied)
  /\ fst (TaskService.updateTask "t3" Sample.bob (Sample.assignPatch "ghost") Sample.world)
     = fst (TaskService.updateTask "nope" Sample.bob (Sample.assignPatch "ghost")
              Sample.world)
  /\ fst (TaskController.updateTask (Some Sample.bob) "t3" (Sample.assignPatch "ghost")
            Sample.world)
     = fst (TaskController.updateTask (Some Sample.bob) "nope"
              (Sample.assignPatch "ghost") Sample.world).
Proof.
  destruct (updateTask_no_existence_leak Sample.world Sample.bob
              (Sample.assignPatch "ghost") (Sample.assignPatch "ghost") "nope"
              (Sample.mkTask "t3" "Search the logs" Sample.mallory None 20))
    as (H1 & H2 & _ & _ & _ & H6).
  - unfold wellFormed. simpl. repeat constructor; simpl; intuition discriminate.
  - reflexivity.
  - simpl. intros t [<-|[<-|[<-|[]]]]; discriminate.
  - simpl. tauto.
  - discriminate.
  - discriminate.
  - repeat split; assumption.
Defined.

(** C5. On a task the actor can see, a valid patch whose [assigneeId] is
    [null] leaves the task unassigned, and a valid patch without
    [assigneeId] leaves the assignee as it was; both updates go through and
    are stored, and on an assigned task their results differ. *)
Theorem updateTask_assignee_null_vs_absent (w : World) (actor : string) (t : Task.t)
    (nullPatch nullValue absentPatch absentValue : TaskUpdateData.t) :
  wellFormed w -> In t (tasks w) -> visibleTo actor t = true ->
  taskUpdateSchema nullPatch = inr nullValue ->
  taskUpdateSchema absentPatch = inr absentValue ->
  TaskUpdateData.assigneeId nullPatch = Null ->
  TaskUpdateData.assigneeId absentPatch = Undefined ->
  exists r1 w1 r2 w2,
    TaskService.updateTask (Task.id t) actor nullPatch w = (Returned r1, w1)
    /\ TaskService.updateTask (Task.id t) actor absentPatch w = (Returned r2, w2)
    /\ Task.assigneeId (task r1) = None
    /\ assignee r1 = None
    /\ find (hasId (Task.id t)) (tasks w1) = Some (task r1)
    /\ Task.assigneeId (task r2) = Task.assigneeId t
    /\ find (hasId (Task.id t)) (tasks w2) = Some (task r2)
    /\ (Task.assigneeId t <> None ->
        Task.assigneeId (task r1) <> Task.assigneeId (task r2)).
Proof.
  intros Hwf Hin Hvis Hv1 Hv2 Hnull Habsent.
  destruct (taskUpdateSchema_assigneeId _ _ Hv1) as [E1 _].
  destruct (taskUpdateSchema_assigneeId _ _ Hv2) as [E2 _].
  rewrite Hnull in E1. rewrite Habsent in E2.
  assert (N1 : forall a, TaskUpdateData.assigneeId nullValue <> Value a)
    by (intros a; rewrite E1; discriminate).
  assert (N2 : forall a, TaskUpdateData.assigneeId absentValue <> Value a)
    by (intros a; rewrite E2; discriminate).
  rewrite (updateTask_applied actor nullPatch nullValue w t Hwf Hin Hvis Hv1 N1).
  rewrite (updateTask_applied actor absentPatch absentValue w t Hwf Hin Hvis Hv2 N2).
  do 4 eexists. split; [reflexivity|]. split; [reflexivity|].
  assert (A1 : Task.assigneeId
                 (applyUpdate (now w) (TaskService.updateTask_payload nullValue) t) = None).
  { unfold applyUpdate, TaskService.updateTask_payload.
    cbn [Task.assigneeId UpdateInput.assignee]. rewrite E1. reflexivity. }
  assert (A2 : Task.assigneeId
                 (applyUpdate (now w) (TaskService.updateTask_payload absentValue) t)
               = Task.assigneeId t).
  { unfold applyUpdate, TaskService.updateTask_payload.
    cbn [Task.assigneeId UpdateInput.assignee]. rewrite E2. reflexivity. }
  assert (Hex : exists r, In r (tasks w) /\ hasId (Task.id t) r = true).
  { exists t. split; [assumption|]. unfold hasId. apply String.eqb_refl. }
  cbn [task assignee withRelations tasks].
  split; [exact A1|].
  split; [rewrite A1; reflexivity|].
  split; [apply find_replaced; [unfold hasId; apply String.eqb_refl|exact Hex]|].
  split; [exact A2|].
  split; [apply find_replaced; [unfold hasId; apply String.eqb_refl|exact Hex]|].
  rewrite A1, A2. intros Hne E. apply Hne. symmetry. exact E.
Qed.

Lemma updateTask_assignee_null_vs_absent_witness :
  exists r1 w1 r2 w2,
    TaskService.updateTask "t1" Sample.bob Sample.unassignPatch Sample.world
    = (Returned r1, w1)
    /\ TaskService.updateTask "t1" Sample.bob TaskUpdateData.empty Sample.world
       = (Returned r2, w2)
    /\ Task.assigneeId (task r1) = None
    /\ Task.assigneeId (task r2) = Some Sample.bob.
Proof.
  destruct (updateTask_assignee_null_vs_absent Sample.world Sample.bob
              (Sample.mkTask "t1" "Implement Search" Sample.alice (Some Sample.bob) 10)
              Sample.unassignPatch Sample.unassignPatch
              TaskUpdateData.empty TaskUpdateData.empty)
    as (r1 & w1 & r2 & w2 & H1 & H2 & H3 & _ & _ & H6 & _).
  - unfold wellFormed. simpl. repeat constructor; simpl; intuition discriminate.
  - simpl. tauto.
  - reflexivity.
  - reflexivity.
  - reflexivity.
  - reflexivity.
  - reflexivity.
  - exists r1, w1, r2, w2. repeat split; assumption.
Defined.

(** C10, as the code has it. For an actor who is neither creator nor
    assignee of the target, a patch the schema accepts fails with the merged
    error after the single participant lookup, a patch the schema refuses
    fails with its validation error before the store is read, and in neither
    case is the assignee looked up or its absence reported. *)
Theorem updateTask_outsider (w : World) (actor taskId : string)
    (patch : TaskUpdateData.t) :
  (forall t, In t (tasks w) -> Task.id t = taskId -> visibleTo actor t = false) ->
  (forall value, taskUpdateSchema patch = inr value ->
     TaskService.updateTask taskId actor patch w
     = (Thrown (Error NotFoundOrDenied),
        mkWorld (tasks w) (users w) (now w)
          (log w ++ [Call.task_findFirst
                       (Where.set_OR (TaskService.creatorOrAssignee actor)
                          (Where.set_id taskId Where.empty))])))
  /\ (forall msg, taskUpdateSchema patch = inl msg ->
        TaskService.updateTask taskId actor patch w
        = (Thrown (Error ("Validation error: " ++ msg)), w))
  /\ fst (TaskService.updateTask taskId actor patch w) <> Thrown (Error AssigneeMissing)
  /\ (forall u, In (Call.user_findUnique u)
                  (log (snd (TaskService.updateTask taskId actor patch w))) ->
                In (Call.user_findUnique u) (log w)).
Proof.
  intros Hout.
  pose proof (find_participant_none taskId actor (tasks w) Hout) as Hf.
  split; [intros value Hv; exact (updateTask_denied _ _ _ _ _ Hv Hf)|].
  split; [intros msg Hv; exact (updateTask_invalid _ _ _ _ _ Hv)|].
  destruct (taskUpdateSchema patch) as [msg|value] eqn:Hv.
  - rewrite (updateTask_invalid _ _ _ _ _ Hv). cbn [fst snd].
    split; [intros E; inversion E|intros u Hu; exact Hu].
  - rewrite (updateTask_denied _ _ _ _ _ Hv Hf). cbn [fst snd log].
    split; [intros E; inversion E|].
    intros u Hu. apply in_app_or in Hu. destruct Hu as [Hu|[Hu|[]]];
      [exact Hu|discriminate Hu].
Qed.

Lemma updateTask_outsider_witness :
  fst (TaskService.updateTask "t1" Sample.mallory (Sample.assignPatch "ghost")
         Sample.world)
  = Thrown (Error NotFoundOrDenied)
  /\ fst (TaskService.updateTask "t1" Sample.mallory (Sample.assignPatch "ghost")
            Sample.world)
     <> Thrown (Error AssigneeMissing).
Proof.
  destruct (updateTask_outsider Sample.world Sample.mallory "t1"
              (Sample.assignPatch "ghost")) as (H1 & _ & H3 & _).
  - simpl. intros t [<-|[<-|[<-|[]]]]; intros E; try discriminate E; reflexivity.
  - split; [|exact H3].
    rewrite (H1 (Sample.assignPatch "ghost") eq_refl). reflexivity.
Defined.

(** C10 as stated fails: mallory is neither creator nor assignee of "t1",
    yet her update with the patch [{ title: "" }] fails with the validation
    error, not with the merged not-found error. *)
Lemma updateTask_outsider_invalid_patch :
  (forall t, In t (tasks Sample.world) -> Task.id t = "t1" ->
             Task.creatorId t <> Sample.mallory
             /\ Task.assigneeId t <> Some Sample.mallory)
  /\ fst (TaskService.updateTask "t1" Sample.mallory (Sample.titlePatch "") Sample.world)
     = Thrown (Error "Validation error: Task title cannot be empty")
  /\ fst (TaskService.updateTask "t1" Sample.mallory (Sample.titlePatch "") Sample.world)
     <> Thrown (Error NotFoundOrDenied).
Proof.
  split; [|split].
  - simpl. intros t [<-|[<-|[<-|[]]]]; intros E; try discriminate E;
      split; discriminate.
  - reflexivity.
  - vm_compute. discriminate.
Qed.

(** ** Deleting: [deleteTask] *)

Lemma deleteTask_denied (taskId userId : string) (w : World) :
  find (matches (Where.set_creatorId userId (Where.set_id taskId Where.empty)))
    (tasks w) = None ->
  TaskService.deleteTask taskId userId w
  = (Thrown (Error NotFoundOrDenied),
     mkWorld (tasks w) (users w) (now w)
       (log w ++ [Call.task_findFirst
                    (Where.set_creatorId userId (Where.set_id taskId Where.empty))])).
Proof.
  intros Hf.
  unfold TaskService.deleteTask, tryCatch, prisma.task_findFirst, bind, record,
    getWorld, ret.
  cbn [tasks]. rewrite Hf. reflexivity.
Qed.

Lemma deleteTask_done (userId : string) (w : World) (t : Task.t) :
  wellFormed w -> In t (tasks w) -> Task.creatorId t = userId ->
  TaskService.deleteTask (Task.id t) userId w
  = (Returned tt,
     mkWorld (filter (fun r => negb (hasId (Task.id t) r)) (tasks w))
       (users w) (now w)
       (log w ++ [Call.task_findFirst
                    (Where.set_creatorId userId (Where.set_id (Task.id t) Where.empty));
                  Call.task_delete (Task.id t)])).
Proof.
  intros Hwf Hin Hc.
  unfold TaskService.deleteTask, tryCatch, prisma.task_findFirst, prisma.task_delete,
    bind, record, getWorld, setTasks, ret.
  cbn [tasks users now log].
  rewrite (find_ext _ (fun r => (hasId (Task.id t) r
                                 && String.eqb (Task.creatorId r) userId)%bool));
    [|intros; apply matches_creator].
  rewrite (find_by_id (tasks w) t (fun r => String.eqb (Task.creatorId r) userId) Hwf Hin).
  rewrite Hc, String.eqb_refl.
  cbn [tasks users now log].
  rewrite (find_hasId (tasks w) t Hwf Hin).
  cbn [tasks users now log]. rewrite <- app_assoc. reflexivity.
Qed.

(** C4. On a task whose assignee is not its creator, [deleteTask] by the
    assignee fails with the merged error and leaves the tasks as they were,
    and [deleteTask] by the creator returns and removes exactly the row with
    that id. *)
Theorem deleteTask_creator_only (w : World) (t : Task.t) (a : string) :
  wellFormed w -> In t (tasks w) ->
  Task.assigneeId t = Some a -> a <> Task.creatorId t ->
  (exists w1,
     TaskService.deleteTask (Task.id t) a w = (Thrown (Error NotFoundOrDenied), w1)
     /\ tasks w1 = tasks w
     /\ In t (tasks w1))
  /\ (exists w2,
        TaskService.deleteTask (Task.id t) (Task.creatorId t) w = (Returned tt, w2)
        /\ ~ In t (tasks w2)
        /\ (forall r, In r (tasks w2) <-> In r (tasks w) /\ Task.id r <> Task.id t)).
Proof.
  intros Hwf Hin Ha Hne. split.
  - eexists. split; [apply deleteTask_denied|split; [reflexivity|exact Hin]].
    rewrite (find_ext _ (fun r => (hasId (Task.id t) r
                                   && String.eqb (Task.creatorId r) a)%bool));
      [|intros; apply matches_creator].
    rewrite (find_by_id (tasks w) t (fun r => String.eqb (Task.creatorId r) a) Hwf Hin).
    destruct (String.eqb_spec (Task.creatorId t) a) as [E|E]; [|reflexivity].
    exfalso. apply Hne. symmetry. exact E.
  - eexists. split; [apply (deleteTask_done _ w t Hwf Hin eq_refl)|].
    cbn [tasks].
    assert (Hiff : forall r, In r (filter (fun r => negb (hasId (Task.id t) r)) (tasks w))
                             <-> In r (tasks w) /\ Task.id r <> Task.id t).
    { intros r. rewrite filter_In. unfold hasId.
      destruct (String.eqb_spec (Task.id r) (Task.id t)) as [E|E]; simpl;
        intuition congruence. }
    split; [|exact Hiff].
    intros Hin'. apply Hiff in Hin'. destruct Hin' as [_ Hid]. exact (Hid eq_refl).
Qed.

Lemma deleteTask_creator_only_witness :
  (exists w1,
     TaskService.deleteTask "t1" Sample.bob Sample.world
     = (Thrown (Error NotFoundOrDenied), w1)
     /\ tasks w1 = tasks Sample.world)
  /\ (exists w2,
        TaskService.deleteTask "t1" Sample.alice Sample.world = (Returned tt, w2)
        /\ map Task.id (tasks w2) = ["t2"; "t3"]).
Proof.
  destruct (deleteTask_creator_only Sample.world
              (Sample.mkTask "t1" "Implement Search" Sample.alice (Some Sample.bob) 10)
              Sample.bob)
    as [(w1 & R1 & T1 & _) (w2 & R2 & _)].
  - unfold wellFormed. simpl. repeat constructor; simpl; intuition discriminate.
  - simpl. tauto.
  - reflexivity.
  - discriminate.
  - split.
    + exists w1. split; assumption.
    + exists w2. split; [exact R2|].
      vm_compute in R2. inversion R2. reflexivity.
Defined.

(** ** Changing the status: [updateTaskStatus] *)

(** When the participant lookup finds nothing, [updateTaskStatus] throws the
    merged error inside its [try] block and its [catch] hands it to
    [handleDatabaseError]: what leaves the service is the generic internal
    error. *)
Lemma updateTaskStatus_denied (taskId userId : string) (status : TaskStatus) (w : World) :
  find (matches (Where.set_OR (TaskService.creatorOrAssignee userId)
                   (Where.set_id taskId Where.empty))) (tasks w) = None ->
  TaskService.updateTaskStatus taskId userId status w
  = (Thrown (Error "An internal error occurred"),
     mkWorld (tasks w) (users w) (now w)
       (log w ++ [Call.task_findFirst
                    (Where.set_OR (TaskService.creatorOrAssignee userId)
                       (Where.set_id taskId Where.empty))])).
Proof.
  intros Hf.
  unfold TaskService.updateTaskStatus, tryCatch, prisma.task_findFirst, bind, record,
    getWorld, ret.
  cbn [tasks]. rewrite Hf. reflexivity.
Qed.

(** C2, what the code does. When no task with the id is visible to the
    actor, [updateTaskStatus] does not fail with the merged not-found error:
    the service rethrows it as "An internal error occurred", and the
    controller, which looks for the merged message to answer 404, answers
    500. *)
Theorem updateTaskStatus_rewraps_denial (w : World) (taskId actor : string)
    (status : TaskStatus) (raw : string) :
  (forall t, In t (tasks w) -> Task.id t = taskId -> visibleTo actor t = false) ->
  TaskController.parseStatus raw = Some status ->
  fst (TaskService.updateTaskStatus taskId actor status w)
  = Thrown (Error "An internal error occurred")
  /\ fst (TaskService.updateTaskStatus taskId actor status w)
     <> Thrown (Error NotFoundOrDenied)
  /\ fst (TaskController.updateTaskStatus (Some actor) taskId (Some raw) w)
     = Returned (mkResponse 500 (Failure "INTERNAL_ERROR" "Failed to update task status")).
Proof.
  intros Hout Hraw.
  pose proof (updateTaskStatus_denied taskId actor status w
                (find_participant_none taskId actor (tasks w) Hout)) as R.
  unfold TaskController.updateTaskStatus. rewrite Hraw.
  unfold tryCatch, bind. rewrite R. cbn [fst].
  split; [reflexivity|]. split; [discriminate|reflexivity].
Qed.

Lemma updateTaskStatus_rewraps_denial_witness :
  fst (TaskService.updateTaskStatus "t1" Sample.mallory COMPLETED Sample.world)
  = Thrown (Error "An internal error occurred")
  /\ fst (TaskController.updateTaskStatus (Some Sample.mallory) "t1" (Some "COMPLETED")
            Sample.world)
     = Returned (mkResponse 500 (Failure "INTERNAL_ERROR" "Failed to update task status")).
Proof.
  destruct (updateTaskStatus_rewraps_denial Sample.world "t1" Sample.mallory
              COMPLETED "COMPLETED") as (H1 & _ & H3).
  - simpl. intros t [<-|[<-|[<-|[]]]]; intros E; try discriminate E; reflexivity.
  - reflexivity.
  - split; assumption.
Defined.

(** The sibling paths keep the merged error: the same denied actor gets it
    unchanged from [updateTask] and [deleteTask]. *)
Example siblings_keep_the_merged_error :
  fst (TaskService.updateTask "t1" Sample.mallory TaskUpdateData.empty Sample.world)
  = Thrown (Error NotFoundOrDenied)
  /\ fst (TaskService.deleteTask "t1" Sample.mallory Sample.world)
     = Thrown (Error NotFoundOrDenied).
Proof. split; reflexivity. Qed.

(** ** Searching: [searchTasks] *)

Lemma matches_search (userId q : string) (t : Task.t) :
  matches (TaskService.searchTasks_where userId q) t
  = (visibleTo userId t && mentions q t)%bool.
Proof.
  rewrite <- matches_creatorOrAssignee. unfold mentions.
  unfold TaskService.searchTasks_where.
  cbn [matches Where.set_AND Where.set_OR Where.set_title Where.set_description
       Where.empty whenSet forallb existsb matchesString mode contains
       Where.AND Where.OR Where.id Where.status Where.priority Where.assigneeId
       Where.creatorId Where.dueDate Where.title Where.description].
  rewrite !andb_true_r, !andb_true_l, !orb_false_r.
  reflexivity.
Qed.

Lemma filter_ext_eq {A : Type} (p q : A -> bool) (l : list A) :
  (forall x, p x = q x) -> filter p l = filter q l.
Proof.
  intros H. induction l as [|x l IH]; simpl; [reflexivity|].
  rewrite H, IH. reflexivity.
Qed.

(** A query that does not trim to the empty string is sent to the store,
    once, and the rows found are returned. *)
Lemma searchTasks_run (userId q : string) (w : World) :
  Js.allWhiteSpace q = false ->
  TaskService.searchTasks userId q w
  = (Returned (searchResult userId q w),
     mkWorld (tasks w) (users w) (now w)
       (log w ++ [Call.task_findMany (TaskService.searchTasks_where userId q)
                    (OrderBy.mk None (Some desc) None None None None)
                    None (Some 50)])).
Proof.
  intros Hq. unfold TaskService.searchTasks.
  rewrite truthy_trim, Hq. cbn [negb].
  unfold tryCatch, prisma.task_findMany, bind, record, getWorld, ret.
  cbn [tasks users now log]. unfold searchResult.
  rewrite (filter_ext_eq _ _ (tasks w) (matches_search userId q)).
  reflexivity.
Qed.

(** A query that trims to the empty string returns at once. *)
Lemma searchTasks_short_circuit (userId q : string) (w : World) :
  Js.truthy (Js.trim q) = false ->
  TaskService.searchTasks userId q w = (Returned [], w).
Proof.
  intros Hq. unfold TaskService.searchTasks. rewrite Hq. reflexivity.
Qed.

(** C7. A query that is empty once trimmed is answered with the empty list
    and the store, its log of calls included, is left as it was: no read is
    issued. *)
Theorem searchTasks_blank_query (actor q : string) (w : World) :
  Js.trim q = EmptyString ->
  TaskService.searchTasks actor q w = (Returned [], w).
Proof.
  intros Hq. apply searchTasks_short_circuit. rewrite Hq. reflexivity.
Qed.

Lemma searchTasks_blank_query_witness :
  TaskService.searchTasks Sample.alice "   " Sample.world = (Returned [], Sample.world)
  /\ TaskService.searchTasks Sample.alice "" Sample.world = (Returned [], Sample.world).
Proof.
  split.
  - apply (searchTasks_blank_query Sample.alice "   " Sample.world). reflexivity.
  - apply (searchTasks_blank_query Sample.alice "" Sample.world). reflexivity.
Defined.

Lemma StronglySorted_weaken {A : Type} (R R' : A -> A -> Prop) (l : list A) :
  (forall a b, R a b -> R' a b) -> StronglySorted R l -> StronglySorted R' l.
Proof.
  intros HR. induction 1 as [|x l Hs IH Hx]; constructor; auto.
  eapply Forall_impl; [|exact Hx]. auto.
Qed.

Lemma newestFirst_total (a b : Task.t) :
  newestFirst a b = true \/ newestFirst b a = true.
Proof. unfold newestFirst. rewrite !Z.leb_le. lia. Qed.

Lemma newestFirst_trans (a b c : Task.t) :
  newestFirst a b = true -> newestFirst b c = true -> newestFirst a c = true.
Proof. unfold newestFirst. rewrite !Z.leb_le. lia. Qed.

(** The searched rows are at most 50, in descending order of [updatedAt]. *)
Lemma searchResult_capped_sorted (userId q : string) (w : World) :
  (List.length (searchResult userId q w) <= 50)%nat
  /\ StronglySorted
       (fun x y => Task.updatedAt (task y) <= Task.updatedAt (task x))
       (searchResult userId q w).
Proof.
  unfold searchResult. split.
  - rewrite length_map. apply firstn_le_length.
  - apply StronglySorted_map. cbn [task withRelations].
    apply StronglySorted_firstn.
    eapply StronglySorted_weaken;
      [|apply (sortRows_sorted newestFirst newestFirst_total newestFirst_trans)].
    intros a b H. unfold newestFirst in H. apply Z.leb_le. exact H.
Qed.

(** C8. Whatever the actor and the query, and however many tasks match, the
    dedicated search returns at most 50 tasks, most recently updated first;
    the limit is the constant 50 of the one [findMany] call it issues, which
    takes no paging argument from the caller. *)
Theorem searchTasks_capped_newest_first (actor q : string) (w : World) :
  exists r w',
    TaskService.searchTasks actor q w = (Returned r, w')
    /\ (List.length r <= 50)%nat
    /\ StronglySorted (fun x y => Task.updatedAt (task y) <= Task.updatedAt (task x)) r
    /\ (Js.trim q <> EmptyString ->
        r = searchResult actor q w
        /\ log w' = (log w ++ [Call.task_findMany (TaskService.searchTasks_where actor q)
                                 (OrderBy.mk None (Some desc) None None None None)
                                 None (Some 50)])%list).
Proof.
  destruct (Js.allWhiteSpace q) eqn:Hq.
  - exists [], w.
    split; [apply searchTasks_short_circuit; rewrite truthy_trim, Hq; reflexivity|].
    apply trim_empty_iff in Hq.
    split; [simpl; lia|]. split; [constructor|]. intros Hne. contradiction.
  - rewrite (searchTasks_run actor q w Hq).
    destruct (searchResult_capped_sorted actor q w) as [Hlen Hsorted].
    eexists. eexists. split; [reflexivity|].
    split; [exact Hlen|]. split; [exact Hsorted|].
    intros _. split; reflexivity.
Qed.

(** Sixty tasks match; the fifty most recently updated come back, the
    newest first. *)
Example searchTasks_sixty_matches :
  match fst (TaskService.searchTasks Sample.alice "search" (Sample.worldOf 60)) with
  | Returned r =>
      List.length r = 50%nat
      /\ option_map (fun t => Task.updatedAt (task t)) (hd_error r) = Some 59
      /\ option_map (fun t => Task.updatedAt (task t)) (hd_error (rev r)) = Some 10
  | Thrown _ => False
  end.
Proof. vm_compute. repeat split. Qed.

(** C9. The service asks only that the query not be blank: a query with a
    character that is not white space, a single letter included, is sent
    to the store in one [findMany] under the search clause, and what comes
    back are stored tasks visible to the actor whose title or description
    is [ILIKE '%q%'], all of them when at most 50 qualify; for a query with
    no pattern character that is literal containment, letter case aside.
    The two-character minimum is the controller's: it answers 400 to a
    query shorter than that once trimmed, and reads nothing. *)
Theorem searchTasks_minimum_length_in_controller (actor q : string) (w : World) :
  Js.allWhiteSpace q = false ->
  (exists r w',
     TaskService.searchTasks actor q w = (Returned r, w')
     /\ log w' = (log w ++ [Call.task_findMany (TaskService.searchTasks_where actor q)
                              (OrderBy.mk None (Some desc) None None None None)
                              None (Some 50)])%list
     /\ Forall (fun t => In (task t) (tasks w)
                         /\ visibleTo actor (task t) = true
                         /\ mentions q (task t) = true) r
     /\ ((List.length (filter (fun t => (visibleTo actor t && mentions q t)%bool)
                         (tasks w)) <= 50)%nat ->
         forall t, In t (tasks w) -> visibleTo actor t = true -> mentions q t = true ->
                   In (withRelations (users w) t) r))
  /\ (Db.plain q = true ->
      forall t, mentions q t
                = (containsLiterally q (Task.title t)
                   || match Task.description t with
                      | Some d => containsLiterally q d
                      | None => false
                      end)%bool)
  /\ (forall s, Js.length (Js.trim s) < 2 ->
        exists msg,
          TaskController.searchTasks (Some actor) (QString s) w
          = (Returned (mkResponse 400 (Failure "VALIDATION_ERROR" msg)), w)).
Proof.
  intros Hq. split; [|split].
  - rewrite (searchTasks_run actor q w Hq).
    eexists. eexists. split; [reflexivity|]. cbn [log].
    split; [reflexivity|]. unfold searchResult. split.
    + apply Forall_forall. intros x Hx.
      apply in_map_iff in Hx. destruct Hx as [row [<- Hrow]]. cbn [task withRelations].
      apply firstn_incl, sortRows_In, filter_In in Hrow. destruct Hrow as [Hin Hm].
      apply andb_true_iff in Hm. tauto.
    + intros Hfit t Hin Hvis Hm. apply in_map.
      rewrite firstn_all2 by (rewrite sortRows_length; exact Hfit).
      apply sortRows_In, filter_In. split; [exact Hin|]. rewrite Hvis, Hm. reflexivity.
  - intros Hplain t. apply mentions_plain. exact Hplain.
  - intros s Hs. unfold TaskController.searchTasks.
    destruct (Js.truthy s); cbn [negb]; [|eexists; reflexivity].
    destruct (Z.ltb_spec (Js.length (Js.trim s)) 2) as [_|Hge]; [|lia].
    eexists; reflexivity.
Qed.

Lemma searchTasks_minimum_length_in_controller_witness :
  (exists r w',
     TaskService.searchTasks Sample.alice "r" Sample.world = (Returned r, w')
     /\ map (fun t => Task.id (task t)) r = ["t2"; "t1"]
     /\ List.length (log w') = 1%nat)
  /\ (exists msg,
        TaskController.searchTasks (Some Sample.alice) (QString "r") Sample.world
        = (Returned (mkResponse 400 (Failure "VALIDATION_ERROR" msg)), Sample.world)).
Proof.
  destruct (searchTasks_minimum_length_in_controller Sample.alice "r" Sample.world
              eq_refl) as ((r & w' & Hrun & Hlog & _) & _ & Hcontroller).
  split.
  - exists r, w'. split; [exact Hrun|].
    split; [vm_compute in Hrun; inversion Hrun; reflexivity|].
    rewrite Hlog. reflexivity.
  - apply Hcontroller. vm_compute. reflexivity.
Defined.

(** The one-letter query "r": the service returns alice's two tasks that
    mention it, the controller refuses it. *)
Example searchTasks_single_letter :
  match fst (TaskService.searchTasks Sample.alice "r" Sample.world) with
  | Returned r => map (fun t => Task.id (task t)) r = ["t2"; "t1"]
  | Thrown _ => False
  end
  /\ TaskController.searchTasks (Some Sample.alice) (QString "r") Sample.world
     = (Returned (mkResponse 400
                    (Failure "VALIDATION_ERROR"
                       "Search query must be at least 2 characters long")),
        Sample.world).
Proof. split; vm_compute; reflexivity. Qed.

(** The characters [_] and [%] of a query are pattern characters: "_"
    finds every visible task with a non-empty title, "s_arch" finds
    "Implement Search", and an escaped "\_" finds none of these. *)
Example searchTasks_pattern_characters :
  match fst (TaskService.searchTasks Sample.alice "_" Sample.world),
        fst (TaskService.searchTasks Sample.alice "s_arch" Sample.world),
        fst (TaskService.searchTasks Sample.alice "\_" Sample.world) with
  | Returned r1, Returned r2, Returned r3 =>
      map (fun t => Task.id (task t)) r1 = ["t2"; "t1"]
      /\ map (fun t => Task.id (task t)) r2 = ["t1"]
      /\ r3 = []
  | _, _, _ => False
  end.
Proof. vm_compute. repeat split. Qed.

(** * Further properties of the services *)

(** ** Reading one task: [getTaskById] *)

(** [getTaskById] never throws; it returns the first stored row with this
    id that the user participates in, joined, and changes no table. *)
Lemma getTaskById_run (taskId userId : string) (w : World) :
  TaskService.getTaskById taskId userId w
  = (Returned (option_map (withRelations (users w))
                 (find (matches (Where.set_OR (TaskService.creatorOrAssignee userId)
                                   (Where.set_id taskId Where.empty))) (tasks w))),
     mkWorld (tasks w) (users w) (now w)
       (log w ++ [Call.task_findFirst
                    (Where.set_OR (TaskService.creatorOrAssignee userId)
                       (Where.set_id taskId Where.empty))])).
Proof.
  unfold TaskService.getTaskById, tryCatch, prisma.task_findFirst, bind, record,
    getWorld, ret.
  reflexivity.
Qed.

(** X1. A stored task is read back by exactly its creator and its assignee:
    for them [getTaskById] returns the row with its relations, for anyone
    else it returns null; no table changes. *)
Theorem getTaskById_participants_only (w : World) (t : Task.t) (userId : string) :
  wellFormed w -> In t (tasks w) ->
  fst (TaskService.getTaskById (Task.id t) userId w)
  = Returned (if visibleTo userId t then Some (withRelations (users w) t) else None)
  /\ tasks (snd (TaskService.getTaskById (Task.id t) userId w)) = tasks w
  /\ users (snd (TaskService.getTaskById (Task.id t) userId w)) = users w.
Proof.
  intros Hwf Hin. rewrite getTaskById_run. cbn [fst snd tasks users].
  split; [|split; reflexivity].
  destruct (visibleTo userId t) eqn:Hv.
  - rewrite (find_participant_some userId (tasks w) t Hwf Hin Hv). reflexivity.
  - rewrite find_participant_none; [reflexivity|].
    intros r Hr E. rewrite (same_id_same_row (tasks w) r t Hwf Hr Hin E). exact Hv.
Qed.

Lemma getTaskById_participants_only_witness :
  fst (TaskService.getTaskById "t1" Sample.bob Sample.world)
  = Returned (Some (withRelations (users Sample.world)
                      (Sample.mkTask "t1" "Implement Search" Sample.alice
                         (Some Sample.bob) 10)))
  /\ fst (TaskService.getTaskById "t1" Sample.mallory Sample.world) = Returned None.
Proof.
  split.
  - refine (proj1 (getTaskById_participants_only Sample.world
                     (Sample.mkTask "t1" "Implement Search" Sample.alice
                        (Some Sample.bob) 10) Sample.bob _ _)).
    + unfold wellFormed. simpl. repeat constructor; simpl; intuition discriminate.
    + simpl. tauto.
  - refine (proj1 (getTaskById_participants_only Sample.world
                     (Sample.mkTask "t1" "Implement Search" Sample.alice
                        (Some Sample.bob) 10) Sample.mallory _ _)).
    + unfold wellFormed. simpl. repeat constructor; simpl; intuition discriminate.
    + simpl. tauto.
Defined.

(** X2. The read endpoint does not tell a hidden task from a missing one:
    an id that no task has and the id of a task the user does not
    participate in get the same 404 answer. *)
Theorem getTaskById_no_existence_leak (w : World) (userId missingId : string)
    (hidden : Task.t) :
  wellFormed w ->
  (forall t, In t (tasks w) -> Task.id t <> missingId) ->
  In hidden (tasks w) -> visibleTo userId hidden = false ->
  fst (TaskController.getTaskById (Some userId) missingId w)
  = Returned (mkResponse 404 (Failure "NOT_FOUND" NotFoundOrDenied))
  /\ fst (TaskController.getTaskById (Some userId) (Task.id hidden) w)
     = fst (TaskController.getTaskById (Some userId) missingId w).
Proof.
  intros Hwf Hmissing Hin Hv.
  unfold TaskController.getTaskById, tryCatch, bind.
  rewrite !getTaskById_run.
  rewrite (find_participant_none missingId userId (tasks w));
    [|intros t Ht E; exfalso; exact (Hmissing t Ht E)].
  rewrite (find_participant_none (Task.id hidden) userId (tasks w));
    [|intros t Ht E; rewrite (same_id_same_row (tasks w) t hidden Hwf Ht Hin E);
      exact Hv].
  split; reflexivity.
Qed.

Lemma getTaskById_no_existence_leak_witness :
  fst (TaskController.getTaskById (Some Sample.bob) "t3" Sample.world)
  = fst (TaskController.getTaskById (Some Sample.bob) "nope" Sample.world).
Proof.
  refine (proj2 (getTaskById_no_existence_leak Sample.world Sample.bob "nope"
                   (Sample.mkTask "t3" "Search the logs" Sample.mallory None 20)
                   _ _ _ _)).
  - unfold wellFormed. simpl. repeat constructor; simpl; intuition discriminate.
  - simpl. intros t [<-|[<-|[<-|[]]]]; discriminate.
  - simpl. tauto.
  - reflexivity.
Defined.

(** ** Listing: how the filters compose *)

(** The strings the filter schema lets through are not empty. *)
Lemma taskFilterSchema_truthy (filters : TaskFilterData.t) (value : TaskFilterValue.t) :
  taskFilterSchema filters = inr value ->
  (forall a, TaskFilterValue.assigneeId value = Some a -> Js.truthy a = true)
  /\ (forall c, TaskFilterValue.creatorId value = Some c -> Js.truthy c = true)
  /\ (forall q, TaskFilterValue.search value = Some q -> Js.truthy q = true).
Proof.
  unfold taskFilterSchema. intros H. joi_invert H.
  inversion H; subst; clear H.
  cbn [TaskFilterValue.assigneeId TaskFilterValue.creatorId TaskFilterValue.search].
  repeat split.
  - intros x ->.
    destruct (TaskFilterData.assigneeId filters) as [s|]; [|discriminate].
    unfold Joi.nonEmpty in *. destruct (Js.truthy s) eqn:Hs; [|discriminate].
    simpl in *. congruence.
  - intros x ->.
    destruct (TaskFilterData.creatorId filters) as [s|]; [|discriminate].
    unfold Joi.nonEmpty in *. destruct (Js.truthy s) eqn:Hs; [|discriminate].
    simpl in *. congruence.
  - intros x ->.
    destruct (TaskFilterData.search filters) as [s|]; [|discriminate].
    destruct (Js.truthy (Js.trim s)) eqn:Hs; [|discriminate].
    cbn [negb] in *.
    destruct (Js.length (Js.trim s) <? 2); [discriminate|].
    destruct (255 <? Js.length (Js.trim s)); [discriminate|].
    congruence.
Qed.

(** With non-empty filter strings, the where clause selects the visible
    rows that pass every filter that is set: filters and visibility are
    conjoined. *)
Lemma getUserTasks_where_conjunction (userId : string) (value : TaskFilterValue.t)
    (t : Task.t) :
  (forall a, TaskFilterValue.assigneeId value = Some a -> Js.truthy a = true) ->
  (forall c, TaskFilterValue.creatorId value = Some c -> Js.truthy c = true) ->
  (forall q, TaskFilterValue.search value = Some q -> Js.truthy q = true) ->
  matches (TaskService.getUserTasks_where userId value) t
  = (visibleTo userId t && satisfies value t)%bool.
Proof.
  intros Ha Hc Hq.
  rewrite <- matches_creatorOrAssignee.
  unfold TaskService.getUserTasks_where, satisfies, mentions.
  destruct (TaskFilterValue.search value) as [q|];
    [rewrite (Hq q eq_refl)|];
    (destruct (TaskFilterValue.assigneeId value) as [a|];
     [rewrite (Ha a eq_refl)|]);
    (destruct (TaskFilterValue.creatorId value) as [c|];
     [rewrite (Hc c eq_refl)|]);
    destruct (TaskFilterValue.status value), (TaskFilterValue.priority value),
      (TaskFilterValue.dueDateFrom value), (TaskFilterValue.dueDateTo value);
    cbn [matches Where.set_AND Where.set_OR Where.delete_OR Where.set_status
         Where.set_priority Where.set_assigneeId Where.set_creatorId
         Where.set_dueDate Where.set_title Where.set_description
         Where.empty whenSet forallb existsb matchesString mode contains
         Where.AND Where.OR Where.id Where.status Where.priority Where.assigneeId
         Where.creatorId Where.dueDate Where.title Where.description];
    rewrite ?andb_true_r, ?andb_true_l, ?orb_false_r, ?andb_assoc;
    try reflexivity; btauto.
Qed.

(** The schema passes the filters through: what the where clause is
    built from is what the caller set, with the search trimmed. *)
Lemma taskFilterSchema_passes (filters : TaskFilterData.t) (value : TaskFilterValue.t)
    (t : Task.t) :
  taskFilterSchema filters = inr value ->
  satisfies value t = passes filters t.
Proof.
  unfold taskFilterSchema. intros H. joi_invert H.
  inversion H; subst; clear H.
  unfold satisfies, passes, matchesDate.
  cbn [TaskFilterValue.status TaskFilterValue.priority TaskFilterValue.assigneeId
       TaskFilterValue.creatorId TaskFilterValue.dueDateFrom TaskFilterValue.dueDateTo
       TaskFilterValue.search gte lte].
  assert (Ha : a = TaskFilterData.assigneeId filters).
  { destruct (TaskFilterData.assigneeId filters) as [x|]; [|congruence].
    unfold Joi.nonEmpty in *. destruct (Js.truthy x); simpl in *; congruence. }
  assert (Hc : a0 = TaskFilterData.creatorId filters).
  { destruct (TaskFilterData.creatorId filters) as [x|]; [|congruence].
    unfold Joi.nonEmpty in *. destruct (Js.truthy x); simpl in *; congruence. }
  assert (Hs : a1 = option_map Js.trim (TaskFilterData.search filters)).
  { destruct (TaskFilterData.search filters) as [x|]; [|simpl; congruence].
    destruct (negb (Js.truthy (Js.trim x))); [discriminate|].
    destruct (Js.length (Js.trim x) <? 2); [discriminate|].
    destruct (255 <? Js.length (Js.trim x)); [discriminate|].
    simpl. congruence. }
  rewrite Ha, Hc, Hs.
  destruct (TaskFilterData.search filters) as [x|]; cbn [option_map whenSet];
    destruct (TaskFilterData.dueDateFrom filters) as [from|],
             (TaskFilterData.dueDateTo filters) as [to|];
    cbn [whenSet]; destruct (Task.dueDate t); cbn [whenSet];
    rewrite ?andb_true_r, ?andb_false_r; try reflexivity; btauto.
Qed.

(** X3. With filters the schema accepts, the tasks [getUserTasks] returns
    are visible to the user and pass every filter the caller set (status,
    priority, assignee, creator, due-date range, trimmed search); the total
    counts exactly the stored tasks of that kind, and when they all fit on
    the first page every one of them is returned. *)
Theorem getUserTasks_filters_conjoined (userId : string) (filters : TaskFilterData.t)
    (value : TaskFilterValue.t) (w : World) :
  taskFilterSchema filters = inr value ->
  exists r w',
    TaskService.getUserTasks userId filters w = (Returned r, w')
    /\ Forall (fun t => In (task t) (tasks w)
                        /\ visibleTo userId (task t) = true
                        /\ passes filters (task t) = true) (tl_tasks r)
    /\ tl_total r
       = Z.of_nat (List.length
                     (filter (fun t => (visibleTo userId t && passes filters t)%bool)
                        (tasks w)))
    /\ (tl_page r = 1 -> tl_total r <= tl_limit r ->
        forall t, In t (tasks w) -> visibleTo userId t = true ->
                  passes filters t = true ->
                  In (withRelations (users w) t) (tl_tasks r)).
Proof.
  intros Hv.
  destruct (taskFilterSchema_truthy _ _ Hv) as (Ha & Hc & Hq).
  pose proof (getUserTasks_where_conjunction userId value) as Hm.
  rewrite (getUserTasks_run _ _ _ _ Hv).
  eexists. eexists. split; [reflexivity|].
  cbn [tl_tasks tl_total tl_page tl_limit].
  assert (Hl : listed userId value w
               = filter (fun t => (visibleTo userId t && passes filters t)%bool)
                   (tasks w)).
  { unfold listed. apply filter_ext_eq. intros t.
    rewrite <- (taskFilterSchema_passes filters value t Hv). apply Hm; assumption. }
  rewrite Hl. split; [|split; [reflexivity|]].
  - apply Forall_forall. intros t Ht.
    apply in_map_iff in Ht. destruct Ht as [row [<- Hrow]]. cbn [task withRelations].
    unfold page in Hrow.
    apply firstn_incl, skipn_incl, applyOrder_In, filter_In in Hrow.
    destruct Hrow as [Hin Hrow]. apply andb_true_iff in Hrow. tauto.
  - intros Hp Hfit t Hin Hvis Hsat. rewrite Hp. apply in_map. unfold page.
    change (Z.to_nat ((1 - 1) * TaskFilterValue.limit value)) with 0%nat.
    cbn [skipn]. rewrite firstn_all2.
    + apply applyOrder_In, filter_In. split; [exact Hin|].
      rewrite Hvis, Hsat. reflexivity.
    + rewrite applyOrder_length. lia.
Qed.

Lemma getUserTasks_filters_conjoined_witness :
  exists r w',
    TaskService.getUserTasks Sample.alice (Sample.searchFilter " search ") Sample.world
    = (Returned r, w')
    /\ tl_total r = 1
    /\ map (fun t => Task.id (task t)) (tl_tasks r) = ["t1"].
Proof.
  destruct (getUserTasks_filters_conjoined Sample.alice (Sample.searchFilter " search ")
              (TaskFilterValue.mk None None None None None None (Some "search")
                 1 20 "createdAt" desc)
              Sample.world eq_refl)
    as (r & w' & Hrun & _ & Htotal & _).
  exists r, w'. split; [exact Hrun|]. split; [exact Htotal|].
  vm_compute in Hrun. inversion Hrun. reflexivity.
Defined.

(** A status filter and a creator filter on top of visibility: bob sees
    the one pending task alice created for him, and none when he asks for
    completed ones. *)
Example getUserTasks_status_and_creator :
  match fst (TaskService.getUserTasks Sample.bob
               (TaskFilterData.mk (Some PENDING) None None (Some Sample.alice)
                  None None None None None None None) Sample.world),
        fst (TaskService.getUserTasks Sample.bob
               (TaskFilterData.mk (Some COMPLETED) None None (Some Sample.alice)
                  None None None None None None None) Sample.world) with
  | Returned r1, Returned r2 =>
      map (fun t => Task.id (task t)) (tl_tasks r1) = ["t1"] /\ tl_tasks r2 = []
  | _, _ => False
  end.
Proof. vm_compute. split; reflexivity. Qed.

(** X4. A page holds [min(limit, max(0, total - (page - 1) * limit))]
    tasks: full pages, then the remainder, and past the last page the
    empty list with the total still reported, never an error. *)
Theorem getUserTasks_page_size (userId : string) (filters : TaskFilterData.t)
    (value : TaskFilterValue.t) (w : World) :
  taskFilterSchema filters = inr value ->
  exists r w',
    TaskService.getUserTasks userId filters w = (Returned r, w')
    /\ Z.of_nat (List.length (tl_tasks r))
       = Z.min (tl_limit r) (Z.max 0 (tl_total r - (tl_page r - 1) * tl_limit r))
    /\ (tl_totalPages r < tl_page r -> tl_tasks r = []).
Proof.
  intros Hv.
  destruct (taskFilterSchema_bounds _ _ Hv) as [Hp Hl].
  rewrite (getUserTasks_run _ _ _ _ Hv).
  eexists. eexists. split; [reflexivity|].
  cbn [tl_tasks tl_total tl_page tl_limit tl_totalPages].
  assert (Hlen : Z.of_nat
                   (List.length
                      (map (withRelations (users w))
                         (page (Some ((TaskFilterValue.page value - 1)
                                      * TaskFilterValue.limit value))
                            (Some (TaskFilterValue.limit value))
                            (applyOrder (TaskService.getUserTasks_orderBy value)
                               (listed userId value w)))))
                 = Z.min (TaskFilterValue.limit value)
                     (Z.max 0 (Z.of_nat (List.length (listed userId value w))
                               - (TaskFilterValue.page value - 1)
                                 * TaskFilterValue.limit value))).
  { rewrite length_map. unfold page.
    rewrite length_firstn, length_skipn, applyOrder_length. nia. }
  split; [exact Hlen|].
  intros Hlast.
  pose proof (ceilDiv_bounds (Z.of_nat (List.length (listed userId value w)))
                (TaskFilterValue.limit value) ltac:(lia)) as Hc.
  match type of Hlen with
  | Z.of_nat (List.length ?l) = _ =>
      destruct l; [reflexivity|exfalso; cbn [List.length] in Hlen; nia]
  end.
Qed.

Lemma getUserTasks_page_size_witness :
  exists r w',
    TaskService.getUserTasks Sample.alice (Sample.pageFilter 3 10) (Sample.worldOf 25)
    = (Returned r, w')
    /\ List.length (tl_tasks r) = 5%nat
    /\ tl_total r = 25.
Proof.
  destruct (getUserTasks_page_size Sample.alice (Sample.pageFilter 3 10)
              (Sample.pageValue 3 10) (Sample.worldOf 25) eq_refl)
    as (r & w' & Hrun & _).
  exists r, w'. split; [exact Hrun|].
  vm_compute in Hrun. inversion Hrun. split; reflexivity.
Defined.

(** ** Listing: the order of the result *)

Lemma string_leb_trans (s1 s2 s3 : string) :
  String.leb s1 s2 = true -> String.leb s2 s3 = true -> String.leb s1 s3 = true.
Proof.
  unfold String.leb.
  revert s2 s3. induction s1 as [|c1 s1 IH]; intros [|c2 s2] [|c3 s3]; simpl;
    try congruence.
  unfold Ascii.compare.
  destruct (N.compare_spec (N_of_ascii c1) (N_of_ascii c2)) as [E12|L12|G12];
    destruct (N.compare_spec (N_of_ascii c2) (N_of_ascii c3)) as [E23|L23|G23];
    try congruence;
    destruct (N.compare_spec (N_of_ascii c1) (N_of_ascii c3)) as [E13|L13|G13];
    try congruence; try lia; intros; auto.
  apply (IH s2 s3); assumption.
Qed.

Lemma fieldLeb_total (f : SortField) (a b : Task.t) :
  fieldLeb f a b = true \/ fieldLeb f b a = true.
Proof.
  destruct f; simpl; rewrite ?Z.leb_le; try lia.
  - destruct (Task.dueDate a), (Task.dueDate b); rewrite ?Z.leb_le; auto; lia.
  - apply String.leb_total.
Qed.

Lemma fieldLeb_trans (f : SortField) (a b c : Task.t) :
  fieldLeb f a b = true -> fieldLeb f b c = true -> fieldLeb f a c = true.
Proof.
  destruct f; simpl; rewrite ?Z.leb_le; try lia.
  - destruct (Task.dueDate a), (Task.dueDate b), (Task.dueDate c);
      rewrite ?Z.leb_le; try congruence; lia.
  - apply string_leb_trans.
Qed.

Lemma orderLeb_total (k : SortField * SortOrder) (a b : Task.t) :
  orderLeb k a b = true \/ orderLeb k b a = true.
Proof. unfold orderLeb. destruct (snd k); apply fieldLeb_total. Qed.

Lemma orderLeb_trans (k : SortField * SortOrder) (a b c : Task.t) :
  orderLeb k a b = true -> orderLeb k b c = true -> orderLeb k a c = true.
Proof.
  unfold orderLeb. destruct (snd k); intros H1 H2.
  - exact (fieldLeb_trans _ _ _ _ H1 H2).
  - exact (fieldLeb_trans _ _ _ _ H2 H1).
Qed.

(** The schema passes [sortBy] and [sortOrder] through and fills in
    [createdAt] and [desc] when they are missing. *)
Lemma taskFilterSchema_order (filters : TaskFilterData.t) (value : TaskFilterValue.t) :
  taskFilterSchema filters = inr value ->
  TaskFilterValue.sortBy value
  = match TaskFilterData.sortBy filters with Some c => c | None => "createdAt" end
  /\ TaskFilterValue.sortOrder value
     = match TaskFilterData.sortOrder filters with Some d => d | None => desc end.
Proof.
  unfold taskFilterSchema. intros H. joi_invert H.
  inversion H; subst; clear H.
  cbn [TaskFilterValue.sortBy TaskFilterValue.sortOrder].
  split; [|reflexivity].
  destruct (TaskFilterData.sortBy filters) as [c|]; [|congruence].
  destruct (existsb (String.eqb c) Joi.sortFields); [congruence|discriminate].
Qed.

(** The order the store applies for each of the five columns is the order
    of that column. *)
Lemma getUserTasks_orderBy_column (value : TaskFilterValue.t) (column : string) :
  TaskFilterValue.sortBy value = column ->
  In column ["createdAt"; "updatedAt"; "dueDate"; "priority"; "status"] ->
  exists f,
    orderKey (TaskService.getUserTasks_orderBy value)
    = Some (f, TaskFilterValue.sortOrder value)
    /\ (forall a b, orderLeb (f, TaskFilterValue.sortOrder value) a b = true ->
                    inOrder column (TaskFilterValue.sortOrder value) a b).
Proof.
  intros Hby Hin. unfold TaskService.getUserTasks_orderBy. rewrite Hby.
  unfold inOrder, orderLeb, columnLe. cbn [fst snd].
  simpl in Hin.
  destruct Hin as [<-|[<-|[<-|[<-|[<-|[]]]]]]; cbn [String.eqb Ascii.eqb Bool.eqb];
    eexists; (split; [reflexivity|]);
    intros a b; cbn [fst snd]; destruct (TaskFilterValue.sortOrder value);
    cbn [fieldLeb]; intros H;
    try (apply Z.leb_le; exact H).
  - destruct (Task.dueDate a), (Task.dueDate b);
      try (apply Z.leb_le; exact H); try exact I; discriminate H.
  - destruct (Task.dueDate a), (Task.dueDate b);
      try (apply Z.leb_le; exact H); try exact I; discriminate H.
Qed.

Lemma StronglySorted_skipn {A : Type} (R : A -> A -> Prop) (n : nat) (l : list A) :
  StronglySorted R l -> StronglySorted R (skipn n l).
Proof.
  intros H. revert n. induction H as [|x l Hs IH Hx]; intros [|n]; simpl;
    try constructor; auto.
Qed.

(** X5. The tasks [getUserTasks] returns are in the order the caller asked
    for: by the column named in [sortBy] ([createdAt] when missing), for
    the two timestamps, the due date, the priority and the status, in the
    direction of [sortOrder] ([desc] when missing). *)
Theorem getUserTasks_sorted (userId : string) (filters : TaskFilterData.t)
    (value : TaskFilterValue.t) (w : World) (column : string) (direction : SortOrder) :
  taskFilterSchema filters = inr value ->
  column = match TaskFilterData.sortBy filters with Some c => c | None => "createdAt" end ->
  direction = match TaskFilterData.sortOrder filters with Some d => d | None => desc end ->
  In column ["createdAt"; "updatedAt"; "dueDate"; "priority"; "status"] ->
  exists r w',
    TaskService.getUserTasks userId filters w = (Returned r, w')
    /\ StronglySorted (fun x y => inOrder column direction (task x) (task y))
         (tl_tasks r).
Proof.
  intros Hv Hcolumn Hdirection Hin.
  destruct (taskFilterSchema_order _ _ Hv) as [Hby Hdir].
  rewrite <- Hcolumn in Hby. rewrite <- Hdirection in Hdir.
  destruct (getUserTasks_orderBy_column value column Hby Hin) as [f [Hkey Hle]].
  rewrite Hdir in Hkey, Hle.
  rewrite (getUserTasks_run _ _ _ _ Hv).
  eexists. eexists. split; [reflexivity|]. cbn [tl_tasks].
  apply StronglySorted_map. cbn [task withRelations]. unfold page.
  apply StronglySorted_firstn, StronglySorted_skipn.
  unfold applyOrder. rewrite Hkey.
  eapply StronglySorted_weaken; [exact Hle|].
  apply sortRows_sorted; [apply orderLeb_total|apply orderLeb_trans].
Qed.

Lemma getUserTasks_sorted_witness :
  exists r w',
    TaskService.getUserTasks Sample.alice (Sample.sortFilter "updatedAt" asc)
      (Sample.worldOf 3) = (Returned r, w')
    /\ map (fun t => Task.updatedAt (task t)) (tl_tasks r) = [0; 1; 2]
    /\ StronglySorted (fun x y => Task.updatedAt (task x) <= Task.updatedAt (task y))
         (tl_tasks r).
Proof.
  destruct (getUserTasks_sorted Sample.alice (Sample.sortFilter "updatedAt" asc)
              (TaskFilterValue.mk None None None None None None None 1 20 "updatedAt" asc)
              (Sample.worldOf 3) "updatedAt" asc eq_refl eq_refl eq_refl)
    as (r & w' & Hrun & Hsorted).
  - simpl. tauto.
  - exists r, w'. split; [exact Hrun|]. split; [|exact Hsorted].
    vm_compute in Hrun. inversion Hrun. reflexivity.
Defined.

(** The same three tasks by [updatedAt] descending, and by default. *)
Example getUserTasks_sorted_descending :
  match fst (TaskService.getUserTasks Sample.alice (Sample.sortFilter "updatedAt" desc)
               (Sample.worldOf 3)) with
  | Returned r => map (fun t => Task.updatedAt (task t)) (tl_tasks r) = [2; 1; 0]
  | Thrown _ => False
  end.
Proof. vm_compute. reflexivity. Qed.

(** ** Listing: what the filter schema does to the input *)

(** What an accepted input looked like and what the value carries. *)
Lemma taskFilterSchema_accepts (filters : TaskFilterData.t) (value : TaskFilterValue.t) :
  taskFilterSchema filters = inr value ->
  match TaskFilterData.search filters with
  | Some s => 2 <= Js.length (Js.trim s) <= 255
              /\ TaskFilterValue.search value = Some (Js.trim s)
  | None => TaskFilterValue.search value = None
  end
  /\ match TaskFilterData.page filters with
     | Some p => 1 <= p /\ TaskFilterValue.page value = p
     | None => TaskFilterValue.page value = 1
     end
  /\ match TaskFilterData.limit filters with
     | Some l => 1 <= l <= 100 /\ TaskFilterValue.limit value = l
     | None => TaskFilterValue.limit value = 20
     end.
Proof.
  unfold taskFilterSchema. intros H. joi_invert H.
  inversion H; subst; clear H.
  cbn [TaskFilterValue.search TaskFilterValue.page TaskFilterValue.limit].
  repeat match goal with
         | E : Joi.integer _ _ _ _ _ = inr _ |- _ => apply integer_inr in E; simpl in E
         end.
  split; [|split].
  - destruct (TaskFilterData.search filters) as [s|].
    + destruct (Js.truthy (Js.trim s)); cbn [negb] in *; [|discriminate].
      destruct (Z.ltb_spec (Js.length (Js.trim s)) 2); [discriminate|].
      destruct (Z.ltb_spec 255 (Js.length (Js.trim s))); [discriminate|].
      split; [lia|congruence].
    + congruence.
  - destruct (TaskFilterData.page filters) as [p|];
      intuition (try discriminate; try congruence);
      try match goal with E : Some _ = Some _ |- _ => inversion E; subst end;
      try assumption; try reflexivity; lia.
  - destruct (TaskFilterData.limit filters) as [l|];
      intuition (try discriminate; try congruence);
      try match goal with E : Some _ = Some _ |- _ => inversion E; subst end;
      try assumption; try reflexivity; lia.
Qed.

(** X6. A search shorter than two characters once trimmed, a page below 1
    or a limit outside 1..100 makes [getUserTasks] throw a validation error
    before it reads the store. *)
Theorem getUserTasks_rejects_before_reading (userId : string)
    (filters : TaskFilterData.t) (w : World) :
  (exists s, TaskFilterData.search filters = Some s /\ Js.length (Js.trim s) < 2)
  \/ (exists p, TaskFilterData.page filters = Some p /\ p < 1)
  \/ (exists l, TaskFilterData.limit filters = Some l /\ (l < 1 \/ 100 < l)) ->
  exists msg,
    TaskService.getUserTasks userId filters w
    = (Thrown (Error ("Validation error: " ++ msg)), w).
Proof.
  intros Hbad.
  destruct (taskFilterSchema filters) as [msg|value] eqn:Hv.
  - exists msg. apply getUserTasks_invalid. exact Hv.
  - exfalso. destruct (taskFilterSchema_accepts _ _ Hv) as (Hs & Hp & Hl).
    destruct Hbad as [[s [E Hlt]]|[[p [E Hlt]]|[l [E Hlt]]]];
      rewrite E in *; lia.
Qed.

Lemma getUserTasks_rejects_before_reading_witness :
  exists msg,
    TaskService.getUserTasks Sample.alice (Sample.searchFilter " a ") Sample.world
    = (Thrown (Error ("Validation error: " ++ msg)), Sample.world).
Proof.
  apply (getUserTasks_rejects_before_reading Sample.alice (Sample.searchFilter " a ")
           Sample.world).
  left. exists " a ". split; [reflexivity|]. vm_compute. reflexivity.
Defined.

Lemma trimEnd_idempotent (s : string) : Js.trimEnd (Js.trimEnd s) = Js.trimEnd s.
Proof.
  induction s as [|c s IH]; simpl; [reflexivity|].
  destruct (Js.trimEnd s) as [|c' r] eqn:Hr.
  - destruct (Js.isWhiteSpace c) eqn:Hc; simpl; [reflexivity|].
    rewrite Hc. reflexivity.
  - simpl. simpl in IH. rewrite IH. reflexivity.
Qed.

Lemma trimStart_trimEnd (s : string) :
  Js.trimStart (Js.trimEnd (Js.trimStart s)) = Js.trimEnd (Js.trimStart s).
Proof.
  induction s as [|c s IH]; simpl; [reflexivity|].
  destruct (Js.isWhiteSpace c) eqn:Hc; [exact IH|].
  cbn [Js.trimEnd]. fold Js.trimEnd.
  destruct (Js.trimEnd s); rewrite ?Hc; simpl; rewrite ?Hc; reflexivity.
Qed.

Lemma trim_idempotent (s : string) : Js.trim (Js.trim s) = Js.trim s.
Proof.
  unfold Js.trim. rewrite trimStart_trimEnd. apply trimEnd_idempotent.
Qed.

(** X7. The search filter is trimmed before it is used: a listing whose
    [search] has white space around it is the listing for the trimmed
    [search], result and store calls alike. *)
Theorem getUserTasks_search_trimmed (userId s : string) (filters : TaskFilterData.t)
    (w : World) :
  TaskFilterData.search filters = Some s ->
  TaskService.getUserTasks userId filters w
  = TaskService.getUserTasks userId
      (TaskFilterData.mk (TaskFilterData.status filters) (TaskFilterData.priority filters)
         (TaskFilterData.assigneeId filters) (TaskFilterData.creatorId filters)
         (TaskFilterData.dueDateFrom filters) (TaskFilterData.dueDateTo filters)
         (Some (Js.trim s))
         (TaskFilterData.page filters) (TaskFilterData.limit filters)
         (TaskFilterData.sortBy filters) (TaskFilterData.sortOrder filters)) w.
Proof.
  intros Hs. unfold TaskService.getUserTasks.
  assert (E : taskFilterSchema
                (TaskFilterData.mk (TaskFilterData.status filters)
                   (TaskFilterData.priority filters)
                   (TaskFilterData.assigneeId filters) (TaskFilterData.creatorId filters)
                   (TaskFilterData.dueDateFrom filters) (TaskFilterData.dueDateTo filters)
                   (Some (Js.trim s))
                   (TaskFilterData.page filters) (TaskFilterData.limit filters)
                   (TaskFilterData.sortBy filters) (TaskFilterData.sortOrder filters))
              = taskFilterSchema filters).
  { unfold taskFilterSchema.
    cbn [TaskFilterData.status TaskFilterData.priority TaskFilterData.assigneeId
         TaskFilterData.creatorId TaskFilterData.dueDateFrom TaskFilterData.dueDateTo
         TaskFilterData.search TaskFilterData.page TaskFilterData.limit
         TaskFilterData.sortBy TaskFilterData.sortOrder].
    rewrite Hs, trim_idempotent. reflexivity. }
  rewrite E. reflexivity.
Qed.

Lemma getUserTasks_search_trimmed_witness :
  TaskService.getUserTasks Sample.alice (Sample.searchFilter "  search ") Sample.world
  = TaskService.getUserTasks Sample.alice (Sample.searchFilter "search") Sample.world.
Proof.
  exact (getUserTasks_search_trimmed Sample.alice "  search "
           (Sample.searchFilter "  search ") Sample.world eq_refl).
Defined.

(** ** Updating: assigning to a user *)

(** With a valid patch that names an assignee, on a task the actor
    participates in, the user is looked up after the task; the update is
    applied only when the user exists. *)
Lemma updateTask_assignee_checked (userId a : string) (patch value : TaskUpdateData.t)
    (w : World) (t : Task.t) :
  wellFormed w -> In t (tasks w) -> visibleTo userId t = true ->
  taskUpdateSchema patch = inr value ->
  TaskUpdateData.assigneeId value = Value a ->
  TaskService.updateTask (Task.id t) userId patch w
  = match findUser (users w) a with
    | None =>
        (Thrown (Error AssigneeMissing),
         mkWorld (tasks w) (users w) (now w)
           (log w ++ [Call.task_findFirst
                        (Where.set_OR (TaskService.creatorOrAssignee userId)
                           (Where.set_id (Task.id t) Where.empty));
                      Call.user_findUnique a]))
    | Some _ =>
        (Returned (withRelations (users w)
                     (applyUpdate (now w) (TaskService.updateTask_payload value) t)),
         mkWorld
           (map (fun r => if hasId (Task.id t) r
                          then applyUpdate (now w) (TaskService.updateTask_payload value) t
                          else r) (tasks w))
           (users w) (now w)
           (log w ++ [Call.task_findFirst
                        (Where.set_OR (TaskService.creatorOrAssignee userId)
                           (Where.set_id (Task.id t) Where.empty));
                      Call.user_findUnique a;
                      Call.task_update (Task.id t) (TaskService.updateTask_payload value)]))
    end.
Proof.
  intros Hwf Hin Hvis Hv Ha.
  destruct (taskUpdateSchema_assigneeId _ _ Hv) as [_ Htruthy].
  specialize (Htruthy a Ha).
  unfold TaskService.updateTask. rewrite Hv.
  unfold tryCatch, prisma.task_findFirst, prisma.task_update, prisma.user_findUnique,
    bind, record, getWorld, setTasks, ret.
  cbn [tasks users now log].
  rewrite (find_participant_some userId (tasks w) t Hwf Hin Hvis).
  rewrite Ha, Htruthy. cbn [tasks users now log].
  destruct (findUser (users w) a) as [u|] eqn:Hu.
  - cbn [tasks users now log]. rewrite (find_hasId (tasks w) t Hwf Hin).
    assert (Hpay : UpdateInput.assignee (TaskService.updateTask_payload value)
                   = Some (connect a)).
    { unfold TaskService.updateTask_payload. cbn [UpdateInput.assignee].
      rewrite Ha. reflexivity. }
    rewrite Hpay, Hu. cbn [tasks users now log].
    rewrite <- !app_assoc. reflexivity.
  - unfold throw. cbn [message Error AssigneeMissing NotFoundOrDenied].
    rewrite <- !app_assoc. reflexivity.
Qed.

(** X8. A participant who assigns the task to a user id that no user has
    gets "Assigned user does not exist" from the service and a 400 from the
    controller, and no task is changed. *)
Theorem updateTask_unknown_assignee (actor a : string) (patch value : TaskUpdateData.t)
    (w : World) (t : Task.t) :
  wellFormed w -> In t (tasks w) -> visibleTo actor t = true ->
  taskUpdateSchema patch = inr value ->
  TaskUpdateData.assigneeId patch = Value a ->
  findUser (users w) a = None ->
  fst (TaskService.updateTask (Task.id t) actor patch w) = Thrown (Error AssigneeMissing)
  /\ tasks (snd (TaskService.updateTask (Task.id t) actor patch w)) = tasks w
  /\ fst (TaskController.updateTask (Some actor) (Task.id t) patch w)
     = Returned (mkResponse 400 (Failure "VALIDATION_ERROR" AssigneeMissing)).
Proof.
  intros Hwf Hin Hvis Hv Ha Hu.
  destruct (taskUpdateSchema_assigneeId _ _ Hv) as [E _]. rewrite Ha in E.
  pose proof (updateTask_assignee_checked actor a patch value w t Hwf Hin Hvis Hv E) as R.
  rewrite Hu in R.
  unfold TaskController.updateTask, tryCatch, bind. rewrite R.
  cbn [fst snd tasks]. repeat split.
Qed.

Lemma updateTask_unknown_assignee_witness :
  fst (TaskService.updateTask "t1" Sample.bob (Sample.assignPatch "ghost") Sample.world)
  = Thrown (Error AssigneeMissing).
Proof.
  refine (proj1 (updateTask_unknown_assignee Sample.bob "ghost"
                   (Sample.assignPatch "ghost") (Sample.assignPatch "ghost")
                   Sample.world
                   (Sample.mkTask "t1" "Implement Search" Sample.alice
                      (Some Sample.bob) 10) _ _ _ _ _ _)).
  - unfold wellFormed. simpl. repeat constructor; simpl; intuition discriminate.
  - simpl. tauto.
  - reflexivity.
  - reflexivity.
  - reflexivity.
  - reflexivity.
Defined.

(** X9. A participant who assigns the task to an existing user gets the
    task back with that assignee and the user's id, name and email joined
    in, and the stored row carries the new assignee. *)
Theorem updateTask_reassign (actor a : string) (patch value : TaskUpdateData.t)
    (w : World) (t : Task.t) (u : User.t) :
  wellFormed w -> In t (tasks w) -> visibleTo actor t = true ->
  taskUpdateSchema patch = inr value ->
  TaskUpdateData.assigneeId patch = Value a ->
  findUser (users w) a = Some u ->
  exists r w',
    TaskService.updateTask (Task.id t) actor patch w = (Returned r, w')
    /\ Task.assigneeId (task r) = Some a
    /\ assignee r = Some (mkUserSummary (User.id u) (User.name u) (User.email u))
    /\ User.id u = a
    /\ find (hasId (Task.id t)) (tasks w') = Some (task r)
    /\ users w' = users w.
Proof.
  intros Hwf Hin Hvis Hv Ha Hu.
  destruct (taskUpdateSchema_assigneeId _ _ Hv) as [E _]. rewrite Ha in E.
  rewrite (updateTask_assignee_checked actor a patch value w t Hwf Hin Hvis Hv E), Hu.
  eexists. eexists. split; [reflexivity|].
  assert (A : Task.assigneeId
                (applyUpdate (now w) (TaskService.updateTask_payload value) t) = Some a).
  { unfold applyUpdate, TaskService.updateTask_payload.
    cbn [Task.assigneeId UpdateInput.assignee]. rewrite E. reflexivity. }
  cbn [task assignee withRelations tasks users].
  split; [exact A|]. rewrite A, Hu.
  split; [reflexivity|].
  split; [unfold findUser in Hu; apply find_some in Hu; destruct Hu as [_ Hu];
          apply String.eqb_eq; exact Hu|].
  split; [|reflexivity].
  apply find_replaced; [unfold hasId; apply String.eqb_refl|].
  exists t. split; [exact Hin|unfold hasId; apply String.eqb_refl].
Qed.

Lemma updateTask_reassign_witness :
  exists r w',
    TaskService.updateTask "t2" Sample.alice (Sample.assignPatch Sample.mallory)
      Sample.world = (Returned r, w')
    /\ Task.assigneeId (task r) = Some Sample.mallory.
Proof.
  destruct (updateTask_reassign Sample.alice Sample.mallory
              (Sample.assignPatch Sample.mallory) (Sample.assignPatch Sample.mallory)
              Sample.world
              (Sample.mkTask "t2" "Write report" Sample.alice None 30)
              (Sample.user Sample.mallory))
    as (r & w' & Hrun & Ha & _).
  - unfold wellFormed. simpl. repeat constructor; simpl; intuition discriminate.
  - simpl. tauto.
  - reflexivity.
  - reflexivity.
  - reflexivity.
  - reflexivity.
  - exists r, w'. split; assumption.
Defined.

(** ** Updating: what a call can and cannot change *)

(** A row the participant lookup finds has the id asked for, so the lookup
    by id alone finds a row too. *)
Lemma find_participant_hasId (taskId userId : string) (ts : list Task.t) (t0 : Task.t) :
  find (matches (Where.set_OR (TaskService.creatorOrAssignee userId)
                   (Where.set_id taskId Where.empty))) ts = Some t0 ->
  exists t1, find (hasId taskId) ts = Some t1.
Proof.
  intros H. apply find_some in H. destruct H as [Hin Hm].
  rewrite matches_participant in Hm. apply andb_true_iff in Hm. destruct Hm as [Hid _].
  destruct (find (hasId taskId) ts) as [t1|] eqn:Hf; [eauto|].
  rewrite (find_none _ _ Hf t0 Hin) in Hid. discriminate.
Qed.

(** The outcome of [updateTask] once the patch is valid and the participant
    lookup has found a row: the assignee check decides between the
    "Assigned user does not exist" error and the update of the row with
    this id. *)
Lemma updateTask_found (taskId userId : string) (patch value : TaskUpdateData.t)
    (w : World) (t0 t1 : Task.t) :
  taskUpdateSchema patch = inr value ->
  find (matches (Where.set_OR (TaskService.creatorOrAssignee userId)
                   (Where.set_id taskId Where.empty))) (tasks w) = Some t0 ->
  find (hasId taskId) (tasks w) = Some t1 ->
  (exists a, TaskUpdateData.assigneeId value = Value a /\ findUser (users w) a = None
             /\ fst (TaskService.updateTask taskId userId patch w)
                = Thrown (Error AssigneeMissing)
             /\ tasks (snd (TaskService.updateTask taskId userId patch w)) = tasks w
             /\ users (snd (TaskService.updateTask taskId userId patch w)) = users w)
  \/ (fst (TaskService.updateTask taskId userId patch w)
      = Returned (withRelations (users w)
                    (applyUpdate (now w) (TaskService.updateTask_payload value) t1))
      /\ tasks (snd (TaskService.updateTask taskId userId patch w))
         = map (fun r => if hasId taskId r
                         then applyUpdate (now w) (TaskService.updateTask_payload value) t1
                         else r) (tasks w)
      /\ users (snd (TaskService.updateTask taskId userId patch w)) = users w).
Proof.
  intros Hv Hf Hid.
  destruct (taskUpdateSchema_assigneeId _ _ Hv) as [_ Htruthy].
  unfold TaskService.updateTask. rewrite Hv.
  unfold tryCatch, prisma.task_findFirst, prisma.task_update, prisma.user_findUnique,
    bind, record, getWorld, setTasks, ret.
  cbn [tasks users now log]. rewrite Hf.
  assert (Hpay : forall a, UpdateInput.assignee (TaskService.updateTask_payload value)
                           = Some (connect a) ->
                           TaskUpdateData.assigneeId value = Value a).
  { unfold TaskService.updateTask_payload. cbn [UpdateInput.assignee].
    destruct (TaskUpdateData.assigneeId value); intros a E; inversion E; reflexivity. }
  destruct (TaskUpdateData.assigneeId value) as [| |a] eqn:Ha.
  - right. cbn [tasks users now log]. rewrite Hid.
    destruct (UpdateInput.assignee (TaskService.updateTask_payload value))
      as [[|a']|] eqn:Hp; [| discriminate (Hpay a' eq_refl) |];
      cbn [fst snd tasks users]; repeat split.
  - right. cbn [tasks users now log]. rewrite Hid.
    destruct (UpdateInput.assignee (TaskService.updateTask_payload value))
      as [[|a']|] eqn:Hp; [| discriminate (Hpay a' eq_refl) |];
      cbn [fst snd tasks users]; repeat split.
  - rewrite (Htruthy a eq_refl). cbn [tasks users now log].
    destruct (findUser (users w) a) as [u|] eqn:Hu.
    + right. cbn [tasks users now log]. rewrite Hid.
      destruct (UpdateInput.assignee (TaskService.updateTask_payload value))
        as [[|a']|] eqn:Hp.
      * cbn [fst snd tasks users]; repeat split.
      * pose proof (Hpay a' eq_refl) as E. inversion E; subst. rewrite Hu.
        cbn [fst snd tasks users]; repeat split.
      * cbn [fst snd tasks users]; repeat split.
    + left. exists a. split; [reflexivity|]. split; [exact Hu|]. repeat split.
Qed.

Lemma map_replace_preserves {B : Type} (f : Task.t -> B) (ts : list Task.t)
    (taskId : string) (t1 t' : Task.t) :
  f t' = f t1 ->
  (forall r, In r ts -> hasId taskId r = true -> r = t1) ->
  map f (map (fun r => if hasId taskId r then t' else r) ts) = map f ts.
Proof.
  intros Hf Huniq. induction ts as [|r ts IH]; simpl; [reflexivity|].
  rewrite IH by (intros x Hx; apply Huniq; right; exact Hx).
  destruct (hasId taskId r) eqn:Hr; [|reflexivity].
  rewrite (Huniq r (or_introl eq_refl) Hr), Hf. reflexivity.
Qed.

Lemma hasId_unique (ts : list Task.t) (taskId : string) (t1 : Task.t) :
  NoDup (map Task.id ts) -> find (hasId taskId) ts = Some t1 ->
  forall r, In r ts -> hasId taskId r = true -> r = t1.
Proof.
  intros Hnd Hf r Hr Hid. apply find_some in Hf. destruct Hf as [Hin1 Hid1].
  unfold hasId in *. apply String.eqb_eq in Hid, Hid1.
  apply (same_id_same_row ts r t1 Hnd Hr Hin1). congruence.
Qed.

(** X10. Whatever the arguments and whether it returns or throws,
    [updateTask] adds and removes no task, leaves the id, the creator and
    the creation time of every task as they were, leaves every task with
    another id untouched, changes no user, and keeps the ids unique. *)
Theorem updateTask_frame (taskId actor : string) (patch : TaskUpdateData.t) (w : World) :
  wellFormed w ->
  map Task.id (tasks (snd (TaskService.updateTask taskId actor patch w)))
  = map Task.id (tasks w)
  /\ map Task.creatorId (tasks (snd (TaskService.updateTask taskId actor patch w)))
     = map Task.creatorId (tasks w)
  /\ map Task.createdAt (tasks (snd (TaskService.updateTask taskId actor patch w)))
     = map Task.createdAt (tasks w)
  /\ (forall r, In r (tasks w) -> Task.id r <> taskId ->
                In r (tasks (snd (TaskService.updateTask taskId actor patch w))))
  /\ users (snd (TaskService.updateTask taskId actor patch w)) = users w
  /\ wellFormed (snd (TaskService.updateTask taskId actor patch w)).
Proof.
  intros Hwf.
  assert (Hsame : tasks (snd (TaskService.updateTask taskId actor patch w)) = tasks w ->
                  users (snd (TaskService.updateTask taskId actor patch w)) = users w ->
                  map Task.id (tasks (snd (TaskService.updateTask taskId actor patch w)))
                  = map Task.id (tasks w)
                  /\ map Task.creatorId
                       (tasks (snd (TaskService.updateTask taskId actor patch w)))
                     = map Task.creatorId (tasks w)
                  /\ map Task.createdAt
                       (tasks (snd (TaskService.updateTask taskId actor patch w)))
                     = map Task.createdAt (tasks w)
                  /\ (forall r, In r (tasks w) -> Task.id r <> taskId ->
                        In r (tasks (snd (TaskService.updateTask taskId actor patch w))))
                  /\ users (snd (TaskService.updateTask taskId actor patch w)) = users w
                  /\ wellFormed (snd (TaskService.updateTask taskId actor patch w))).
  { intros Ht Hu. unfold wellFormed. rewrite Ht, Hu. repeat split; auto. }
  destruct (taskUpdateSchema patch) as [msg|value] eqn:Hv.
  - apply Hsame; rewrite (updateTask_invalid _ _ _ _ _ Hv); reflexivity.
  - destruct (find (matches (Where.set_OR (TaskService.creatorOrAssignee actor)
                               (Where.set_id taskId Where.empty))) (tasks w))
      as [t0|] eqn:Hf.
    + destruct (find_participant_hasId _ _ _ _ Hf) as [t1 Hid].
      destruct (updateTask_found taskId actor patch value w t0 t1 Hv Hf Hid)
        as [(a & _ & _ & _ & Ht & Hu)|(_ & Ht & Hu)]; [apply Hsame; assumption|].
      pose proof (hasId_unique (tasks w) taskId t1 Hwf Hid) as Huniq.
      assert (Hids : map Task.id (tasks (snd (TaskService.updateTask taskId actor patch w)))
                     = map Task.id (tasks w)).
      { rewrite Ht.
        apply (map_replace_preserves Task.id _ _ t1); [reflexivity|exact Huniq]. }
      unfold wellFormed. rewrite Hids, Hu.
      split; [reflexivity|].
      split; [rewrite Ht; apply (map_replace_preserves Task.creatorId _ _ t1);
              [reflexivity|exact Huniq]|].
      split; [rewrite Ht; apply (map_replace_preserves Task.createdAt _ _ t1);
              [reflexivity|exact Huniq]|].
      split; [|split; [reflexivity|exact Hwf]].
      intros r Hr Hne. rewrite Ht. apply in_map_iff. exists r. split; [|exact Hr].
      unfold hasId. destruct (String.eqb_spec (Task.id r) taskId); [contradiction|].
      reflexivity.
    + apply Hsame; rewrite (updateTask_denied _ _ _ _ _ Hv Hf); reflexivity.
Qed.

Lemma updateTask_frame_witness :
  map Task.creatorId
    (tasks (snd (TaskService.updateTask "t1" Sample.bob (Sample.titlePatch "Renamed")
                   Sample.world)))
  = [Sample.alice; Sample.alice; Sample.mallory].
Proof.
  refine (proj1 (proj2 (updateTask_frame "t1" Sample.bob (Sample.titlePatch "Renamed")
                          Sample.world _))).
  unfold wellFormed. simpl. repeat constructor; simpl; intuition discriminate.
Defined.

(** ** Changing the status: the authorized path *)

(** X12. The creator and the assignee alike can set any status, whatever
    the current one: the call returns the task with the new status, stamps
    [updatedAt], leaves every other field of the row and every other row
    as they were, and stores the result. *)
Theorem updateTaskStatus_by_participant (actor : string) (status : TaskStatus)
    (w : World) (t : Task.t) :
  wellFormed w -> In t (tasks w) -> visibleTo actor t = true ->
  exists r w',
    TaskService.updateTaskStatus (Task.id t) actor status w = (Returned r, w')
    /\ task r = Task.mk (Task.id t) (Task.title t) (Task.description t) status
                  (Task.priority t) (Task.dueDate t) (Task.createdAt t) (now w)
                  (Task.creatorId t) (Task.assigneeId t)
    /\ find (hasId (Task.id t)) (tasks w') = Some (task r)
    /\ (forall x, In x (tasks w) -> Task.id x <> Task.id t -> In x (tasks w'))
    /\ List.length (tasks w') = List.length (tasks w)
    /\ users w' = users w.
Proof.
  intros Hwf Hin Hvis.
  unfold TaskService.updateTaskStatus, tryCatch, prisma.task_findFirst,
    prisma.task_update, bind, record, getWorld, setTasks, ret.
  cbn [tasks users now log].
  rewrite (find_participant_some actor (tasks w) t Hwf Hin Hvis).
  cbn [tasks users now log UpdateInput.assignee].
  rewrite (find_hasId (tasks w) t Hwf Hin).
  cbn [tasks users now log].
  eexists. eexists. split; [reflexivity|].
  cbn [task withRelations tasks users].
  split; [reflexivity|].
  split; [apply find_replaced;
          [unfold hasId; apply String.eqb_refl
          |exists t; split; [exact Hin|unfold hasId; apply String.eqb_refl]]|].
  split; [|split; [apply length_map|reflexivity]].
  intros x Hx Hne. apply in_map_iff. exists x. split; [|exact Hx].
  unfold hasId. destruct (String.eqb_spec (Task.id x) (Task.id t)); [contradiction|].
  reflexivity.
Qed.

Lemma updateTaskStatus_by_participant_witness :
  exists r w',
    TaskService.updateTaskStatus "t1" Sample.bob COMPLETED Sample.world = (Returned r, w')
    /\ Task.status (task r) = COMPLETED
    /\ Task.assigneeId (task r) = Some Sample.bob.
Proof.
  destruct (updateTaskStatus_by_participant Sample.bob COMPLETED Sample.world
              (Sample.mkTask "t1" "Implement Search" Sample.alice (Some Sample.bob) 10))
    as (r & w' & Hrun & Hrow & _).
  - unfold wellFormed. simpl. repeat constructor; simpl; intuition discriminate.
  - simpl. tauto.
  - reflexivity.
  - exists r, w'. split; [exact Hrun|]. rewrite Hrow. split; reflexivity.
Defined.

(** ** Deleting: everyone but the creator *)

(** X13. [deleteTask] by anyone who created no task with this id, be it
    the assignee, a stranger, or anyone when the id is unknown, fails with
    the merged error, which the controller answers with 404, and the store
    keeps all its tasks and users. *)
Theorem deleteTask_denied_unless_creator (taskId actor : string) (w : World) :
  (forall t, In t (tasks w) -> Task.id t = taskId -> Task.creatorId t <> actor) ->
  fst (TaskService.deleteTask taskId actor w) = Thrown (Error NotFoundOrDenied)
  /\ tasks (snd (TaskService.deleteTask taskId actor w)) = tasks w
  /\ users (snd (TaskService.deleteTask taskId actor w)) = users w
  /\ fst (TaskController.deleteTask (Some actor) taskId w)
     = Returned (mkResponse 404 (Failure "NOT_FOUND" NotFoundOrDenied)).
Proof.
  intros Hnot.
  assert (Hf : find (matches (Where.set_creatorId actor (Where.set_id taskId Where.empty)))
                 (tasks w) = None).
  { apply find_none_iff. intros t Ht. rewrite matches_creator. unfold hasId.
    destruct (String.eqb_spec (Task.id t) taskId) as [E|E]; [|reflexivity].
    destruct (String.eqb_spec (Task.creatorId t) actor) as [C|C]; [|reflexivity].
    exfalso. exact (Hnot t Ht E C). }
  unfold TaskController.deleteTask, tryCatch, bind.
  rewrite (deleteTask_denied taskId actor w Hf). cbn [fst snd tasks users].
  repeat split.
Qed.

Lemma deleteTask_denied_unless_creator_witness :
  fst (TaskService.deleteTask "t1" Sample.mallory Sample.world)
  = Thrown (Error NotFoundOrDenied)
  /\ fst (TaskService.deleteTask "nope" Sample.alice Sample.world)
     = Thrown (Error NotFoundOrDenied).
Proof.
  split.
  - refine (proj1 (deleteTask_denied_unless_creator "t1" Sample.mallory Sample.world _)).
    simpl. intros t [<-|[<-|[<-|[]]]]; intros E; discriminate.
  - refine (proj1 (deleteTask_denied_unless_creator "nope" Sample.alice Sample.world _)).
    simpl. intros t [<-|[<-|[<-|[]]]]; intros E; discriminate.
Defined.

(** ** Searching: what comes back *)

(** X14. For a query that is not blank and has none of the pattern
    characters [%], [_] and backslash, the dedicated search returns only
    stored tasks that the user created or is assigned to and whose title or
    description contains the query as written, letter case aside; when at
    most 50 tasks qualify, it returns every one of them. *)
Theorem searchTasks_exact (actor q : string) (w : World) :
  Js.allWhiteSpace q = false ->
  Db.plain q = true ->
  exists r w',
    TaskService.searchTasks actor q w = (Returned r, w')
    /\ Forall (fun t => In (task t) (tasks w)
                        /\ visibleTo actor (task t) = true
                        /\ (containsLiterally q (Task.title (task t)) = true
                            \/ exists d, Task.description (task t) = Some d
                                         /\ containsLiterally q d = true)) r
    /\ ((List.length (filter (fun t => (visibleTo actor t && mentions q t)%bool)
                        (tasks w)) <= 50)%nat ->
        forall t, In t (tasks w) -> visibleTo actor t = true ->
                  (containsLiterally q (Task.title t) = true
                   \/ exists d, Task.description t = Some d
                                /\ containsLiterally q d = true) ->
                  In (withRelations (users w) t) r)
    /\ tasks w' = tasks w.
Proof.
  intros Hq Hplain. rewrite (searchTasks_run actor q w Hq).
  eexists. eexists. split; [reflexivity|]. cbn [tasks].
  assert (Hlit : forall t, mentions q t = true <->
                           (containsLiterally q (Task.title t) = true
                            \/ exists d, Task.description t = Some d
                                         /\ containsLiterally q d = true)).
  { intros t. rewrite (mentions_plain q t Hplain), orb_true_iff.
    destruct (Task.description t) as [d|].
    - split; intros [H|H]; auto.
      + right. exists d. split; [reflexivity|exact H].
      + destruct H as [d' [E H]]. inversion E; subst. right. exact H.
    - split; intros [H|H]; auto; [discriminate|].
      destruct H as [d' [E _]]. discriminate. }
  unfold searchResult. split; [|split; [|reflexivity]].
  - apply Forall_forall. intros x Hx.
    apply in_map_iff in Hx. destruct Hx as [row [<- Hrow]]. cbn [task withRelations].
    apply firstn_incl, sortRows_In, filter_In in Hrow. destruct Hrow as [Hin Hm].
    apply andb_true_iff in Hm. destruct Hm as [Hvis Hm].
    split; [exact Hin|]. split; [exact Hvis|]. apply Hlit. exact Hm.
  - intros Hfit t Hin Hvis Hm. apply in_map.
    rewrite firstn_all2 by (rewrite sortRows_length; exact Hfit).
    apply sortRows_In, filter_In. split; [exact Hin|].
    apply Hlit in Hm. rewrite Hvis, Hm. reflexivity.
Qed.

Lemma searchTasks_exact_witness :
  exists r w',
    TaskService.searchTasks Sample.alice "search" Sample.world = (Returned r, w')
    /\ map (fun t => Task.id (task t)) r = ["t1"].
Proof.
  destruct (searchTasks_exact Sample.alice "search" Sample.world eq_refl eq_refl)
    as (r & w' & Hrun & _).
  exists r, w'. split; [exact Hrun|].
  vm_compute in Hrun. inversion Hrun. reflexivity.
Defined.

Lemma lowerChar_idempotent (c : ascii) : Js.lowerChar (Js.lowerChar c) = Js.lowerChar c.
Proof.
  destruct c as [[] [] [] [] [] [] [] []]; reflexivity.
Qed.

Lemma toLowerCase_idempotent (s : string) :
  Js.toLowerCase (Js.toLowerCase s) = Js.toLowerCase s.
Proof.
  induction s as [|c s IH]; simpl; [reflexivity|].
  rewrite lowerChar_idempotent, IH. reflexivity.
Qed.

(** The database's folding takes in the folding of A-Z. *)
Lemma db_lower_toLowerCase (s : string) : Db.lower (Js.toLowerCase s) = Db.lower s.
Proof.
  induction s as [|c s IH]; simpl; [reflexivity|]. rewrite IH. f_equal.
  destruct c as [[] [] [] [] [] [] [] []]; reflexivity.
Qed.

(** The folded pattern depends on the query through its folding only. *)
Lemma db_lower_pattern (q : string) :
  Db.lower (Db.pattern q)
  = String Db.percent (Db.lower q ++ String Db.percent EmptyString).
Proof.
  unfold Db.pattern. cbn [Db.lower]. rewrite lower_append. reflexivity.
Qed.

Lemma mentions_folded (a b : string) (t : Task.t) :
  Js.toLowerCase a = Js.toLowerCase b -> mentions a t = mentions b t.
Proof.
  intros E. unfold mentions, Db.ilikeContains. rewrite !db_lower_pattern.
  rewrite <- (db_lower_toLowerCase a), <- (db_lower_toLowerCase b), E. reflexivity.
Qed.

(** X15. The search does not look at letter case: two queries that are
    equal once lower-cased, and that the service does not treat as blank,
    return the same tasks in the same order. *)
Theorem searchTasks_case_insensitive (actor q q' : string) (w : World) :
  Js.toLowerCase q = Js.toLowerCase q' ->
  Js.allWhiteSpace q = false -> Js.allWhiteSpace q' = false ->
  fst (TaskService.searchTasks actor q w) = fst (TaskService.searchTasks actor q' w)
  /\ fst (TaskService.searchTasks actor (Js.toLowerCase q) w)
     = fst (TaskService.searchTasks actor q w).
Proof.
  intros Hlow Hq Hq'.
  assert (Hsame : forall a b, Js.toLowerCase a = Js.toLowerCase b ->
                              searchResult actor a w = searchResult actor b w).
  { intros a b E. unfold searchResult. f_equal. f_equal. f_equal.
    apply filter_ext_eq. intros t. rewrite (mentions_folded a b t E). reflexivity. }
  assert (Hws : forall s, Js.allWhiteSpace (Js.toLowerCase s) = Js.allWhiteSpace s).
  { induction s as [|c s IH]; simpl; [reflexivity|]. rewrite IH. f_equal.
    destruct c as [[] [] [] [] [] [] [] []]; reflexivity. }
  rewrite (searchTasks_run actor q w Hq), (searchTasks_run actor q' w Hq').
  rewrite (searchTasks_run actor (Js.toLowerCase q) w) by (rewrite Hws; exact Hq).
  cbn [fst]. split; f_equal; apply Hsame;
    [exact Hlow|apply toLowerCase_idempotent].
Qed.

Lemma searchTasks_case_insensitive_witness :
  fst (TaskService.searchTasks Sample.alice "SEARCH" Sample.world)
  = fst (TaskService.searchTasks Sample.alice "search" Sample.world).
Proof.
  refine (proj1 (searchTasks_case_insensitive Sample.alice "SEARCH" "search"
                   Sample.world _ _ _)); reflexivity.
Defined.

(** X16. For a query of at least two characters once trimmed, the search
    endpoint answers 200 with the tasks the service finds for the trimmed
    query, echoes the trimmed query, and reports a count that is the number
    of tasks sent, never more than 50. *)
Theorem controller_searchTasks_ok (actor s : string) (w : World) :
  2 <= Js.length (Js.trim s) ->
  exists found w',
    TaskController.searchTasks (Some actor) (QString s) w
    = (Returned (mkResponse 200
                   (Success (SearchPayload found (Js.trim s)
                               (Z.of_nat (List.length found))))), w')
    /\ fst (TaskService.searchTasks actor (Js.trim s) w) = Returned found
    /\ Z.of_nat (List.length found) <= 50.
Proof.
  intros Hlen.
  assert (Htrim : Js.truthy (Js.trim s) = true).
  { destruct (Js.trim s) eqn:E; [vm_compute in Hlen; contradiction|reflexivity]. }
  assert (Hs : Js.truthy s = true).
  { destruct s; [discriminate Htrim|reflexivity]. }
  assert (Hq : Js.allWhiteSpace (Js.trim s) = false).
  { rewrite <- (negb_involutive (Js.allWhiteSpace (Js.trim s))).
    rewrite <- truthy_trim, trim_idempotent, Htrim. reflexivity. }
  unfold TaskController.searchTasks. rewrite Hs. cbn [negb].
  destruct (Z.ltb_spec (Js.length (Js.trim s)) 2) as [Hlt|_]; [lia|].
  unfold tryCatch, bind, ret.
  rewrite (searchTasks_run actor (Js.trim s) w Hq).
  eexists. eexists. split; [reflexivity|]. split; [reflexivity|].
  pose proof (proj1 (searchResult_capped_sorted actor (Js.trim s) w)). lia.
Qed.

Lemma controller_searchTasks_ok_witness :
  exists found w',
    TaskController.searchTasks (Some Sample.alice) (QString " search ") Sample.world
    = (Returned (mkResponse 200 (Success (SearchPayload found "search" 1))), w').
Proof.
  destruct (controller_searchTasks_ok Sample.alice " search " Sample.world)
    as (found & w' & Hrun & Hfound & _).
  - vm_compute. discriminate.
  - exists found, w'. rewrite Hrun.
    vm_compute in Hfound. inversion Hfound. reflexivity.
Defined.

(** ** Creating: [createTask] *)

(** Data the creation schema refuses is reported before the store is
    read. *)
Lemma createTask_invalid (newId creatorId : string) (taskData : TaskCreationData.t)
    (msg : string) (w : World) :
  taskCreationSchema (now w) taskData = inl msg ->
  TaskService.createTask newId creatorId taskData w
  = (Thrown (Error ("Validation error: " ++ msg)), w).
Proof.
  intros H. unfold TaskService.createTask, bind, getWorld. rewrite H. reflexivity.
Qed.

(** The creation schema passes the assignee through and refuses the empty
    string. *)
Lemma taskCreationSchema_value (time : Z) (taskData : TaskCreationData.t)
    (value : TaskCreationValue.t) :
  taskCreationSchema time taskData = inr value ->
  TaskCreationValue.assigneeId value = TaskCreationData.assigneeId taskData
  /\ (forall a, TaskCreationValue.assigneeId value = Some a -> Js.truthy a = true)
  /\ TaskCreationValue.status value
     = match TaskCreationData.status taskData with Some s => s | None => PENDING end
  /\ TaskCreationValue.priority value
     = match TaskCreationData.priority taskData with Some p => p | None => MEDIUM end
  /\ (exists s, TaskCreationData.title taskData = Some s
                /\ TaskCreationValue.title value = Js.trim s
                /\ 1 <= Js.length (Js.trim s) <= 255)
  /\ TaskCreationValue.dueDate value = TaskCreationData.dueDate taskData
  /\ (forall d, TaskCreationData.dueDate taskData = Some d -> time <= d).
Proof.
  unfold taskCreationSchema. intros H. joi_invert H.
  inversion H; subst; clear H.
  cbn [TaskCreationValue.assigneeId TaskCreationValue.status TaskCreationValue.priority
       TaskCreationValue.title TaskCreationValue.dueDate].
  assert (Hassignee : a2 = TaskCreationData.assigneeId taskData
                      /\ (forall x, a2 = Some x -> Js.truthy x = true)).
  { destruct (TaskCreationData.assigneeId taskData) as [s|].
    - unfold Joi.nonEmpty in *. destruct (Js.truthy s) eqn:Hs; [|discriminate].
      simpl in *. split; [congruence|]. intros x Ex. congruence.
    - split; [congruence|]. intros x Ex. congruence. }
  destruct Hassignee as [Ha1 Ha2].
  split; [exact Ha1|]. split; [exact Ha2|].
  split; [reflexivity|]. split; [reflexivity|].
  split; [|split].
  - destruct (TaskCreationData.title taskData) as [s|]; [|discriminate].
    exists s. split; [reflexivity|].
    destruct (Js.truthy (Js.trim s)) eqn:Ht; cbn [negb] in *; [|discriminate].
    destruct (Z.ltb_spec (Js.length (Js.trim s)) 1); [discriminate|].
    destruct (Z.ltb_spec 255 (Js.length (Js.trim s))); [discriminate|].
    split; [congruence|lia].
  - destruct (TaskCreationData.dueDate taskData) as [d|]; [|congruence].
    destruct (d <? time); [discriminate|congruence].
  - intros d Ed. rewrite Ed in *.
    destruct (Z.ltb_spec d time); [discriminate|lia].
Qed.

(** With valid data, the assignee (if any) is looked up first; the row is
    created when the assignee exists, the id is free and the creator
    exists. *)
Lemma createTask_run (newId creatorId : string) (taskData : TaskCreationData.t)
    (value : TaskCreationValue.t) (w : World) :
  taskCreationSchema (now w) taskData = inr value ->
  TaskService.createTask newId creatorId taskData w
  = match TaskCreationValue.assigneeId value with
    | Some a =>
        match findUser (users w) a with
        | None =>
            (Thrown (Error AssigneeMissing),
             mkWorld (tasks w) (users w) (now w) (log w ++ [Call.user_findUnique a]))
        | Some _ =>
            match find (hasId newId) (tasks w) with
            | Some _ =>
                (Thrown (Error "A record with this id already exists"),
                 mkWorld (tasks w) (users w) (now w) (log w ++ [Call.user_findUnique a]))
            | None =>
                match findUser (users w) creatorId with
                | Some _ =>
                    (Returned (withRelations (users w)
                                 (createdRow newId creatorId (now w) value)),
                     mkWorld (tasks w ++ [createdRow newId creatorId (now w) value])
                       (users w) (now w) (log w ++ [Call.user_findUnique a]))
                | None =>
                    (Thrown (Error "Referenced record does not exist"),
                     mkWorld (tasks w) (users w) (now w)
                       (log w ++ [Call.user_findUnique a]))
                end
            end
        end
    | None =>
        match find (hasId newId) (tasks w) with
        | Some _ => (Thrown (Error "A record with this id already exists"), w)
        | None =>
            match findUser (users w) creatorId with
            | Some _ =>
                (Returned (withRelations (users w)
                             (createdRow newId creatorId (now w) value)),
                 mkWorld (tasks w ++ [createdRow newId creatorId (now w) value])
                   (users w) (now w) (log w))
            | None => (Thrown (Error "Referenced record does not exist"), w)
            end
        end
    end.
Proof.
  intros Hv.
  destruct (taskCreationSchema_value _ _ _ Hv) as (_ & Htruthy & _).
  unfold TaskService.createTask.
  unfold bind at 1. unfold getWorld at 1. rewrite Hv.
  unfold tryCatch, prisma.task_create, prisma.user_findUnique, bind, record,
    getWorld, setTasks, ret, createdRow.
  destruct (TaskCreationValue.assigneeId value) as [a|] eqn:Ha.
  - rewrite (Htruthy a eq_refl). cbn [tasks users now log].
    destruct (findUser (users w) a) as [u|] eqn:Hu; [|reflexivity].
    cbn [tasks users now log CreateInput.creatorId CreateInput.assigneeId].
    destruct (find (hasId newId) (tasks w)); [reflexivity|].
    rewrite Hu.
    destruct (findUser (users w) creatorId); reflexivity.
  - cbn [tasks users now log CreateInput.creatorId CreateInput.assigneeId].
    destruct (find (hasId newId) (tasks w)); [destruct w; reflexivity|].
    destruct (findUser (users w) creatorId); [reflexivity|destruct w; reflexivity].
Qed.

Lemma find_hasId_fresh (newId : string) (ts : list Task.t) :
  (forall t, In t ts -> Task.id t <> newId) -> find (hasId newId) ts = None.
Proof.
  intros H. apply find_none_iff. intros t Ht. unfold hasId.
  destruct (String.eqb_spec (Task.id t) newId); [exfalso; eapply H; eauto|reflexivity].
Qed.

(** X17. With valid data, a free id, an existing creator and no assignee
    or an existing one, [createTask] stores exactly one new row and returns
    it: the creator is the caller, title is the trimmed title, status and
    priority default to PENDING and MEDIUM, both timestamps are the current
    time; the other rows and the users are untouched and the ids stay
    unique. Without an assignee no user is looked up. *)
Theorem createTask_creates (newId creatorId : string) (taskData : TaskCreationData.t)
    (value : TaskCreationValue.t) (w : World) (creator : User.t) :
  taskCreationSchema (now w) taskData = inr value ->
  (forall t, In t (tasks w) -> Task.id t <> newId) ->
  findUser (users w) creatorId = Some creator ->
  (forall a, TaskCreationData.assigneeId taskData = Some a ->
             exists u, findUser (users w) a = Some u) ->
  exists r w',
    TaskService.createTask newId creatorId taskData w = (Returned r, w')
    /\ tasks w' = (tasks w ++ [task r])%list
    /\ users w' = users w
    /\ Task.id (task r) = newId
    /\ Task.creatorId (task r) = creatorId
    /\ Task.assigneeId (task r) = TaskCreationData.assigneeId taskData
    /\ Task.status (task r)
       = match TaskCreationData.status taskData with Some s => s | None => PENDING end
    /\ Task.priority (task r)
       = match TaskCreationData.priority taskData with Some p => p | None => MEDIUM end
    /\ (forall s, TaskCreationData.title taskData = Some s ->
                  Task.title (task r) = Js.trim s)
    /\ Task.createdAt (task r) = now w /\ Task.updatedAt (task r) = now w
    /\ (wellFormed w -> wellFormed w')
    /\ (TaskCreationData.assigneeId taskData = None -> log w' = log w).
Proof.
  intros Hv Hfresh Hcreator Hassignee.
  destruct (taskCreationSchema_value _ _ _ Hv)
    as (Ha & _ & Hst & Hpr & (s & Hs & Htitle & _) & _).
  rewrite (createTask_run newId creatorId taskData value w Hv).
  rewrite (find_hasId_fresh newId (tasks w) Hfresh), Hcreator.
  assert (Hwf : wellFormed w ->
                NoDup (map Task.id
                         (tasks w ++ [createdRow newId creatorId (now w) value])%list)).
  { unfold wellFormed. intros Hnd. rewrite map_app. cbn [map createdRow Task.id].
    apply NoDup_app; [exact Hnd|repeat constructor; simpl; tauto|].
    intros x Hx [<-|[]]. apply in_map_iff in Hx. destruct Hx as [t [E Ht]].
    exact (Hfresh t Ht E). }
  destruct (TaskCreationValue.assigneeId value) as [a|] eqn:Hval.
  - destruct (Hassignee a (eq_trans (eq_sym Ha) eq_refl)) as [u Hu]. rewrite Hu.
    eexists. eexists. split; [reflexivity|].
    cbn [task withRelations tasks users log createdRow Task.id Task.creatorId
         Task.assigneeId Task.status Task.priority Task.title Task.createdAt
         Task.updatedAt].
    rewrite Hval, Hst, Hpr, Htitle, <- Ha.
    repeat split; try reflexivity.
    + intros s' Es'. congruence.
    + exact Hwf.
    + discriminate.
  - eexists. eexists. split; [reflexivity|].
    cbn [task withRelations tasks users log createdRow Task.id Task.creatorId
         Task.assigneeId Task.status Task.priority Task.title Task.createdAt
         Task.updatedAt].
    rewrite Hval, Hst, Hpr, Htitle, <- Ha.
    repeat split; try reflexivity.
    + intros s' Es'. congruence.
    + exact Hwf.
Qed.

Lemma createTask_creates_witness :
  exists r w',
    TaskService.createTask "t4" Sample.alice
      (Sample.newTask "  Plan sprint " (Some Sample.bob)) Sample.world
    = (Returned r, w')
    /\ Task.title (task r) = "Plan sprint"
    /\ Task.status (task r) = PENDING
    /\ map Task.id (tasks w') = ["t1"; "t2"; "t3"; "t4"].
Proof.
  destruct (createTask_creates "t4" Sample.alice
              (Sample.newTask "  Plan sprint " (Some Sample.bob))
              (TaskCreationValue.mk "Plan sprint" None PENDING MEDIUM None
                 (Some Sample.bob))
              Sample.world (Sample.user Sample.alice))
    as (r & w' & Hrun & _).
  - reflexivity.
  - simpl. intros t [<-|[<-|[<-|[]]]]; discriminate.
  - reflexivity.
  - intros a Ea. inversion Ea; subst. exists (Sample.user Sample.bob). reflexivity.
  - exists r, w'. split; [exact Hrun|].
    vm_compute in Hrun. inversion Hrun. repeat split.
Defined.

Lemma find_app {A : Type} (p : A -> bool) (l1 l2 : list A) :
  find p (l1 ++ l2) = match find p l1 with
                      | Some x => Some x
                      | None => find p l2
                      end.
Proof.
  induction l1 as [|x l1 IH]; simpl; [reflexivity|].
  destruct (p x); [reflexivity|exact IH].
Qed.

(** X18. Create, then read back: the task [createTask] returns is what
    [getTaskById] returns afterwards to its creator and to its assignee,
    relations included, and any other user gets null. *)
Theorem createTask_then_getTaskById (newId creatorId : string)
    (taskData : TaskCreationData.t) (value : TaskCreationValue.t) (w : World)
    (creator : User.t) :
  taskCreationSchema (now w) taskData = inr value ->
  (forall t, In t (tasks w) -> Task.id t <> newId) ->
  findUser (users w) creatorId = Some creator ->
  (forall a, TaskCreationData.assigneeId taskData = Some a ->
             exists u, findUser (users w) a = Some u) ->
  exists r w',
    TaskService.createTask newId creatorId taskData w = (Returned r, w')
    /\ fst (TaskService.getTaskById newId creatorId w') = Returned (Some r)
    /\ (forall a, TaskCreationData.assigneeId taskData = Some a ->
                  fst (TaskService.getTaskById newId a w') = Returned (Some r))
    /\ (forall u, u <> creatorId -> TaskCreationData.assigneeId taskData <> Some u ->
                  fst (TaskService.getTaskById newId u w') = Returned None).
Proof.
  intros Hv Hfresh Hcreator Hassignee.
  destruct (taskCreationSchema_value _ _ _ Hv) as (Ha & _).
  rewrite (createTask_run newId creatorId taskData value w Hv).
  rewrite (find_hasId_fresh newId (tasks w) Hfresh), Hcreator.
  assert (Hread : forall u lg,
             fst (TaskService.getTaskById newId u
                    (mkWorld (tasks w ++ [createdRow newId creatorId (now w) value])
                       (users w) (now w) lg))
             = Returned (if visibleTo u (createdRow newId creatorId (now w) value)
                         then Some (withRelations (users w)
                                      (createdRow newId creatorId (now w) value))
                         else None)).
  { intros u lg. rewrite getTaskById_run. cbn [fst tasks users].
    rewrite find_app.
    rewrite find_participant_none
      by (intros t Ht E; exfalso; exact (Hfresh t Ht E)).
    cbn [find]. rewrite matches_participant.
    unfold hasId at 1. cbn [createdRow Task.id]. rewrite String.eqb_refl.
    cbn [andb]. fold (createdRow newId creatorId (now w) value).
    destruct (visibleTo u (createdRow newId creatorId (now w) value)); reflexivity. }
  assert (Hvis : forall u, visibleTo u (createdRow newId creatorId (now w) value)
                           = (String.eqb creatorId u
                              || match TaskCreationData.assigneeId taskData with
                                 | Some a => String.eqb a u
                                 | None => false
                                 end)%bool).
  { intros u. unfold visibleTo, createdRow. cbn [Task.creatorId Task.assigneeId].
    rewrite Ha. reflexivity. }
  assert (Hgoal : forall lg,
             exists r w',
               (Returned (withRelations (users w)
                            (createdRow newId creatorId (now w) value)),
                mkWorld (tasks w ++ [createdRow newId creatorId (now w) value])
                  (users w) (now w) lg) = (Returned r, w')
               /\ fst (TaskService.getTaskById newId creatorId w') = Returned (Some r)
               /\ (forall a, TaskCreationData.assigneeId taskData = Some a ->
                     fst (TaskService.getTaskById newId a w') = Returned (Some r))
               /\ (forall u, u <> creatorId ->
                     TaskCreationData.assigneeId taskData <> Some u ->
                     fst (TaskService.getTaskById newId u w') = Returned None)).
  { intros lg. eexists. eexists. split; [reflexivity|]. split; [|split].
    - rewrite Hread, Hvis, String.eqb_refl. reflexivity.
    - intros a Ea. rewrite Hread, Hvis, Ea, String.eqb_refl, orb_true_r. reflexivity.
    - intros u Hne Hna. rewrite Hread, Hvis.
      destruct (String.eqb_spec creatorId u) as [E|_]; [congruence|].
      destruct (TaskCreationData.assigneeId taskData) as [a|]; [|reflexivity].
      destruct (String.eqb_spec a u) as [E|_]; [congruence|reflexivity]. }
  destruct (TaskCreationValue.assigneeId value) as [a|] eqn:Hval.
  - destruct (Hassignee a (eq_trans (eq_sym Ha) eq_refl)) as [u Hu]. rewrite Hu.
    apply Hgoal.
  - apply Hgoal.
Qed.

Lemma createTask_then_getTaskById_witness :
  exists r w',
    TaskService.createTask "t4" Sample.alice
      (Sample.newTask "Plan sprint" (Some Sample.bob)) Sample.world
    = (Returned r, w')
    /\ fst (TaskService.getTaskById "t4" Sample.bob w') = Returned (Some r)
    /\ fst (TaskService.getTaskById "t4" Sample.mallory w') = Returned None.
Proof.
  destruct (createTask_then_getTaskById "t4" Sample.alice
              (Sample.newTask "Plan sprint" (Some Sample.bob))
              (TaskCreationValue.mk "Plan sprint" None PENDING MEDIUM None
                 (Some Sample.bob))
              Sample.world (Sample.user Sample.alice))
    as (r & w' & Hrun & _ & Hassignee & Hother).
  - reflexivity.
  - simpl. intros t [<-|[<-|[<-|[]]]]; discriminate.
  - reflexivity.
  - intros a Ea. inversion Ea; subst. exists (Sample.user Sample.bob). reflexivity.
  - exists r, w'. split; [exact Hrun|]. split.
    + apply Hassignee. reflexivity.
    + apply Hother; discriminate.
Defined.

(** X19. Creating a task for an assignee id that no user has fails with
    "Assigned user does not exist", which the controller answers with 400,
    and stores nothing. *)
Theorem createTask_unknown_assignee (newId creatorId a : string)
    (taskData : TaskCreationData.t) (value : TaskCreationValue.t) (w : World) :
  taskCreationSchema (now w) taskData = inr value ->
  TaskCreationData.assigneeId taskData = Some a ->
  findUser (users w) a = None ->
  fst (TaskService.createTask newId creatorId taskData w) = Thrown (Error AssigneeMissing)
  /\ tasks (snd (TaskService.createTask newId creatorId taskData w)) = tasks w
  /\ fst (TaskController.createTask newId (Some creatorId) taskData w)
     = Returned (mkResponse 400 (Failure "VALIDATION_ERROR" AssigneeMissing)).
Proof.
  intros Hv Ha Hu.
  destruct (taskCreationSchema_value _ _ _ Hv) as (E & _). rewrite Ha in E.
  pose proof (createTask_run newId creatorId taskData value w Hv) as R.
  rewrite E, Hu in R.
  unfold TaskController.createTask, tryCatch, bind. rewrite R.
  cbn [fst snd tasks]. repeat split.
Qed.

Lemma createTask_unknown_assignee_witness :
  fst (TaskService.createTask "t4" Sample.alice (Sample.newTask "Plan" (Some "ghost"))
         Sample.world)
  = Thrown (Error AssigneeMissing).
Proof.
  refine (proj1 (createTask_unknown_assignee "t4" Sample.alice "ghost"
                   (Sample.newTask "Plan" (Some "ghost"))
                   (TaskCreationValue.mk "Plan" None PENDING MEDIUM None (Some "ghost"))
                   Sample.world _ _ _)); reflexivity.
Defined.

(** X20. Data without a title, with a title that is blank once trimmed, or
    with a due date before the current time is refused with a validation
    error before anything is read or stored; the controller answers 400. *)
Theorem createTask_rejects (newId creatorId : string) (taskData : TaskCreationData.t)
    (w : World) :
  TaskCreationData.title taskData = None
  \/ (exists s, TaskCreationData.title taskData = Some s /\ Js.allWhiteSpace s = true)
  \/ (exists d, TaskCreationData.dueDate taskData = Some d /\ d < now w) ->
  exists msg,
    TaskService.createTask newId creatorId taskData w
    = (Thrown (Error ("Validation error: " ++ msg)), w)
    /\ TaskController.createTask newId (Some creatorId) taskData w
       = (Returned (mkResponse 400
                      (Failure "VALIDATION_ERROR" ("Validation error: " ++ msg))), w).
Proof.
  intros Hbad.
  destruct (taskCreationSchema (now w) taskData) as [msg|value] eqn:Hv.
  - exists msg. pose proof (createTask_invalid newId creatorId taskData msg w Hv) as R.
    split; [exact R|].
    unfold TaskController.createTask, tryCatch, bind. rewrite R. reflexivity.
  - exfalso.
    destruct (taskCreationSchema_value _ _ _ Hv)
      as (_ & _ & _ & _ & (s & Hs & _ & Hlen) & _ & Hdue).
    destruct Hbad as [Hnone|[[s' [Hs' Hws]]|[d [Hd Hlt]]]].
    + congruence.
    + rewrite Hs in Hs'. inversion Hs'; subst.
      apply trim_empty_iff in Hws. rewrite Hws in Hlen. vm_compute in Hlen.
      destruct Hlen as [Hlen _]. apply Hlen. reflexivity.
    + specialize (Hdue d Hd). lia.
Qed.

Lemma createTask_rejects_witness :
  exists msg,
    TaskService.createTask "t4" Sample.alice (Sample.newTask "   " None) Sample.world
    = (Thrown (Error ("Validation error: " ++ msg)), Sample.world).
Proof.
  destruct (createTask_rejects "t4" Sample.alice (Sample.newTask "   " None)
              Sample.world) as (msg & Hrun & _).
  - right. left. exists "   ". split; reflexivity.
  - exists msg. exact Hrun.
Defined.

(** X21. When the store refuses the row because the creator id references
    no user, the client's foreign-key error is translated: the service
    throws a plain error "Referenced record does not exist", the controller
    answers 500 with its own message, and nothing is stored. *)
Theorem createTask_unknown_creator (newId creatorId : string)
    (taskData : TaskCreationData.t) (value : TaskCreationValue.t) (w : World) :
  taskCreationSchema (now w) taskData = inr value ->
  TaskCreationData.assigneeId taskData = None ->
  (forall t, In t (tasks w) -> Task.id t <> newId) ->
  findUser (users w) creatorId = None ->
  TaskService.createTask newId creatorId taskData w
  = (Thrown (Error "Referenced record does not exist"), w)
  /\ TaskController.createTask newId (Some creatorId) taskData w
     = (Returned (mkResponse 500 (Failure "INTERNAL_ERROR" "Failed to create task")), w).
Proof.
  intros Hv Ha Hfresh Hu.
  destruct (taskCreationSchema_value _ _ _ Hv) as (E & _). rewrite Ha in E.
  pose proof (createTask_run newId creatorId taskData value w Hv) as R.
  rewrite E, (find_hasId_fresh newId (tasks w) Hfresh), Hu in R.
  split; [exact R|].
  unfold TaskController.createTask, tryCatch, bind. rewrite R. reflexivity.
Qed.

Lemma createTask_unknown_creator_witness :
  TaskService.createTask "t4" "ghost" (Sample.newTask "Plan" None) Sample.world
  = (Thrown (Error "Referenced record does not exist"), Sample.world).
Proof.
  refine (proj1 (createTask_unknown_creator "t4" "ghost" (Sample.newTask "Plan" None)
                   (TaskCreationValue.mk "Plan" None PENDING MEDIUM None None)
                   Sample.world _ _ _ _)); try reflexivity.
  simpl. intros t [<-|[<-|[<-|[]]]]; discriminate.
Defined.

(** ** Users: [deleteUser] *)

Lemma deleteUser_run (id : string) (w : World) :
  UserService.deleteUser id w
  = match findUser (users w) id with
    | Some _ =>
        (Returned tt,
         mkWorld
           (map (clearAssignee id)
              (filter (fun t => negb (String.eqb (Task.creatorId t) id)) (tasks w)))
           (filter (fun x => negb (String.eqb (User.id x) id)) (users w))
           (now w) (log w))
    | None => (Thrown (Error "The requested record was not found"), w)
    end.
Proof.
  unfold UserService.deleteUser, tryCatch, prisma.user_delete, bind, getWorld, ret.
  destruct (findUser (users w) id); reflexivity.
Qed.

Lemma clearAssignee_spec (id : string) (t : Task.t) :
  Task.id (clearAssignee id t) = Task.id t
  /\ Task.creatorId (clearAssignee id t) = Task.creatorId t
  /\ Task.assigneeId (clearAssignee id t) <> Some id
  /\ (Task.assigneeId t <> Some id -> clearAssignee id t = t).
Proof.
  unfold clearAssignee. destruct (Task.assigneeId t) as [a|] eqn:Ha.
  - destruct (String.eqb_spec a id) as [E|E]; cbn [Task.id Task.creatorId Task.assigneeId].
    + repeat split; try discriminate. intros H. congruence.
    + rewrite Ha. repeat split. congruence.
  - rewrite Ha. repeat split. discriminate.
Qed.



(** X23. Deleting a user id that no user has fails with the translated
    client error "The requested record was not found" and changes
    nothing. *)
Theorem deleteUser_missing (id : string) (w : World) :
  findUser (users w) id = None ->
  UserService.deleteUser id w
  = (Thrown (Error "The requested record was not found"), w).
Proof.
  intros Hu. rewrite deleteUser_run, Hu. reflexivity.
Qed.

Lemma deleteUser_missing_witness :
  UserService.deleteUser "ghost" Sample.world
  = (Thrown (Error "The requested record was not found"), Sample.world).
Proof.
  exact (deleteUser_missing "ghost" Sample.world eq_refl).
Defined.

Lemma filter_invisible (id : string) (ts : list Task.t) (p : Task.t -> bool) :
  (forall t, In t ts -> visibleTo id t = false) ->
  (forall t, p t = true -> visibleTo id t = true) ->
  filter p ts = [].
Proof.
  intros Hnone Hp. induction ts as [|t ts IH]; simpl; [reflexivity|].
  destruct (p t) eqn:Hpt.
  - pose proof (Hp t Hpt) as Hv.
    rewrite (Hnone t (or_introl eq_refl)) in Hv. discriminate.
  - apply IH. intros x Hx. apply Hnone. right. exact Hx.
Qed.

(** X24. Once a user is deleted, nothing is left for that id to see: any
    listing and any search for the id come back empty, and every task id
    reads as not found. *)
Theorem deleteUser_then_nothing_visible (id : string) (w w' : World) :
  UserService.deleteUser id w = (Returned tt, w') ->
  (forall filters value, taskFilterSchema filters = inr value ->
     exists r w2, TaskService.getUserTasks id filters w' = (Returned r, w2)
                  /\ tl_tasks r = [] /\ tl_total r = 0 /\ tl_totalPages r = 0)
  /\ (forall q, fst (TaskService.searchTasks id q w') = Returned [])
  /\ (forall taskId, fst (TaskService.getTaskById taskId id w') = Returned None).
Proof.
  intros Hrun. rewrite deleteUser_run in Hrun.
  destruct (findUser (users w) id) as [u|] eqn:Hu; [|discriminate].
  assert (Hnone : forall t, In t (tasks w') -> visibleTo id t = false).
  { inversion Hrun; subst; clear Hrun. cbn [tasks]. intros t Ht.
    apply in_map_iff in Ht. destruct Ht as [t0 [<- Ht0]].
    apply filter_In in Ht0. destruct Ht0 as [_ Hc].
    destruct (clearAssignee_spec id t0) as (_ & Ec & Ha & _).
    apply visibleTo_false; [|exact Ha]. rewrite Ec.
    destruct (String.eqb_spec (Task.creatorId t0) id); [discriminate|assumption]. }
  assert (Hfilter : forall p : Task.t -> bool,
             (forall t, p t = true -> visibleTo id t = true) ->
             filter p (tasks w') = []).
  { intros p Hp. apply (filter_invisible id); assumption. }
  split; [|split].
  - intros filters value Hv.
    destruct (taskFilterSchema_bounds _ _ Hv) as [_ Hl].
    rewrite (getUserTasks_run _ _ _ _ Hv).
    eexists. eexists. split; [reflexivity|]. cbn [tl_tasks tl_total tl_totalPages].
    unfold listed.
    rewrite (Hfilter _ (getUserTasks_where_sound id value)).
    assert (Hord : applyOrder (TaskService.getUserTasks_orderBy value) [] = []).
    { unfold applyOrder. destruct (orderKey _); reflexivity. }
    rewrite Hord. cbn [List.length]. change (Z.of_nat 0) with 0.
    split; [|split; [reflexivity|apply ceilDiv_zero; lia]].
    unfold page.
    destruct (Z.to_nat ((TaskFilterValue.page value - 1) * TaskFilterValue.limit value));
      destruct (Z.to_nat (TaskFilterValue.limit value)); reflexivity.
  - intros q. destruct (Js.allWhiteSpace q) eqn:Hq.
    + rewrite searchTasks_short_circuit by (rewrite truthy_trim, Hq; reflexivity).
      reflexivity.
    + rewrite (searchTasks_run id q w' Hq). cbn [fst]. unfold searchResult.
      rewrite (Hfilter (fun t => (visibleTo id t && mentions q t)%bool))
        by (intros t Ht; apply andb_true_iff in Ht; tauto).
      reflexivity.
  - intros taskId. rewrite getTaskById_run. cbn [fst].
    rewrite find_participant_none by (intros t Ht _; exact (Hnone t Ht)).
    reflexivity.
Qed.

Lemma deleteUser_then_nothing_visible_witness :
  exists w',
    UserService.deleteUser Sample.bob Sample.world = (Returned tt, w')
    /\ fst (TaskService.getTaskById "t1" Sample.bob w') = Returned None.
Proof.
  eexists. split; [vm_compute; reflexivity|].
  refine (proj2 (proj2 (deleteUser_then_nothing_visible Sample.bob Sample.world _ _)) "t1").
  vm_compute. reflexivity.
Defined.

(** ** Updating: which fields a patch touches *)

(** What the update schema lets through, field by field. *)
Lemma taskUpdateSchema_fields (patch value : TaskUpdateData.t) :
  taskUpdateSchema patch = inr value ->
  TaskUpdateData.title value
  = match TaskUpdateData.title patch with
    | Value s => Value (Js.trim s)
    | _ => Undefined
    end
  /\ TaskUpdateData.description value
     = match TaskUpdateData.description patch with
       | Value s => Value (Js.trim s)
       | _ => Undefined
       end
  /\ TaskUpdateData.status value = TaskUpdateData.status patch
  /\ TaskUpdateData.priority value = TaskUpdateData.priority patch
  /\ TaskUpdateData.dueDate value = TaskUpdateData.dueDate patch
  /\ TaskUpdateData.title patch <> Null
  /\ TaskUpdateData.description patch <> Null
  /\ TaskUpdateData.status patch <> Null
  /\ TaskUpdateData.priority patch <> Null.
Proof.
  unfold taskUpdateSchema. intros H. joi_invert H.
  inversion H; subst; clear H.
  cbn [TaskUpdateData.title TaskUpdateData.description TaskUpdateData.status
       TaskUpdateData.priority TaskUpdateData.dueDate].
  destruct (TaskUpdateData.title patch) as [| |s]; try discriminate;
    destruct (TaskUpdateData.description patch) as [| |d]; try discriminate;
    destruct (TaskUpdateData.status patch) as [| |st]; try discriminate;
    destruct (TaskUpdateData.priority patch) as [| |pr]; try discriminate;
    repeat match goal with
           | E : (if ?b then _ else _) = inr _ |- _ =>
               destruct b; try discriminate E
           end;
    repeat match goal with
           | E : inr _ = inr _ |- _ => inversion E; subst; clear E
           end;
    repeat split; try reflexivity; discriminate.
Qed.

(** X26. An update that goes through changes exactly the fields present in
    the patch: a field that is absent keeps its stored value, a title or
    description is stored trimmed, a status or priority as given, a due
    date of [null] is cleared. [updatedAt] becomes the current time when
    one of these five fields is present, and stays as it was for the empty
    patch and for the patch that only clears the assignee. *)
Theorem updateTask_applies_present_fields (actor : string) (patch value : TaskUpdateData.t)
    (w : World) (t : Task.t) (r : TaskWithRelations) :
  wellFormed w -> In t (tasks w) -> visibleTo actor t = true ->
  taskUpdateSchema patch = inr value ->
  fst (TaskService.updateTask (Task.id t) actor patch w) = Returned r ->
  Task.title (task r)
  = match TaskUpdateData.title patch with
    | Value s => Js.trim s
    | _ => Task.title t
    end
  /\ Task.description (task r)
     = match TaskUpdateData.description patch with
       | Value s => Some (Js.trim s)
       | _ => Task.description t
       end
  /\ Task.status (task r)
     = match TaskUpdateData.status patch with
       | Value s => s
       | _ => Task.status t
       end
  /\ Task.priority (task r)
     = match TaskUpdateData.priority patch with
       | Value p => p
       | _ => Task.priority t
       end
  /\ Task.dueDate (task r)
     = match TaskUpdateData.dueDate patch with
       | Undefined => Task.dueDate t
       | Null => None
       | Value d => Some d
       end
  /\ (TaskUpdateData.title patch <> Undefined
      \/ TaskUpdateData.description patch <> Undefined
      \/ TaskUpdateData.status patch <> Undefined
      \/ TaskUpdateData.priority patch <> Undefined
      \/ TaskUpdateData.dueDate patch <> Undefined ->
      Task.updatedAt (task r) = now w)
  /\ (TaskUpdateData.title patch = Undefined ->
      TaskUpdateData.description patch = Undefined ->
      TaskUpdateData.status patch = Undefined ->
      TaskUpdateData.priority patch = Undefined ->
      TaskUpdateData.dueDate patch = Undefined ->
      (forall a, TaskUpdateData.assigneeId patch <> Value a) ->
      Task.updatedAt (task r) = Task.updatedAt t)
  /\ Task.id (task r) = Task.id t
  /\ Task.creatorId (task r) = Task.creatorId t
  /\ Task.createdAt (task r) = Task.createdAt t.
Proof.
  intros Hwf Hin Hvis Hv Hr.
  destruct (taskUpdateSchema_fields _ _ Hv)
    as (Et & Ed & Es & Ep & Edue & Nt & Nd & Ns & Np).
  destruct (updateTask_found (Task.id t) actor patch value w t t Hv
              (find_participant_some actor (tasks w) t Hwf Hin Hvis)
              (find_hasId (tasks w) t Hwf Hin))
    as [(a & _ & _ & Hthrown & _)|(Hret & _)].
  - rewrite Hthrown in Hr. discriminate Hr.
  - rewrite Hret in Hr. inversion Hr; subst; clear Hr.
    cbn [task withRelations].
    unfold applyUpdate, writesScalar, TaskService.updateTask_payload.
    cbn [Task.title Task.description Task.status Task.priority Task.dueDate
         Task.updatedAt Task.id Task.creatorId Task.createdAt
         UpdateInput.title UpdateInput.description UpdateInput.status
         UpdateInput.priority UpdateInput.dueDate].
    rewrite Et, Ed, Es, Ep, Edue.
    destruct (TaskUpdateData.title patch), (TaskUpdateData.description patch),
      (TaskUpdateData.status patch), (TaskUpdateData.priority patch),
      (TaskUpdateData.dueDate patch);
      try (exfalso; congruence);
      repeat split; try reflexivity; intros; try reflexivity;
      try (exfalso; intuition congruence); try discriminate.
Qed.

Lemma updateTask_applies_present_fields_witness :
  exists r,
    fst (TaskService.updateTask "t1" Sample.bob (Sample.titlePatch "  Renamed ")
           Sample.world) = Returned r
    /\ Task.title (task r) = "Renamed"
    /\ Task.status (task r) = PENDING
    /\ Task.updatedAt (task r) = 100.
Proof.
  eexists. split; [vm_compute; reflexivity|].
  destruct (updateTask_applies_present_fields Sample.bob
              (Sample.titlePatch "  Renamed ") (Sample.titlePatch "Renamed")
              Sample.world
              (Sample.mkTask "t1" "Implement Search" Sample.alice (Some Sample.bob) 10)
              (withRelations (users Sample.world)
                 (Task.mk "t1" "Renamed" None PENDING MEDIUM None 0 100 Sample.alice
                    (Some Sample.bob))))
    as (Ht & _ & Hs & _ & _ & Hstamp & _).
  - unfold wellFormed. simpl. repeat constructor; simpl; intuition discriminate.
  - simpl. tauto.
  - reflexivity.
  - reflexivity.
  - reflexivity.
  - split; [reflexivity|]. split; [reflexivity|].
    apply Hstamp. left. discriminate.
Defined.

(** The empty patch and the patch that only clears the assignee leave
    [updatedAt] at 10; a patch with a title moves it to the current time,
    100. *)
Example updateTask_updatedAt :
  match fst (TaskService.updateTask "t1" Sample.bob TaskUpdateData.empty Sample.world),
        fst (TaskService.updateTask "t1" Sample.bob Sample.unassignPatch Sample.world),
        fst (TaskService.updateTask "t1" Sample.bob (Sample.titlePatch "Renamed")
               Sample.world) with
  | Returned r1, Returned r2, Returned r3 =>
      Task.updatedAt (task r1) = 10 /\ Task.updatedAt (task r2) = 10
      /\ Task.updatedAt (task r3) = 100
  | _, _, _ => False
  end.
Proof. vm_compute. repeat split. Qed.
